(** * SubtitleTool: the subtitle block model and the chunked translation
      pipeline of [SubtitleTool.py], embedded in Rocq.

    Definitions, following the Python source:
    - [Py]: the fragment of Python's [str] and [int] the program uses
      ([strip], [isdigit], [in], [join], [lower], [str(int)], the format
      specification [0Nd], [divmod], [os.path.splitext], iteration over
      the lines of a text file);
    - [Float]: binary64 arithmetic ([%], [*], [int]) on the Standard
      Library's [spec_float], and the exact value of a float;
    - [SubtitleProcessor]: [_format_time], the writing loop of
      [generate_subtitles_with_whisper], [_translate_block] and
      [translate_subtitles], over an explicit world (file store, console,
      log of remote requests), with the parser and the batches that are
      inside the loop of [translate_subtitles]; the output of
      [translate_subtitles] is opened with [open_w_checked], which raises
      where the path cannot be created;
    - [PyPath]: [split], [rsplit], [os.path.basename], [os.path.join] and
      the search for the pattern of a subtitle track;
    - [tools]: the commands behind [subprocess], [os.makedirs] and the
      transcription model, each an arbitrary command of the world;
    - [Mkv]: [extract_subtitle_tracks] and [extract_subtitles_from_mkv];
    - [Whisper]: [extract_audio] and [generate_subtitles_with_whisper].

    Theorems: facts about strings, the line classifier, the batches, the
    output path and the run of a translation; then the claims on the
    parser (C4, C10) and on the pipeline (C1, C2, C5, C6, C9); then
    binary64 rounding and decimal fields, and the claims on the timecode
    (C7) and on the entries written and read back (C8, C3).  After the
    claims: the shape of the chunks (X1-X3), the runs of a translation
    (X4-X8), the shape of a timecode (X9-X11), the listing of the tracks
    and the extraction (X12-X17), the outcomes of a transcription
    (X18-X22) and the way from the file written to the chunks read (X23).

    A [str] is the list of its characters.  Characters are 8-bit: the
    model covers text whose code points lie in U+0000..U+00FF, with the
    interpreter's [isspace] and [isdigit] tables for that range.  Paths
    follow POSIX; the file store holds regular files only. *)

From Stdlib Require Import ZArith NArith Ascii String List Bool Lia.
From Stdlib Require Import Decimal DecimalString DecimalZ.
From Stdlib Require Import Floats.SpecFloat QArith Qround.
From stdpp Require Import gmap strings list.

Close Scope Q_scope.
Local Open Scope Z_scope.

(* ===================================================================== *)
(** * Python strings and integers                                         *)
(* ===================================================================== *)

Module Py.

Abbreviation str := (list ascii).

Definition LF : ascii := ascii_of_N 10.
Definition CR : ascii := ascii_of_N 13.

(** A Python string literal: the two characters backslash-n stand for a
    line feed, as they do in the source. *)
Fixpoint py (s : string) : str :=
  match s with
  | EmptyString => []
  | String c r =>
      match r with
      | String c' r' =>
          if Ascii.eqb c "\" && Ascii.eqb c' "n" then LF :: py r'
          else c :: py r
      | EmptyString => [c]
      end
  end.

(** [str.isspace] on one character: the interpreter's whitespace table,
    rows U+0009..U+000D, U+001C..U+0020, U+0085, U+00A0. *)
Definition isspace (c : ascii) : bool :=
  let n := N_of_ascii c in
  ((9 <=? n) && (n <=? 13) || (28 <=? n) && (n <=? 32) ||
   (n =? 133) || (n =? 160))%N.

(** [str.isdigit] on one character: Numeric_Type Digit or Decimal, rows
    U+0030..U+0039, U+00B2, U+00B3, U+00B9. *)
Definition isdigit_char (c : ascii) : bool :=
  let n := N_of_ascii c in
  ((48 <=? n) && (n <=? 57) || (n =? 178) || (n =? 179) || (n =? 185))%N.

(** The ten digits 0-9, which [str(n)] is made of *)
Definition ascii_digit (c : ascii) : bool :=
  let n := N_of_ascii c in ((48 <=? n) && (n <=? 57))%N.

(** [s.lstrip()], [s.rstrip()], [s.strip()] *)
Fixpoint lstrip (s : str) : str :=
  match s with
  | [] => []
  | c :: r => if isspace c then lstrip r else s
  end.

Definition rstrip (s : str) : str := rev (lstrip (rev s)).

Definition strip (s : str) : str := rstrip (lstrip s).

(** [s.isdigit()]: non-empty and every character is a digit *)
Definition isdigit (s : str) : bool :=
  match s with
  | [] => false
  | _ => forallb isdigit_char s
  end.

(** [s.startswith(p)] and [sub in s] *)
Fixpoint startswith (p s : str) : bool :=
  match p, s with
  | [], _ => true
  | _ :: _, [] => false
  | a :: p', b :: s' => Ascii.eqb a b && startswith p' s'
  end.

Fixpoint contains (sub s : str) : bool :=
  startswith sub s ||
  match s with
  | [] => false
  | _ :: r => contains sub r
  end.

(** [sep.join(l)] *)
Fixpoint join (sep : str) (l : list str) : str :=
  match l with
  | [] => []
  | x :: r =>
      match r with
      | [] => x
      | _ :: _ => x ++ sep ++ join sep r
      end
  end.

(** Truth value of a string: [if s:] *)
Definition truthy (s : str) : bool :=
  match s with [] => false | _ :: _ => true end.

(** [s.lower()] on U+0000..U+00FF: A-Z, and the capital letters of
    U+00C0..U+00DE except the multiplication sign U+00D7. *)
Definition lower_char (c : ascii) : ascii :=
  let n := N_of_ascii c in
  if ((65 <=? n) && (n <=? 90) ||
      (192 <=? n) && (n <=? 222) && negb (n =? 215))%N
  then ascii_of_N (n + 32) else c.

Definition lower (s : str) : str := map lower_char s.

(** Text-mode reading with the default [newline=None]: the line endings
    CR LF and CR are translated to LF. *)
Fixpoint universal_newlines (s : str) : str :=
  match s with
  | [] => []
  | c :: r =>
      if Ascii.eqb c CR then
        match r with
        | c' :: r' =>
            if Ascii.eqb c' LF then LF :: universal_newlines r'
            else LF :: universal_newlines r
        | [] => [LF]
        end
      else c :: universal_newlines r
  end.

(** [for line in f]: each line keeps its terminating LF; the last line
    may lack one.  [cur] is the line read so far. *)
Fixpoint iter_lines_from (cur : str) (s : str) : list str :=
  match s with
  | [] => if truthy cur then [cur] else []
  | c :: r =>
      if Ascii.eqb c LF then (cur ++ [c]) :: iter_lines_from [] r
      else iter_lines_from (cur ++ [c]) r
  end.

Definition iter_lines (s : str) : list str := iter_lines_from [] s.

(** [str(n)] for an int *)
Definition str_of_int (n : Z) : str :=
  list_ascii_of_string (NilZero.string_of_int (Z.to_int n)).

(** [int(s)] restricted to what [str] produces (sign and decimal digits) *)
Definition int_of_str (s : str) : option Z :=
  option_map Z.of_int (NilZero.int_of_string (string_of_list_ascii s)).

(** [format(n, "0Wd")]: sign-aware zero padding to width [w] *)
Definition zfill (w : nat) (digits : str) : str :=
  replicate (w - length digits) "0"%char ++ digits.

Definition format_0d (w : nat) (n : Z) : str :=
  if n <? 0 then "-"%char :: zfill (w - 1) (str_of_int (- n))
  else zfill w (str_of_int n).

(** [divmod(a, b)] on ints: floor division *)
Definition divmod (a b : Z) : Z * Z := (a / b, a mod b).

(** [os.path.splitext] (posixpath): the extension starts at the last dot
    of the last path component, leading dots of the component apart. *)
Fixpoint rfind_from (c : ascii) (s : str) (i : Z) (acc : Z) : Z :=
  match s with
  | [] => acc
  | a :: r => rfind_from c r (i + 1) (if Ascii.eqb a c then i else acc)
  end.

Definition rfind (c : ascii) (s : str) : Z := rfind_from c s 0 (-1).

Fixpoint skip_leading_dots (p : str) (dotIndex : Z) (tail : str)
    (filenameIndex : Z) : str * str :=
  match tail with
  | [] => (p, [])
  | a :: tail' =>
      if filenameIndex <? dotIndex then
        if Ascii.eqb a "."
        then skip_leading_dots p dotIndex tail' (filenameIndex + 1)
        else (take (Z.to_nat dotIndex) p, drop (Z.to_nat dotIndex) p)
      else (p, [])
  end.

(** [tail] of [skip_leading_dots] is [p[filenameIndex:]], so that its
    head is [p[filenameIndex]]. *)
Definition splitext (p : str) : str * str :=
  let sepIndex := rfind "/" p in
  let dotIndex := rfind "." p in
  if sepIndex <? dotIndex
  then skip_leading_dots p dotIndex (drop (Z.to_nat (sepIndex + 1)) p)
         (sepIndex + 1)
  else (p, []).

End Py.

(* ===================================================================== *)
(** * Exceptions                                                          *)
(* ===================================================================== *)

(** A computation returns a value or raises; [e] is the text [str(e)] of
    the exception, which is all the program ever looks at. *)
Inductive result (A : Type) : Type :=
  | Ok (a : A)
  | Raise (e : Py.str).
Arguments Ok {A} a.
Arguments Raise {A} e.

Definition rbind {A B} (r : result A) (k : A -> result B) : result B :=
  match r with
  | Ok a => k a
  | Raise e => Raise e
  end.

Declare Scope result_scope.
Delimit Scope result_scope with result.
Notation "'rdo' x <- r ; k" := (rbind r (fun x => k))
  (at level 10, x name, r at level 100, k at level 200) : result_scope.

(* ===================================================================== *)
(** * binary64                                                            *)
(* ===================================================================== *)

Module Float.
Import Py.

Definition prec : Z := 53.
Definition emax : Z := 1024.

(** A Python [float] is a binary64; [spec_float] carries sign, mantissa
    and exponent: [S754_finite s m e] is (-1)^s * m * 2^e. *)
Abbreviation float := spec_float.

Definition valid (x : float) : bool := valid_binary prec emax x.

(** [float(n)] for an int, rounded to nearest even *)
Definition of_int (n : Z) : float := binary_normalize prec emax n 0 false.

Definition mul : float -> float -> float := SFmul prec emax.
Definition add : float -> float -> float := SFadd prec emax.
Definition div : float -> float -> float := SFdiv prec emax.

(** The decimal literal [n * 10^-k] (such as [59.9994] = [decimal 599994
    4]): the binary64 nearest to it.  For [n] and [10^k] below 2^53 the
    correctly rounded quotient of the two integers is that float. *)
Definition decimal (n : Z) (k : Z) : float := div (of_int n) (of_int (10 ^ k)).

(** C's [fmod(x, 1.0)]: exact, with the sign of [x] *)
Definition fmod1 (x : float) : float :=
  match x with
  | S754_nan | S754_infinity _ => S754_nan
  | S754_zero s => S754_zero s
  | S754_finite s m e =>
      if 0 <=? e then S754_zero s
      else binary_normalize prec emax
             (cond_Zopp s (Zpos m mod 2 ^ (- e))) e s
  end.

(** [x % 1] ([float_rem] with [wx = 1.0]): a nonzero remainder takes the
    sign of the divisor by adding the divisor, a zero remainder is
    [copysign(0.0, wx)]. *)
Definition mod1 (x : float) : float :=
  let m := fmod1 x in
  match m with
  | S754_zero _ => S754_zero false
  | S754_finite true _ _ => add m (of_int 1)
  | _ => m
  end.

(** [int(x)]: truncation toward zero; raises on NaN and infinities *)
Definition to_int (x : float) : result Z :=
  match x with
  | S754_nan => Raise (py "cannot convert float NaN to integer")
  | S754_infinity _ => Raise (py "cannot convert float infinity to integer")
  | S754_zero _ => Ok 0
  | S754_finite s m e =>
      Ok (cond_Zopp s (if 0 <=? e then Zpos m * 2 ^ e
                       else Zpos m / 2 ^ (- e)))
  end.

(** ** The exact value of a float

    [value x] is the rational number the finite float [x] stands for;
    [exact_seconds] and [exact_millis] are the whole seconds and the whole
    milliseconds of the fractional part, in exact arithmetic. *)
Definition nonneg (x : float) : bool :=
  match x with
  | S754_zero _ | S754_finite false _ _ => true
  | _ => false
  end.

Definition value (x : float) : Q :=
  match x with
  | S754_finite s m e =>
      if 0 <=? e then inject_Z (cond_Zopp s (Zpos m * 2 ^ e))
      else Qmake (cond_Zopp s (Zpos m)) (Z.to_pos (2 ^ (- e)))
  | _ => 0%Q
  end.

Definition exact_seconds (x : float) : Z := Qfloor (value x).

Definition exact_millis (x : float) : Z :=
  Qfloor ((value x - inject_Z (Qfloor (value x))) * inject_Z 1000)%Q.

End Float.

(* ===================================================================== *)
(** * The world: files, console, remote requests                          *)
(* ===================================================================== *)

Import Py.

(** The remote chat-completion service behind [openai_client]: from the
    system and the user message to the content of the first choice, or an
    exception. *)
Definition client : Type := str -> str -> result str.

(** [fs] maps the path of each regular file to its text; [console] holds
    the printed lines; [requests] the (system, user) messages sent to the
    remote service, oldest first. *)
Record world : Type := World {
  fs : gmap str str;
  console : list str;
  requests : list (str * str)
}.

(** Commands: a world transformer that returns or raises.  What a command
    did before it raised stays done. *)
Definition M (A : Type) : Type := world -> result A * world.

Definition ret {A} (a : A) : M A := fun w => (Ok a, w).

Definition bind {A B} (m : M A) (k : A -> M B) : M B :=
  fun w =>
    match m w with
    | (Ok a, w') => k a w'
    | (Raise e, w') => (Raise e, w')
    end.

(** [try: m except Exception as e: h e] *)
Definition try_except {A} (m : M A) (h : str -> M A) : M A :=
  fun w =>
    match m w with
    | (Ok a, w') => (Ok a, w')
    | (Raise e, w') => h e w'
    end.

Definition lift {A} (r : result A) : M A := fun w => (r, w).

Notation "'do' x <- m ; k" := (bind m (fun x => k))
  (at level 10, x pattern, m at level 100, k at level 200).
Notation "m ;; k" := (bind m (fun _ => k))
  (at level 100, k at level 200, right associativity).

(** [print(s)] *)
Definition print (s : str) : M unit :=
  fun w => (Ok tt, World (fs w) (console w ++ [s]) (requests w)).

(** [os.path.exists(p)] *)
Definition path_exists (p : str) : M bool :=
  fun w => (Ok (bool_decide (is_Some (fs w !! p))), w).

(** [open(p, 'w')] once the system has accepted the path: it creates the
    file or truncates it.  [generate_subtitles_with_whisper] opens its
    output this way, beside the video file, which exists. *)
Definition open_w (p : str) : M unit :=
  fun w => (Ok tt, World (<[p := []]> (fs w)) (console w) (requests w)).

(** ** Paths that cannot be opened for writing

    The store holds regular files only.  Its directories are the current
    directory (the empty path), the root, and every path that has a file
    of the store below it; paths are compared as they are written. *)

(** [s.rstrip('/')], on the reversed string *)
Fixpoint drop_seps (s : str) : str :=
  match s with
  | [] => []
  | c :: r => if Ascii.eqb c "/" then drop_seps r else s
  end.

(** [os.path.dirname(p)] (posixpath) *)
Definition dirname (p : str) : str :=
  let head := take (Z.to_nat (rfind "/" p + 1)) p in
  if truthy head && negb (forallb (Ascii.eqb "/") head)
  then rev (drop_seps (rev head))
  else head.

(** Some path of a file of the store satisfies [f] *)
Definition any_path (files : gmap str str) (f : str -> bool) : bool :=
  existsb f (map fst (map_to_list files)).

Definition isdir (files : gmap str str) (d : str) : bool :=
  negb (truthy d) || forallb (Ascii.eqb "/") d ||
  any_path files (startswith (d ++ py "/")).

(** The exception that [open(p, 'w')] raises, if it raises: the path is
    empty, it ends with "/", a regular file stands where it needs a
    directory, its directory does not exist, or it names a directory.
    The text is the system's, with the path in quotes. *)
Definition open_error (files : gmap str str) (p : str) : option str :=
  let quoted := py "'" ++ p ++ py "'" in
  if negb (truthy p) then
    Some (py "[Errno 2] No such file or directory: " ++ quoted)
  else if bool_decide (last p = Some "/"%char) then
    Some (py "[Errno 21] Is a directory: " ++ quoted)
  else if any_path files (fun q => startswith (q ++ py "/") p) then
    Some (py "[Errno 20] Not a directory: " ++ quoted)
  else if negb (isdir files (dirname p)) then
    Some (py "[Errno 2] No such file or directory: " ++ quoted)
  else if isdir files p then
    Some (py "[Errno 21] Is a directory: " ++ quoted)
  else None.

(** [open(p, 'w')] at a path that the system may refuse, as the output
    path of [translate_subtitles], which holds the target language *)
Definition open_w_checked (p : str) : M unit :=
  fun w =>
    match open_error (fs w) p with
    | Some e => (Raise e, w)
    | None => open_w p w
    end.

(** [f.write(s)] on the file opened at [p] *)
Definition write (p : str) (s : str) : M unit :=
  fun w => (Ok tt, World (alter (fun c => c ++ s) p (fs w))
                         (console w) (requests w)).

(** The lines of the file opened for reading at [p] *)
Definition read_lines (p : str) : M (list str) :=
  fun w =>
    match fs w !! p with
    | Some c => (Ok (iter_lines (universal_newlines c)), w)
    | None => (Raise (py "[Errno 2] No such file or directory"), w)
    end.

(** [client.chat.completions.create(...)] followed by
    [.choices[0].message.content] *)
Definition chat_completions_create (c : client) (system user : str)
    : M str :=
  fun w =>
    (c system user,
     World (fs w) (console w) (requests w ++ [(system, user)])).

(* ===================================================================== *)
(** * class SubtitleProcessor                                             *)
(* ===================================================================== *)

Module SubtitleProcessor.
Import Float.
Local Open Scope result_scope.

(** [_format_time(self, seconds)] *)
Definition _format_time (seconds : float) : result str :=
  rdo milliseconds <- to_int (mul (mod1 seconds) (of_int 1000));
  rdo total_seconds <- to_int seconds;
  let '(minutes, seconds) := divmod total_seconds 60 in
  let '(hours, minutes) := divmod minutes 60 in
  Ok (format_0d 2 hours ++ py ":" ++ format_0d 2 minutes ++ py ":" ++
      format_0d 2 seconds ++ py "," ++ format_0d 3 milliseconds).

(** One element of [result["segments"]] *)
Record segment : Type := Segment {
  seg_start : float;
  seg_end : float;
  seg_text : str
}.

(** The text written for segment number [i] by the body of the loop of
    [generate_subtitles_with_whisper] *)
Definition segment_entry (i : Z) (segment : segment) : result str :=
  rdo start <- _format_time (seg_start segment);
  rdo end_ <- _format_time (seg_end segment);
  let text := strip (seg_text segment) in
  Ok (str_of_int i ++ py "\n" ++ start ++ py " --> " ++ end_ ++ py "\n" ++
      text ++ py "\n\n").

(** [for i, segment in enumerate(result["segments"], start=1): ...
    f.write(...)] on the file opened at [output_srt_path] *)
Fixpoint write_segments (output_srt_path : str) (i : Z)
    (segments : list segment) : M unit :=
  match segments with
  | [] => ret tt
  | segment :: rest =>
      do entry <- lift (segment_entry i segment);
      write output_srt_path entry ;;
      write_segments output_srt_path (i + 1) rest
  end.

(** [with open(output_srt_path, "w", encoding="utf-8") as f: for ...] *)
Definition write_srt (output_srt_path : str) (segments : list segment)
    : M unit :=
  open_w output_srt_path ;;
  write_segments output_srt_path 1 segments.

(** The timecode of a float that [_format_time] accepts, and the entry of
    a segment with such floats *)
Definition timecode (seconds : float) : str :=
  match _format_time seconds with
  | Ok s => s
  | Raise _ => []
  end.

Definition entry_of (i : Z) (segment : segment) : str :=
  str_of_int i ++ py "\n" ++
  timecode (seg_start segment) ++ py " --> " ++
  timecode (seg_end segment) ++ py "\n" ++
  strip (seg_text segment) ++ py "\n\n".

(** A segment whose start and end are finite floats, not negative *)
Definition timed (segment : segment) : Prop :=
  valid (seg_start segment) = true /\ nonneg (seg_start segment) = true /\
  valid (seg_end segment) = true /\ nonneg (seg_end segment) = true.

(** The system message of [_translate_block] *)
Definition system_message (target_language : str) : str :=
  py "Translate the following English subtitles into " ++ target_language ++
  py ". Maintain the original subtitle numbering and timing. Translate accurately.".

(** [_translate_block(self, dialogue_block, target_language)] *)
Definition _translate_block (openai_client : client)
    (dialogue_block target_language : str) : M str :=
  do content <- chat_completions_create openai_client
      (system_message target_language) dialogue_block;
  ret (strip content).

(** The [if / elif / elif / else] of the loop body of
    [translate_subtitles] on the two local variables; [None] is the
    [continue]. *)
Definition read_line (line : str) (dialogue_blocks : list str)
    (current_block : str) : option (list str * str) :=
  if isdigit (strip line) then
    let '(dialogue_blocks, current_block) :=
      if truthy current_block
      then (dialogue_blocks ++ [current_block], [])
      else (dialogue_blocks, current_block) in
    Some (dialogue_blocks, current_block ++ line)
  else if contains (py "-->") line then
    Some (dialogue_blocks, current_block ++ line)
  else if bool_decide (strip line = []) then
    None
  else
    Some (dialogue_blocks, current_block ++ line).

(** The [if len(dialogue_blocks) == 5:] at the end of the loop body *)
Definition translate_full (openai_client : client)
    (target_language output_path : str)
    (dialogue_blocks : list str) : M (list str) :=
  if (length dialogue_blocks =? 5)%nat then
    do translated_block <-
      _translate_block openai_client (join (py "\n") dialogue_blocks)
        target_language;
    write output_path (strip translated_block ++ py "\n\n") ;;
    ret []
  else ret dialogue_blocks.

(** [for line in infile: ...] *)
Fixpoint for_lines (openai_client : client)
    (target_language output_path : str) (lines : list str)
    (dialogue_blocks : list str) (current_block : str)
    : M (list str * str) :=
  match lines with
  | [] => ret (dialogue_blocks, current_block)
  | line :: rest =>
      match read_line line dialogue_blocks current_block with
      | None =>
          for_lines openai_client target_language output_path rest
            dialogue_blocks current_block
      | Some (dialogue_blocks, current_block) =>
          do dialogue_blocks <-
            translate_full openai_client target_language output_path
              dialogue_blocks;
          for_lines openai_client target_language output_path rest
            dialogue_blocks current_block
      end
  end.

(** The statements after the loop, still inside the [with] *)
Definition translate_rest (openai_client : client)
    (target_language output_path : str)
    (dialogue_blocks : list str) (current_block : str) : M unit :=
  let dialogue_blocks :=
    if truthy current_block then dialogue_blocks ++ [current_block]
    else dialogue_blocks in
  match dialogue_blocks with
  | [] => ret tt
  | _ :: _ =>
      do translated_block <-
        _translate_block openai_client (join (py "\n") dialogue_blocks)
          target_language;
      write output_path (strip translated_block ++ py "\n")
  end.

Definition output_path_of (input_path target_language : str) : str :=
  fst (splitext input_path) ++ py "." ++ lower target_language ++ py ".srt".

(** [translate_subtitles(self, input_path, target_language)];
    [openai_client] is [self.openai_client], [None] when no key is
    configured.  The input exists when it is opened; the opening of the
    output may raise, inside the [try]; the input is read once the
    output has been opened. *)
Definition translate_subtitles (openai_client : option client)
    (input_path target_language : str) : M (option str) :=
  match openai_client with
  | None =>
      print (py "OpenAI API key not set. Cannot translate.") ;;
      ret None
  | Some openai_client =>
      do found <- path_exists input_path;
      if negb found then
        print (py "Input file not found: " ++ input_path) ;;
        ret None
      else
        let output_path := output_path_of input_path target_language in
        try_except
          (open_w_checked output_path ;;
           do lines <- read_lines input_path;
           do (dialogue_blocks, current_block) <-
             for_lines openai_client target_language output_path lines
               [] [];
           translate_rest openai_client target_language output_path
             dialogue_blocks current_block ;;
           print (py "Translated subtitle saved to: " ++ output_path) ;;
           ret (Some output_path))
          (fun e =>
             print (py "Translation error: " ++ e) ;;
             ret None)
  end.

(** ** The parser inside the loop

    The chunks the loop forms, in the order it closes them: the loop of
    [translate_subtitles] without its translation step, then the chunk
    still open at the end of the input. *)
Fixpoint parse_lines (lines : list str) (dialogue_blocks : list str)
    (current_block : str) : list str * str :=
  match lines with
  | [] => (dialogue_blocks, current_block)
  | line :: rest =>
      match read_line line dialogue_blocks current_block with
      | None => parse_lines rest dialogue_blocks current_block
      | Some (dialogue_blocks, current_block) =>
          parse_lines rest dialogue_blocks current_block
      end
  end.

Definition parseStream (lines : list str) : list str :=
  let '(dialogue_blocks, current_block) := parse_lines lines [] [] in
  if truthy current_block then dialogue_blocks ++ [current_block]
  else dialogue_blocks.

(** ** The batches of the loop

    [loop_batches] lists the values of [dialogue_blocks] that the loop
    hands to [_translate_block], in order, with the two local variables
    at the exit of the loop; [last_batch] is the value of
    [dialogue_blocks] tested by the [if dialogue_blocks:] after the
    loop. *)
Fixpoint loop_batches (lines : list str) (dialogue_blocks : list str)
    (current_block : str) : list (list str) * (list str * str) :=
  match lines with
  | [] => ([], (dialogue_blocks, current_block))
  | line :: rest =>
      match read_line line dialogue_blocks current_block with
      | None => loop_batches rest dialogue_blocks current_block
      | Some (dialogue_blocks, current_block) =>
          if (length dialogue_blocks =? 5)%nat then
            let '(batches, exit) := loop_batches rest [] current_block in
            (dialogue_blocks :: batches, exit)
          else loop_batches rest dialogue_blocks current_block
      end
  end.

Definition last_batch (exit : list str * str) : list str :=
  let '(dialogue_blocks, current_block) := exit in
  if truthy current_block then dialogue_blocks ++ [current_block]
  else dialogue_blocks.

(** The request [_translate_block] sends for a batch, and the text
    [translate_subtitles] writes for it when the service answers with
    [respond]: the answer is stripped by [_translate_block] and again by
    its caller. *)
Definition request_of (target_language : str) (batch : list str)
    : str * str :=
  (system_message target_language, join (py "\n") batch).

Definition translated (respond : str -> str -> str)
    (target_language : str) (batch : list str) : str :=
  strip (strip (respond (system_message target_language)
                        (join (py "\n") batch))).

(** A service that always answers *)
Definition answering (respond : str -> str -> str) : client :=
  fun system user => Ok (respond system user).

(** ** Grouping chunks into batches

    [batches_of] groups five chunks into a batch as long as a further
    chunk follows; the chunks that remain, one to five of them, form the
    last batch. *)
Fixpoint batches_of (chunks : list str) : list (list str) :=
  match chunks with
  | c1 :: c2 :: c3 :: c4 :: c5 :: ((_ :: _) as rest) =>
      [c1; c2; c3; c4; c5] :: batches_of rest
  | [] => []
  | _ => [chunks]
  end.

(** The text written for a list of batches: a blank line after every
    batch but the last, a single line feed after the last. *)
Fixpoint write_batches (tr : list str -> str) (batches : list (list str))
    : str :=
  match batches with
  | [] => []
  | b :: rest =>
      match rest with
      | [] => tr b ++ py "\n"
      | _ :: _ => tr b ++ py "\n\n" ++ write_batches tr rest
      end
  end.

(** The grouping as the specification words it: every five chunks form a
    full batch, returned by [push]; [flush] returns what remains, if
    anything.  Full batches are written with a blank line after them, the
    flushed batch with a single line feed. *)
Fixpoint full_batches (chunks : list str) : list (list str) * list str :=
  match chunks with
  | c1 :: c2 :: c3 :: c4 :: c5 :: rest =>
      let '(full, partial) := full_batches rest in
      ([c1; c2; c3; c4; c5] :: full, partial)
  | _ => ([], chunks)
  end.

Definition spec_output (tr : list str -> str) (chunks : list str) : str :=
  let '(full, partial) := full_batches chunks in
  concat (map (fun b => tr b ++ py "\n\n") full) ++
  match partial with
  | [] => []
  | _ :: _ => tr partial ++ py "\n"
  end.

End SubtitleProcessor.

(* ===================================================================== *)
(** * Paths, [split] and the track pattern                                *)
(* ===================================================================== *)

Module PyPath.

(** [s.split(sep)] for a separator of one character *)
Fixpoint split_from (sep : ascii) (cur : str) (s : str) : list str :=
  match s with
  | [] => [cur]
  | c :: r =>
      if Ascii.eqb c sep then cur :: split_from sep [] r
      else split_from sep (cur ++ [c]) r
  end.

Definition split (sep : ascii) (s : str) : list str := split_from sep [] s.

(** [s.rsplit(sep, 1)[0]]: what precedes the last [sep], the whole of [s]
    without one *)
Definition rsplit1_head (sep : ascii) (s : str) : str :=
  let i := rfind sep s in
  if i <? 0 then s else take (Z.to_nat i) s.

(** [os.path.basename(p)] (posixpath): [p[p.rfind('/') + 1:]] *)
Definition basename (p : str) : str :=
  drop (Z.to_nat (rfind "/" p + 1)) p.

(** [os.path.join(a, b)] (posixpath) *)
Definition path_join (a b : str) : str :=
  if startswith (py "/") b then b
  else if negb (truthy a) || bool_decide (last a = Some "/"%char)
  then a ++ b
  else a ++ py "/" ++ b.

(** The longest prefix of decimal digits, and the rest: what [\d+] takes
    when the pattern goes on with a character that is no digit.  In
    U+0000..U+00FF the class [\d] of a [str] pattern is 0-9. *)
Fixpoint span_digits (s : str) : str * str :=
  match s with
  | [] => ([], [])
  | c :: r =>
      if ascii_digit c then
        let '(d, rest) := span_digits r in (c :: d, rest)
      else ([], s)
  end.

(** The pattern [Track ID (\d+): subtitles] matched at the start of [s]:
    the group, when it matches *)
Definition match_track (s : str) : option str :=
  if startswith (py "Track ID ") s then
    let '(d, rest) := span_digits (drop 9 s) in
    if truthy d && startswith (py ": subtitles") rest then Some d
    else None
  else None.

(** [re.search(r"Track ID (\d+): subtitles", s)], then [group(1)]: the
    match at the leftmost position that has one *)
Fixpoint search_track (s : str) : option str :=
  match match_track s with
  | Some d => Some d
  | None =>
      match s with
      | [] => None
      | _ :: r => search_track r
      end
  end.

End PyPath.

(* ===================================================================== *)
(** * The external tools                                                  *)
(* ===================================================================== *)

(** What the program reaches through [subprocess], [os] and [whisper]:
    - [subprocess_run args check] is [subprocess.run(args, check=check)]:
      it returns the standard output of the command, or raises (a
      command that cannot be started; with [check], a status that is not
      zero).  Only [extract_subtitle_tracks], which asks for text, reads
      the output;
    - [makedirs p] is [os.makedirs(p, exist_ok=True)];
    - [transcribe audio_path language] is
      [whisper.load_model("medium.en").transcribe(audio_path, ...)]
      followed by [["segments"]], with the [language] option when one is
      passed;
    - [no_such_file p] is the text of the exception the system raises for
      a path that does not exist.
    Each command may change the world in any way. *)
Record tools : Type := Tools {
  subprocess_run : list str -> bool -> M str;
  makedirs : str -> M unit;
  transcribe : str -> option str -> M (list SubtitleProcessor.segment);
  no_such_file : str -> str
}.

(** [raise e] *)
Definition raise {A} (e : str) : M A := fun w => (Raise e, w).

(** [os.remove(p)] on the store of regular files: a file that is there
    is removed, a path that holds no file raises.  A removal that the
    system refuses (the path holds a directory) is not in the model. *)
Definition remove (t : tools) (p : str) : M unit :=
  fun w =>
    if bool_decide (is_Some (fs w !! p))
    then (Ok tt, World (delete p (fs w)) (console w) (requests w))
    else (Raise (no_such_file t p), w).

(* ===================================================================== *)
(** * class SubtitleProcessor: extraction from a container                *)
(* ===================================================================== *)

Module Mkv.
Import PyPath.

(** [for line in result.stdout.split('\n'): ...] of
    [extract_subtitle_tracks] *)
Fixpoint track_lines (lines : list str) (subtitle_track_ids : list str)
    : list str :=
  match lines with
  | [] => subtitle_track_ids
  | line :: rest =>
      if contains (py "subtitles") line then
        match search_track line with
        | Some track_id =>
            track_lines rest (subtitle_track_ids ++ [track_id])
        | None => track_lines rest subtitle_track_ids
        end
      else track_lines rest subtitle_track_ids
  end.

(** [extract_subtitle_tracks(self, mkv_file)] *)
Definition extract_subtitle_tracks (t : tools) (mkv_file : str)
    : M (list str) :=
  try_except
    (do stdout <- subprocess_run t [py "mkvmerge"; py "-i"; mkv_file] false;
     ret (track_lines (split LF stdout) []))
    (fun e =>
       print (py "Error extracting subtitle tracks: " ++ e) ;;
       ret []).

(** [dst_srt_path] of [extract_subtitles_from_mkv] *)
Definition dst_srt_path (mkv_file output_dir track_id : str) : str :=
  let filename := basename mkv_file in
  path_join output_dir
    (rsplit1_head "." filename ++ py "_track" ++ track_id ++ py ".srt").

(** [for track_id in subtitle_track_ids: ...] of
    [extract_subtitles_from_mkv] *)
Fixpoint for_tracks (t : tools) (mkv_file output_dir : str)
    (subtitle_track_ids : list str) (extracted_subtitles : list str)
    : M (list str) :=
  match subtitle_track_ids with
  | [] => ret extracted_subtitles
  | track_id :: rest =>
      let dst_srt_path := dst_srt_path mkv_file output_dir track_id in
      let command :=
        [py "mkvextract"; mkv_file; py "tracks";
         track_id ++ py ":" ++ dst_srt_path] in
      subprocess_run t command false ;;
      for_tracks t mkv_file output_dir rest
        (extracted_subtitles ++ [dst_srt_path])
  end.

(** [extract_subtitles_from_mkv(self, mkv_file, output_dir)] *)
Definition extract_subtitles_from_mkv (t : tools)
    (mkv_file output_dir : str) : M (list str) :=
  makedirs t output_dir ;;
  do subtitle_track_ids <- extract_subtitle_tracks t mkv_file;
  for_tracks t mkv_file output_dir subtitle_track_ids [].

End Mkv.

(* ===================================================================== *)
(** * class SubtitleProcessor: transcription                              *)
(* ===================================================================== *)

Module Whisper.
Import SubtitleProcessor.

Definition ffmpeg_command (video_path audio_path : str) : list str :=
  [py "ffmpeg"; py "-i"; video_path;
   py "-vn"; py "-acodec"; py "pcm_s16le";
   py "-ar"; py "44100"; py "-ac"; py "2";
   audio_path; py "-y"].

(** [extract_audio(self, video_path, audio_path)] *)
Definition extract_audio (t : tools) (video_path audio_path : str)
    : M unit :=
  do found <- path_exists video_path;
  if negb found then raise (py "Video file not found: " ++ video_path)
  else
    subprocess_run t (ffmpeg_command video_path audio_path) true ;;
    ret tt.

Definition output_srt_path_of (video_path : str) : str :=
  fst (splitext video_path) ++ py ".srt".

Definition audio_path_of (video_path : str) : str :=
  fst (splitext video_path) ++ py "_temp.wav".

(** [if language: transcribe_options["language"] = language] *)
Definition language_option (language : option str) : option str :=
  match language with
  | Some l => if truthy l then Some l else None
  | None => None
  end.

(** [generate_subtitles_with_whisper(self, video_path, language)];
    [language] is [None] when the argument is left out. *)
Definition generate_subtitles_with_whisper (t : tools)
    (video_path : str) (language : option str) : M (option str) :=
  do found <- path_exists video_path;
  if negb found then raise (py "Video file not found: " ++ video_path)
  else
    let output_srt_path := output_srt_path_of video_path in
    let audio_path := audio_path_of video_path in
    try_except
      (print (py "Extracting audio...") ;;
       extract_audio t video_path audio_path ;;
       print (py "Generating subtitles with Whisper...") ;;
       do segments <- transcribe t audio_path (language_option language);
       write_srt output_srt_path segments ;;
       remove t audio_path ;;
       print (py "Subtitle file saved to: " ++ output_srt_path) ;;
       ret (Some output_srt_path))
      (fun e =>
         print (py "Error generating subtitles: " ++ e) ;;
         do found <- path_exists audio_path;
         (if found then remove t audio_path else ret tt) ;;
         ret None).

(** The chunk that the parser of [translate_subtitles] forms from the
    entry written for segment number [i]: the entry without its blank
    line *)
Definition chunk_of (i : Z) (segment : segment) : str :=
  str_of_int i ++ py "\n" ++
  timecode (seg_start segment) ++ py " --> " ++
  timecode (seg_end segment) ++ py "\n" ++
  strip (seg_text segment) ++ py "\n".

End Whisper.

(* ===================================================================== *)
(** * Sample inputs                                                       *)
(* ===================================================================== *)

Module Samples.
Import SubtitleProcessor.

(** Two entries separated by a blank line *)
Definition two_entries : str :=
  py "1\n00:00:00,000 --> 00:00:01,000\nHello\n\n2\n00:00:01,000 --> 00:00:02,000\nWorld\n".

(** A subtitle file of [n] entries numbered from 1 *)
Definition entry_text (i : nat) : str :=
  str_of_int (Z.of_nat i) ++ py "\n00:00:00,000 --> 00:00:01,000\nHi\n\n".

Definition srt_of (n : nat) : str := concat (map entry_text (seq 1 n)).

(** The two segments of the transcription example: 0 to 1.2 seconds and
    1.2 to 2 seconds *)
Definition two_segments : list segment :=
  [Segment (Float.of_int 0) (Float.decimal 12 1) (py " Hi ");
   Segment (Float.decimal 12 1) (Float.of_int 2) (py "there")].

(** A service that answers with the text it was sent *)
Definition echo : str -> str -> str := fun _ user => user.

(** A world with the single file [a.srt] *)
Definition world_with (content : str) : world :=
  World {[ py "a.srt" := content ]} [] [].

End Samples.

Module MoreSamples.
Import SubtitleProcessor.

(** A service that refuses every message that contains [marker] and
    answers the others with the text it was sent *)
Definition refusing (marker : str) : client :=
  fun _ user =>
    if contains marker user then Raise (py "rate limit") else Ok user.

(** What [mkvmerge -i] prints for a container with two subtitle tracks *)
Definition listing : str :=
  py "File 'movie.mkv': container: Matroska\nTrack ID 0: video (AVC)\nTrack ID 1: audio (AAC)\nTrack ID 2: subtitles (SubRip/SRT)\nTrack ID 3: subtitles (SubRip/SRT)\n".

(** Tools that work: [mkvmerge] prints [listing], [ffmpeg] writes the
    audio file named by its eleventh argument, the model transcribes
    [segments]. *)
Definition working_run (args : list str) (check : bool) : M str :=
  fun w =>
    match args with
    | [] => (Raise (py "list index out of range"), w)
    | cmd :: _ =>
        if bool_decide (cmd = py "mkvmerge") then (Ok listing, w)
        else if bool_decide (cmd = py "ffmpeg") then
          (Ok [],
           World (<[nth 10 args [] := py "RIFF"]> (fs w)) (console w)
                 (requests w))
        else (Ok [], w)
    end.

Definition working_with (segments : list segment) : tools :=
  Tools working_run (fun _ => ret tt)
        (fun _ _ => ret segments)
        (fun p => py "[Errno 2] No such file or directory: " ++ p).

Definition working : tools := working_with Samples.two_segments.

(** A transcription whose second segment starts at NaN *)
Definition nan_segments : list segment :=
  [Segment (Float.of_int 0) (Float.of_int 1) (py " Hi ");
   Segment S754_nan (Float.of_int 2) (py "there")].

(** Tools none of which can be started *)
Definition missing : tools :=
  Tools (fun _ _ => raise (py "[Errno 2] No such file or directory"))
        (fun _ => ret tt)
        (fun _ _ => raise (py "No module named whisper"))
        (fun p => py "[Errno 2] No such file or directory: " ++ p).

(** A world with the single file [movie.mkv] *)
Definition world_with_video : world :=
  World {[ py "movie.mkv" := py "video" ]} [] [].

End MoreSamples.

(* ===================================================================== *)
(** * Facts about strings                                                 *)
(* ===================================================================== *)

Module StrFacts.

Lemma lstrip_split (s : str) :
  exists ws, s = ws ++ lstrip s /\ forallb isspace ws = true.
Proof.
  induction s as [|c r IH]; simpl.
  - exists []. done.
  - destruct (isspace c) eqn:Hc.
    + destruct IH as (ws & Hr & Hws). exists (c :: ws). simpl.
      rewrite Hc, Hws. split; [congruence | done].
    + exists []. done.
Qed.

Lemma lstrip_head (s : str) c r : lstrip s = c :: r -> isspace c = false.
Proof.
  induction s as [|a s IH]; simpl; [done|].
  destruct (isspace a) eqn:Ha; [done|]. intros [= <- <-]. done.
Qed.

Lemma lstrip_id (s : str) c r :
  s = c :: r -> isspace c = false -> lstrip s = s.
Proof. intros -> H. simpl. by rewrite H. Qed.

Lemma lstrip_spaces (s : str) : forallb isspace s = true -> lstrip s = [].
Proof.
  induction s as [|c r IH]; simpl; [done|].
  intros [Hc Hr]%andb_prop. rewrite Hc. auto.
Qed.

Lemma lstrip_nil (s : str) : lstrip s = [] -> forallb isspace s = true.
Proof.
  destruct (lstrip_split s) as (ws & Hs & Hws). intros E.
  rewrite E, app_nil_r in Hs. by subst.
Qed.

Lemma forallb_rev {A} (f : A -> bool) (l : list A) :
  forallb f (rev l) = forallb f l.
Proof.
  induction l as [|a l IH]; simpl; [done|].
  rewrite forallb_app, IH. simpl. rewrite andb_true_r. apply andb_comm.
Qed.

(** Stripping cuts a run of whitespace off each end. *)
Lemma strip_split (s : str) :
  exists a b, s = a ++ strip s ++ b /\
              forallb isspace a = true /\ forallb isspace b = true.
Proof.
  destruct (lstrip_split s) as (a & Hs & Ha).
  destruct (lstrip_split (rev (lstrip s))) as (b & Hr & Hb).
  exists a, (rev b). unfold strip, rstrip. repeat split; [|done|].
  - rewrite <- rev_app_distr, <- Hr, rev_involutive. done.
  - by rewrite forallb_rev.
Qed.

Lemma strip_nil_iff (s : str) : strip s = [] <-> forallb isspace s = true.
Proof.
  split.
  - intros E. destruct (strip_split s) as (a & b & Hs & Ha & Hb).
    rewrite E in Hs. rewrite Hs. simpl. by rewrite forallb_app, Ha, Hb.
  - intros H. unfold strip. by rewrite (lstrip_spaces s H).
Qed.

(** A string that starts and ends with a character that is not
    whitespace is its own [strip]. *)
Lemma strip_fixed (s : str) :
  (forall c r, s = c :: r -> isspace c = false) ->
  (forall c r, rev s = c :: r -> isspace c = false) ->
  strip s = s.
Proof.
  intros Hh Ht. unfold strip, rstrip.
  assert (L : lstrip s = s).
  { destruct s as [|c r]; [done|]. simpl. by rewrite (Hh c r). }
  rewrite L.
  assert (R : lstrip (rev s) = rev s).
  { destruct (rev s) as [|c r] eqn:E; [done|]. simpl. by rewrite (Ht c r). }
  rewrite R. apply rev_involutive.
Qed.

Lemma strip_ends (s : str) :
  (forall c r, strip s = c :: r -> isspace c = false) /\
  (forall c r, rev (strip s) = c :: r -> isspace c = false).
Proof.
  unfold strip, rstrip. split.
  - intros c r E.
    destruct (lstrip s) as [|a l] eqn:El; [done|].
    pose proof (lstrip_head _ _ _ El) as Ha.
    destruct (lstrip_split (rev (a :: l))) as (ws & Hs & Hws).
    apply (f_equal (@rev ascii)) in Hs.
    rewrite rev_involutive, rev_app_distr, E in Hs.
    simpl in Hs. injection Hs as <- _. done.
  - intros c r E. rewrite rev_involutive in E.
    by apply lstrip_head in E.
Qed.

Lemma strip_idemp (s : str) : strip (strip s) = strip s.
Proof.
  destruct (strip_ends s) as [H1 H2]. by apply strip_fixed.
Qed.

Lemma lstrip_app_spaces (ws s : str) :
  forallb isspace ws = true -> lstrip (ws ++ s) = lstrip s.
Proof.
  induction ws as [|a ws IH]; simpl; [done|].
  intros [-> H]%andb_prop. auto.
Qed.

(** Stripping a line whose text is already stripped and not empty gives
    the text back. *)
Lemma strip_line (t ws : str) :
  strip t = t -> forallb isspace ws = true -> t <> [] ->
  strip (t ++ ws) = t.
Proof.
  intros Ht Hws Hne.
  pose proof (strip_ends t) as [H1 H2]. rewrite Ht in H1, H2.
  destruct t as [|c r]; [done|].
  unfold strip, rstrip. simpl. rewrite (H1 c r eq_refl).
  change (c :: r ++ ws) with ((c :: r) ++ ws).
  rewrite rev_app_distr, lstrip_app_spaces by (by rewrite forallb_rev).
  destruct (rev (c :: r)) as [|a l] eqn:E.
  - apply (f_equal (@length ascii)) in E. rewrite length_rev in E. done.
  - rewrite (lstrip_id _ a l eq_refl (H2 a l eq_refl)).
    rewrite <- E. apply rev_involutive.
Qed.

Lemma startswith_app (p s : str) :
  startswith p s = true <-> exists r, s = p ++ r.
Proof.
  revert s. induction p as [|a p IH]; intros s; simpl.
  - split; [eauto | done].
  - destruct s as [|b s]; [split; [done | intros [r [=]]]|].
    rewrite andb_true_iff, Ascii.eqb_eq, IH. split.
    + intros [-> [r ->]]. eauto.
    + intros [r [= -> ->]]. eauto.
Qed.

Lemma contains_app (sub s : str) :
  contains sub s = true <-> exists a b, s = a ++ sub ++ b.
Proof.
  induction s as [|c s IH]; simpl.
  - rewrite orb_false_r, startswith_app. split.
    + intros [r E]. exists [], r. done.
    + intros (a & b & E). symmetry in E.
      apply app_eq_nil in E as [-> [-> ->]%app_eq_nil]. exists []. done.
  - rewrite orb_true_iff, startswith_app, IH. split.
    + intros [[r E] | (a & b & ->)].
      * exists [], r. done.
      * exists (c :: a), b. done.
    + intros (a & b & E). destruct a as [|x a].
      * left. exists b. done.
      * right. injection E as -> ->. eauto.
Qed.

Lemma isdigit_forall (s : str) :
  isdigit s = true -> forallb isdigit_char s = true.
Proof. by destruct s. Qed.

(** A line with a character that is neither a digit nor whitespace is
    not an index line. *)
Lemma isdigit_strip_elem (line : str) c :
  isdigit (strip line) = true -> In c line ->
  isdigit_char c = true \/ isspace c = true.
Proof.
  intros Hd Hin. apply isdigit_forall in Hd.
  destruct (strip_split line) as (a & b & Hs & Ha & Hb).
  rewrite Hs in Hin. rewrite !in_app_iff in Hin.
  rewrite forallb_forall in Ha, Hb, Hd.
  destruct Hin as [H|[H|H]]; auto.
Qed.

Lemma arrow_not_index (line : str) :
  contains (py "-->") line = true -> isdigit (strip line) = false.
Proof.
  intros (a & b & ->)%contains_app.
  destruct (isdigit (strip _)) eqn:E; [|done].
  apply isdigit_strip_elem with (c := "-"%char) in E.
  - by destruct E.
  - rewrite !in_app_iff. right. left. simpl. auto.
Qed.

Lemma arrow_not_blank (line : str) :
  contains (py "-->") line = true -> strip line <> [].
Proof.
  intros (a & b & ->)%contains_app. rewrite strip_nil_iff.
  rewrite !forallb_app. simpl. rewrite andb_false_r. done.
Qed.

Lemma index_not_blank (line : str) :
  isdigit (strip line) = true -> strip line <> [].
Proof. by destruct (strip line). Qed.

End StrFacts.

Import StrFacts.

(* ===================================================================== *)
(** * The line classifier                                                 *)
(* ===================================================================== *)

Module ParserFacts.
Import SubtitleProcessor.

Lemma read_line_index line dbs cur :
  isdigit (strip line) = true ->
  read_line line dbs cur =
    Some (if truthy cur then dbs ++ [cur] else dbs, line).
Proof. unfold read_line. intros ->. by destruct cur. Qed.

Lemma read_line_arrow line dbs cur :
  contains (py "-->") line = true ->
  read_line line dbs cur = Some (dbs, cur ++ line).
Proof.
  intros H. unfold read_line. by rewrite (arrow_not_index _ H), H.
Qed.

Lemma read_line_blank line dbs cur :
  strip line = [] -> read_line line dbs cur = None.
Proof.
  intros H. unfold read_line. rewrite H. simpl.
  destruct (contains _ line) eqn:E; [|done].
  by apply arrow_not_blank in E.
Qed.

Lemma read_line_text line dbs cur :
  isdigit (strip line) = false -> strip line <> [] ->
  read_line line dbs cur = Some (dbs, cur ++ line).
Proof.
  intros Hd Hb. unfold read_line. rewrite Hd.
  destruct (contains _ line); [done|]. by rewrite bool_decide_eq_false_2.
Qed.

(** What one line does to the two variables: a blank line nothing, any
    other line ends up at the end of the open chunk, after the chunk
    before it was closed if the line is an index line. *)
Lemma read_line_cases line dbs cur :
  (strip line = [] /\ read_line line dbs cur = None) \/
  (strip line <> [] /\ line <> [] /\
   (read_line line dbs cur = Some (dbs, cur ++ line) \/
    cur <> [] /\ read_line line dbs cur = Some (dbs ++ [cur], line))).
Proof.
  destruct (decide (strip line = [])) as [Hb|Hb].
  { left. split; [done|]. by apply read_line_blank. }
  right. split; [done|]. split; [by intros ->|].
  destruct (isdigit (strip line)) eqn:Hd.
  - rewrite (read_line_index _ _ _ Hd). destruct cur as [|c cur]; simpl.
    + by left.
    + right. done.
  - left. by apply read_line_text.
Qed.

Lemma read_line_prefix p line dbs cur :
  read_line line (p ++ dbs) cur =
    match read_line line dbs cur with
    | Some (d, c) => Some (p ++ d, c)
    | None => None
    end.
Proof.
  unfold read_line. destruct (isdigit _).
  - destruct (truthy cur); [by rewrite app_assoc | done].
  - destruct (contains _ _); [done|]. by destruct (bool_decide _).
Qed.

Lemma parse_lines_prefix p lines dbs cur :
  parse_lines lines (p ++ dbs) cur =
    (p ++ (parse_lines lines dbs cur).1, (parse_lines lines dbs cur).2).
Proof.
  revert dbs cur. induction lines as [|line rest IH]; intros dbs cur; simpl.
  - done.
  - rewrite read_line_prefix.
    destruct (read_line line dbs cur) as [[d c]|]; apply IH.
Qed.

Lemma parse_lines_open lines dbs cur :
  cur <> [] -> (parse_lines lines dbs cur).2 <> [].
Proof.
  revert dbs cur. induction lines as [|line rest IH]; intros dbs cur H;
    simpl; [done|].
  destruct (read_line_cases line dbs cur)
    as [[_ ->] | (_ & Hl & [-> | [_ ->]])]; apply IH; try done.
  by destruct cur.
Qed.

(** Once a chunk has been closed there is an open one. *)
Lemma parse_lines_closed lines dbs cur :
  (dbs <> [] -> cur <> []) ->
  (parse_lines lines dbs cur).1 <> [] -> (parse_lines lines dbs cur).2 <> [].
Proof.
  revert dbs cur. induction lines as [|line rest IH]; intros dbs cur H;
    simpl; [done|].
  destruct (read_line_cases line dbs cur)
    as [[_ ->] | (_ & Hl & [-> | [_ ->]])].
  - by apply IH.
  - intros _. apply parse_lines_open. by destruct cur.
  - intros _. by apply parse_lines_open.
Qed.

(** The chunks of parse_lines hold every line that is not blank. *)
Lemma parse_lines_concat lines dbs cur :
  concat (parse_lines lines dbs cur).1 ++ (parse_lines lines dbs cur).2 =
  concat dbs ++ cur ++ concat (filter (fun l => strip l <> []) lines).
Proof.
  revert dbs cur. induction lines as [|line rest IH]; intros dbs cur; simpl.
  - by rewrite app_nil_r.
  - destruct (read_line_cases line dbs cur)
      as [[Hb ->] | (Hb & _ & [-> | [_ ->]])]; rewrite IH.
    + by rewrite filter_cons_False by naive_solver.
    + rewrite filter_cons_True by done. simpl. by rewrite <- !app_assoc.
    + rewrite filter_cons_True by done. simpl.
      rewrite concat_app. simpl. by rewrite app_nil_r, <- !app_assoc.
Qed.

Lemma parseStream_alt lines :
  parseStream lines =
    (parse_lines lines [] []).1 ++
    (if truthy (parse_lines lines [] []).2
     then [(parse_lines lines [] []).2] else []).
Proof.
  unfold parseStream. destruct (parse_lines lines [] []) as [d c]. simpl.
  destruct (truthy c); [done | by rewrite app_nil_r].
Qed.

Lemma parseStream_blank lines :
  Forall (fun l => strip l = []) lines -> parseStream lines = [].
Proof.
  intros H. unfold parseStream.
  assert (E : parse_lines lines [] [] = ([], [])).
  { induction H as [|l ls Hl _ IH]; simpl; [done|].
    by rewrite (read_line_blank _ _ _ Hl). }
  by rewrite E.
Qed.

End ParserFacts.

(* ===================================================================== *)
(** * The batches of the translation loop                                 *)
(* ===================================================================== *)

Module BatchFacts.
Import SubtitleProcessor ParserFacts.

Lemma read_line_length line dbs cur d c :
  read_line line dbs cur = Some (d, c) ->
  (length dbs <= length d <= S (length dbs))%nat.
Proof.
  destruct (read_line_cases line dbs cur)
    as [[_ ->] | (_ & _ & [-> | [_ ->]])]; [done| |]; intros [= <- <-].
  - lia.
  - rewrite length_app. simpl. lia.
Qed.

(** The loop closes the chunks of [parse_lines] and cuts them into
    batches of five; fewer than five stay behind. *)
Lemma loop_batches_parse lines dbs cur :
  (length dbs < 5)%nat ->
  parse_lines lines dbs cur =
    (concat (loop_batches lines dbs cur).1 ++ (loop_batches lines dbs cur).2.1,
     (loop_batches lines dbs cur).2.2) /\
  Forall (fun b => length b = 5%nat) (loop_batches lines dbs cur).1 /\
  (length (loop_batches lines dbs cur).2.1 < 5)%nat.
Proof.
  revert dbs cur. induction lines as [|line rest IH]; intros dbs cur Hlen;
    simpl.
  - done.
  - destruct (read_line line dbs cur) as [[d c]|] eqn:E; [|by apply IH].
    apply read_line_length in E.
    destruct (Nat.eqb_spec (length d) 5) as [H5|H5].
    + destruct (IH [] c) as (Hp & Hf & Hl); [simpl; lia|].
      destruct (loop_batches rest [] c) as [bs ex]. simpl in *.
      rewrite <- (app_nil_r d) at 1. rewrite parse_lines_prefix, Hp. simpl.
      rewrite <- app_assoc. split; [done|]. split; [|done].
      by constructor.
    + apply IH. lia.
Qed.

Lemma batches_of_short (cs : list str) :
  cs <> [] -> (length cs <= 5)%nat -> batches_of cs = [cs].
Proof.
  intros Hne Hlen.
  destruct cs as [|c1 [|c2 [|c3 [|c4 [|c5 [|c6 cs]]]]]]; simpl in *;
    done || lia.
Qed.

Lemma batches_of_cons (b rest : list str) :
  length b = 5%nat -> rest <> [] ->
  batches_of (b ++ rest) = b :: batches_of rest.
Proof.
  intros Hb Hr.
  destruct b as [|c1 [|c2 [|c3 [|c4 [|c5 [|c6 b]]]]]]; try done.
  destruct rest; done.
Qed.

Lemma batches_of_app (E : list (list str)) (F : list str) :
  Forall (fun b => length b = 5%nat) E -> F <> [] -> (length F <= 5)%nat ->
  batches_of (concat E ++ F) = E ++ [F].
Proof.
  intros HE HF Hlen. induction HE as [|b E Hb _ IH]; simpl.
  - by apply batches_of_short.
  - rewrite <- app_assoc, batches_of_cons, IH; [done..|].
    by destruct (concat E), F.
Qed.

Lemma write_batches_app tr (E : list (list str)) (F : list str) :
  write_batches tr (E ++ [F]) =
  concat (map (fun b => tr b ++ py "\n\n") E) ++ tr F ++ py "\n".
Proof.
  induction E as [|b E IH]; [done|].
  change (write_batches tr ((b :: E) ++ [F])) with
    (match E ++ [F] with
     | [] => tr b ++ py "\n"
     | _ :: _ => tr b ++ py "\n\n" ++ write_batches tr (E ++ [F])
     end).
  rewrite IH. destruct (E ++ [F]) eqn:X; [by destruct E|].
  simpl. by rewrite <- !app_assoc.
Qed.

(** The batches of the loop and the batch after it are [batches_of] the
    parsed chunks. *)
Lemma loop_batches_spec lines :
  batches_of (parseStream lines) =
    (loop_batches lines [] []).1 ++
    match last_batch (loop_batches lines [] []).2 with
    | [] => []
    | _ :: _ => [last_batch (loop_batches lines [] []).2]
    end.
Proof.
  destruct (loop_batches_parse lines [] []) as (Hp & HE & Hd);
    [simpl; lia|].
  pose proof (parse_lines_closed lines [] []) as Hc.
  rewrite parseStream_alt. rewrite Hp. rewrite Hp in Hc. simpl in *.
  destruct (loop_batches lines [] []) as [E [d c]]. simpl in *.
  destruct c as [|a c]; simpl.
  - destruct (concat E ++ d) eqn:X; [|by destruct Hc].
    apply app_eq_nil in X as [XE ->]. simpl.
    destruct HE as [|b E Hb _]; [done|]. by destruct b.
  - rewrite <- app_assoc, batches_of_app; try done.
    + by destruct d.
    + by destruct d.
    + rewrite length_app. simpl. lia.
Qed.

Lemma loop_batches_last_nil lines :
  last_batch (loop_batches lines [] []).2 = [] ->
  (loop_batches lines [] []).1 = [].
Proof.
  destruct (loop_batches_parse lines [] []) as (Hp & HE & Hd);
    [simpl; lia|].
  pose proof (parse_lines_closed lines [] []) as Hc.
  rewrite Hp in Hc. simpl in *.
  destruct (loop_batches lines [] []) as [E [d c]]. simpl in *.
  destruct c as [|a c]; simpl.
  - intros ->. rewrite app_nil_r in Hc.
    destruct HE as [|b E Hb _]; [done|].
    destruct b; [done|]. by destruct Hc.
  - by destruct d.
Qed.

Lemma last_batch_length lines :
  (length (last_batch (loop_batches lines [] []).2) <= 5)%nat.
Proof.
  destruct (loop_batches_parse lines [] []) as (_ & _ & Hd); [simpl; lia|].
  destruct (loop_batches lines [] []) as [E [d c]]. simpl in *.
  destruct (truthy c); [rewrite length_app; simpl|]; lia.
Qed.

Lemma loop_batches_full lines :
  Forall (fun b => length b = 5%nat) (loop_batches lines [] []).1.
Proof. by destruct (loop_batches_parse lines [] []) as (_ & ? & _);
  [simpl; lia|]. Qed.

(** Shape of [batches_of]: the chunks in order, five to a batch, the last
    batch one to five. *)
Lemma batches_of_shape (cs : list str) :
  concat (batches_of cs) = cs /\
  Forall (fun b => (1 <= length b <= 5)%nat) (batches_of cs) /\
  (forall i b, (S i < length (batches_of cs))%nat ->
               batches_of cs !! i = Some b -> length b = 5%nat).
Proof.
  remember (length cs) as n eqn:Hn. revert cs Hn.
  induction (lt_wf n) as [n _ IH]. intros cs ->.
  destruct (decide (length cs <= 5)%nat) as [Hs|Hl].
  - destruct cs as [|c cs].
    + simpl. repeat split; [constructor | intros i b Hi; simpl in Hi; lia].
    + rewrite batches_of_short by done. simpl. rewrite app_nil_r.
      repeat split.
      * constructor; [simpl in *; lia | constructor].
      * intros i b Hi; simpl in Hi; lia.
  - destruct cs as [|c1 [|c2 [|c3 [|c4 [|c5 [|c6 cs]]]]]];
      try (simpl in Hl; lia).
    destruct (IH (length (c6 :: cs)) ltac:(simpl; lia) (c6 :: cs) eq_refl)
      as (Hc & Hf & Hi).
    change (batches_of (c1 :: c2 :: c3 :: c4 :: c5 :: c6 :: cs))
      with ([c1; c2; c3; c4; c5] :: batches_of (c6 :: cs)).
    repeat split.
    + by rewrite concat_cons, Hc.
    + constructor; [simpl; lia | done].
    + intros [|i] b Hlen; simpl.
      * by intros [= <-].
      * apply Hi. cbn [length] in Hlen. lia.
Qed.

End BatchFacts.

(* ===================================================================== *)
(** * The output path                                                     *)
(* ===================================================================== *)

Module PathFacts.
Import SubtitleProcessor.

Lemma rfind_from_spec c (s : str) i acc :
  (rfind_from c s i acc = acc /\ ~ In c s) \/
  (exists k rest, rfind_from c s i acc = i + Z.of_nat k /\
                  drop k s = c :: rest /\ ~ In c rest).
Proof.
  revert i acc. induction s as [|a r IH]; intros i acc; simpl.
  - left. split; [done | tauto].
  - destruct (IH (i + 1) (if Ascii.eqb a c then i else acc))
      as [[E Hn] | (k & rest & E & Hd & Hn)]; rewrite E.
    + destruct (Ascii.eqb_spec a c) as [->|Hac].
      * right. exists 0%nat, r. split; [lia | done].
      * left. split; [done|]. intros [?|?]; done.
    + right. exists (S k), rest. split; [lia | done].
Qed.

Lemma skip_leading_dots_cases p d tail f :
  skip_leading_dots p d tail f = (p, []) \/
  skip_leading_dots p d tail f =
    (take (Z.to_nat d) p, drop (Z.to_nat d) p).
Proof.
  revert f. induction tail as [|a tail IH]; intros f; simpl; [by left|].
  destruct (f <? d); [|by left].
  destruct (Ascii.eqb a "."); [apply IH | by right].
Qed.

(** [splitext] cuts the path in two; the extension is empty or starts at
    the last dot. *)
Lemma splitext_spec (p : str) :
  p = (splitext p).1 ++ (splitext p).2 /\
  ((splitext p).2 = [] \/
   exists rest, (splitext p).2 = "."%char :: rest /\ ~ In "."%char rest).
Proof.
  unfold splitext.
  destruct (rfind "/" p <? rfind "." p) eqn:Hlt;
    [|simpl; rewrite app_nil_r; auto].
  destruct (skip_leading_dots_cases p (rfind "." p)
              (drop (Z.to_nat (rfind "/" p + 1)) p)
              (rfind "/" p + 1)) as [-> | ->]; simpl.
  - rewrite app_nil_r. auto.
  - rewrite take_drop. split; [done|]. right.
    unfold rfind in *.
    destruct (rfind_from_spec "." p 0 (-1))
      as [[E _] | (k & rest & E & Hd & Hn)].
    + rewrite E in Hlt.
      destruct (rfind_from_spec "/" p 0 (-1))
        as [[E' _] | (k' & rest' & E' & _)]; rewrite E' in Hlt; lia.
    + rewrite E. replace (Z.to_nat (0 + Z.of_nat k)) with k by lia. eauto.
Qed.

(** The output file is never the input file. *)
Lemma output_path_ne input_path target_language :
  output_path_of input_path target_language <> input_path.
Proof.
  unfold output_path_of.
  destruct (splitext_spec input_path) as [Hp Hext].
  intros E.
  assert (E' : (splitext input_path).1 ++
               py "." ++ lower target_language ++ py ".srt" =
               (splitext input_path).1 ++ (splitext input_path).2)
    by (by rewrite <- Hp).
  clear E. rename E' into E. apply app_inv_head in E.
  destruct Hext as [Hnil | (rest & Hr & Hn)].
  - by rewrite Hnil in E.
  - rewrite Hr in E. simpl in E. injection E as E. apply Hn.
    rewrite <- E, in_app_iff. right. simpl. auto.
Qed.

End PathFacts.

(* ===================================================================== *)
(** * Running the translation                                             *)
(* ===================================================================== *)

Module RunFacts.
Import SubtitleProcessor ParserFacts BatchFacts PathFacts.

Lemma alter_Some (f : str -> str) (m : gmap str str) k v :
  m !! k = Some v -> alter f k m = <[k := f v]> m.
Proof.
  intros H. apply map_eq. intros i. destruct (decide (k = i)) as [->|Hne].
  - by rewrite lookup_alter_eq, lookup_insert_eq, H.
  - by rewrite lookup_alter_ne, lookup_insert_ne.
Qed.

Lemma any_path_spec (files : gmap str str) (f : str -> bool) :
  any_path files f = true <->
  exists q, is_Some (files !! q) /\ f q = true.
Proof.
  unfold any_path. rewrite existsb_exists. split.
  - intros (q & Hin & Hf). exists q. split; [|done].
    apply in_map_iff in Hin as ([q' x] & <- & Hin).
    apply list_elem_of_In, elem_of_map_to_list in Hin. by exists x.
  - intros (q & [x Hx] & Hf). exists q. split; [|done].
    apply in_map_iff. exists (q, x). split; [done|].
    by apply list_elem_of_In, elem_of_map_to_list.
Qed.

Lemma any_path_false (files : gmap str str) (f : str -> bool) :
  any_path files f = false <->
  forall q, is_Some (files !! q) -> f q = false.
Proof.
  split.
  - intros H q Hq. destruct (f q) eqn:Hf; [|done].
    rewrite <- H. symmetry. apply any_path_spec. eauto.
  - intros H. destruct (any_path files f) eqn:E; [|done].
    apply any_path_spec in E as (q & Hq & Hf). by rewrite (H q Hq) in Hf.
Qed.

Lemma startswith_longer (p : str) c (r : str) :
  startswith (p ++ c :: r) p = false.
Proof.
  induction p as [|a p IH]; [done|]. simpl.
  by rewrite IH, andb_false_r.
Qed.

(** A path that can be opened for writing can be opened again once its
    file is there. *)
Lemma open_error_insert (files : gmap str str) p x :
  open_error files p = None -> open_error (<[p := x]> files) p = None.
Proof.
  unfold open_error.
  destruct (negb (truthy p)); [done|].
  destruct (bool_decide (last p = Some "/"%char)); [done|].
  destruct (any_path files (fun q => startswith (q ++ py "/") p)) eqn:H1;
    [done|].
  destruct (isdir files (dirname p)) eqn:H2; [|done]. cbn [negb].
  destruct (isdir files p) eqn:H3; [done|].
  intros _.
  assert (H1' : any_path (<[p := x]> files)
                  (fun q => startswith (q ++ py "/") p) = false).
  { apply any_path_false. intros q Hq.
    destruct (decide (p = q)) as [<-|Hne]; [apply startswith_longer|].
    rewrite lookup_insert_ne in Hq by done.
    by apply (proj1 (any_path_false _ _) H1). }
  assert (H2' : isdir (<[p := x]> files) (dirname p) = true).
  { unfold isdir in *. apply orb_true_iff in H2 as [H2|H2];
      [by rewrite H2|].
    apply orb_true_iff. right. apply any_path_spec.
    apply any_path_spec in H2 as (q & Hq & Hf). exists q. split; [|done].
    destruct (decide (p = q)) as [<-|Hne];
      [by rewrite lookup_insert_eq | by rewrite lookup_insert_ne]. }
  assert (H3' : isdir (<[p := x]> files) p = false).
  { unfold isdir in *. apply orb_false_elim in H3 as [H3 H5].
    rewrite H3. cbn [orb]. apply any_path_false. intros q Hq.
    destruct (decide (p = q)) as [<-|Hne]; [apply startswith_longer|].
    rewrite lookup_insert_ne in Hq by done.
    by apply (proj1 (any_path_false _ _) H5). }
  by rewrite H1', H2', H3'.
Qed.

Lemma open_w_checked_run p w :
  open_error (fs w) p = None -> open_w_checked p w = open_w p w.
Proof. intros H. unfold open_w_checked. by rewrite H. Qed.

Section Run.
Variable respond : str -> str -> str.
Variables target_language output_path : str.

Lemma translate_block_run batch w :
  _translate_block (answering respond) (join (py "\n") batch)
    target_language w =
  (Ok (strip (respond (system_message target_language)
                      (join (py "\n") batch))),
   World (fs w) (console w)
         (requests w ++ [request_of target_language batch])).
Proof. done. Qed.

(** The loop writes one translated batch, with a blank line after it, for
    each batch of [loop_batches], and sends one request for each. *)
Lemma for_lines_run lines dbs cur w o :
  fs w !! output_path = Some o ->
  for_lines (answering respond) target_language output_path lines dbs cur w =
  (Ok (loop_batches lines dbs cur).2,
   World (<[output_path :=
             o ++ concat (map (fun b =>
                                 translated respond target_language b ++
                                 py "\n\n")
                              (loop_batches lines dbs cur).1)]> (fs w))
         (console w)
         (requests w ++
          map (request_of target_language) (loop_batches lines dbs cur).1)).
Proof.
  revert dbs cur w o.
  induction lines as [|line rest IH]; intros dbs cur w o Ho; simpl.
  - rewrite !app_nil_r, insert_id by done. by destruct w.
  - destruct (read_line line dbs cur) as [[d c]|]; [|by apply IH].
    unfold translate_full.
    destruct (Nat.eqb_spec (length d) 5) as [H5|H5].
    + unfold bind. rewrite translate_block_run. unfold write, ret.
      cbn beta iota. cbn [fs console requests].
      rewrite (alter_Some _ _ _ _ Ho).
      erewrite IH; [|cbn [fs]; apply lookup_insert_eq].
      cbn [fs console requests].
      destruct (loop_batches rest [] c) as [bs ex]. simpl.
      rewrite insert_insert_eq. unfold translated.
      by rewrite <- !app_assoc.
    + unfold bind, ret. by apply IH.
Qed.

Lemma translate_rest_run dbs cur w o :
  fs w !! output_path = Some o ->
  translate_rest (answering respond) target_language output_path dbs cur w =
  (Ok tt,
   match last_batch (dbs, cur) with
   | [] => w
   | b :: r =>
       World (<[output_path :=
                 o ++ translated respond target_language (b :: r) ++
                 py "\n"]> (fs w))
             (console w)
             (requests w ++ [request_of target_language (b :: r)])
   end).
Proof.
  intros Ho. unfold translate_rest, last_batch.
  destruct (if truthy cur then dbs ++ [cur] else dbs) as [|b r]; [done|].
  unfold bind. rewrite translate_block_run. unfold write.
  cbn [fs console requests]. by rewrite (alter_Some _ _ _ _ Ho).
Qed.

End Run.

(** The loop and the statements after it, on a file that is open: what
    they write and the requests they send. *)
Lemma loop_run respond target_language output_path lines w o :
  fs w !! output_path = Some o ->
  (do (dialogue_blocks, current_block) <-
     for_lines (answering respond) target_language output_path lines [] [];
   translate_rest (answering respond) target_language output_path
     dialogue_blocks current_block) w =
  (Ok tt,
   World (<[output_path :=
             o ++ write_batches (translated respond target_language)
                    (batches_of (parseStream lines))]> (fs w))
         (console w)
         (requests w ++
          map (request_of target_language)
              (batches_of (parseStream lines)))).
Proof.
  intros Ho. unfold bind at 1.
  erewrite for_lines_run by exact Ho.
  rewrite loop_batches_spec.
  pose proof (loop_batches_last_nil lines) as Hnil.
  destruct (loop_batches lines [] []) as [E [d c]]. cbn [fst snd] in *.
  erewrite translate_rest_run; [|cbn [fs]; apply lookup_insert_eq].
  destruct (last_batch (d, c)) as [|b r].
  - rewrite (Hnil eq_refl). cbn [map concat app write_batches].
    by rewrite !app_nil_r.
  - cbn [fs console requests].
    rewrite !insert_insert_eq, write_batches_app, map_app, <- !app_assoc.
    done.
Qed.

(** A successful run of [translate_subtitles]: the file it leaves, the
    line it prints, the requests it sends. *)
Lemma translate_subtitles_run respond input_path target_language w content :
  fs w !! input_path = Some content ->
  open_error (fs w) (output_path_of input_path target_language) = None ->
  let output_path := output_path_of input_path target_language in
  let batches :=
    batches_of (parseStream (iter_lines (universal_newlines content))) in
  translate_subtitles (Some (answering respond)) input_path target_language w =
  (Ok (Some output_path),
   World (<[output_path :=
             write_batches (translated respond target_language) batches]>
            (fs w))
         (console w ++ [py "Translated subtitle saved to: " ++ output_path])
         (requests w ++ map (request_of target_language) batches)).
Proof.
  intros Hin Hopen output_path batches.
  pose proof (output_path_ne input_path target_language) as Hne.
  unfold translate_subtitles, bind at 1, path_exists.
  rewrite bool_decide_eq_true_2 by (by rewrite Hin). cbn [negb].
  fold output_path. unfold try_except.
  unfold bind at 1. rewrite (open_w_checked_run output_path w Hopen).
  unfold open_w.
  unfold bind at 1, read_lines. cbn [fs].
  rewrite lookup_insert_ne, Hin by done.
  set (lines := iter_lines (universal_newlines content)) in *.
  unfold bind at 1.
  erewrite for_lines_run; [|cbn [fs]; apply lookup_insert_eq].
  cbn [fs console requests app].
  subst batches. rewrite loop_batches_spec.
  pose proof (loop_batches_last_nil lines) as Hnil.
  destruct (loop_batches lines [] []) as [E [d c]]. cbn [fst snd] in *.
  unfold bind at 1.
  erewrite translate_rest_run; [|cbn [fs]; apply lookup_insert_eq].
  destruct (last_batch (d, c)) as [|b r].
  - rewrite (Hnil eq_refl). unfold bind, print, ret.
    cbn [fs console requests]. simpl. by rewrite insert_insert_eq, app_nil_r.
  - unfold bind, print, ret. cbn [fs console requests].
    rewrite !insert_insert_eq, write_batches_app, map_app, <- !app_assoc.
    done.
Qed.

(** A run of [translate_subtitles] whose output cannot be opened: the
    exception is caught, nothing is written and no request is sent. *)
Lemma translate_subtitles_refused openai_client input_path target_language
    w e :
  is_Some (fs w !! input_path) ->
  open_error (fs w) (output_path_of input_path target_language) = Some e ->
  translate_subtitles (Some openai_client) input_path target_language w =
  (Ok None,
   World (fs w) (console w ++ [py "Translation error: " ++ e])
         (requests w)).
Proof.
  intros Hin Hopen.
  unfold translate_subtitles, bind at 1, path_exists.
  rewrite bool_decide_eq_true_2 by done. cbn [negb].
  unfold try_except, bind at 1, open_w_checked. by rewrite Hopen.
Qed.

End RunFacts.

(* ===================================================================== *)
(** * The parser: claims C4 and C10                                       *)
(* ===================================================================== *)

Module ParserClaims.
Import SubtitleProcessor ParserFacts RunFacts Samples.

(** C4 — The loop classifies each line, in order: a line that is entirely
    numeric once stripped closes the open chunk, if there is one, and
    starts a new chunk with itself; a line containing "-->" is appended to
    the open chunk; a line that is empty once stripped is ignored; any
    other line is appended; at the end of the input the open chunk is
    yielded.  The loop of [translate_subtitles] applies this
    classification to each line and hands over the chunks so formed, in
    batches.  On the two-entry input the parse is the two entries, each
    with its index line, time line and text line and no blank line, and
    these two chunks are what [translate_subtitles] sends. *)
Theorem C4_line_classification :
  (forall line dbs cur,
     (isdigit (strip line) = true ->
      read_line line dbs cur =
        Some (if truthy cur then dbs ++ [cur] else dbs, line)) /\
     (contains (py "-->") line = true ->
      read_line line dbs cur = Some (dbs, cur ++ line)) /\
     (strip line = [] -> read_line line dbs cur = None) /\
     (isdigit (strip line) = false -> strip line <> [] ->
      read_line line dbs cur = Some (dbs, cur ++ line))) /\
  (forall line rest dbs cur,
     parse_lines (line :: rest) dbs cur =
       match read_line line dbs cur with
       | Some (dbs', cur') => parse_lines rest dbs' cur'
       | None => parse_lines rest dbs cur
       end) /\
  (forall lines,
     parseStream lines =
       (parse_lines lines [] []).1 ++
       (if truthy (parse_lines lines [] []).2
        then [(parse_lines lines [] []).2] else [])) /\
  (forall openai_client target_language output_path line rest dbs cur,
     for_lines openai_client target_language output_path (line :: rest)
       dbs cur =
       match read_line line dbs cur with
       | Some (dbs', cur') =>
           do dialogue_blocks <-
             translate_full openai_client target_language output_path dbs';
           for_lines openai_client target_language output_path rest
             dialogue_blocks cur'
       | None =>
           for_lines openai_client target_language output_path rest dbs cur
       end) /\
  (forall respond target_language output_path lines w o,
     fs w !! output_path = Some o ->
     requests
       ((do (dialogue_blocks, current_block) <-
           for_lines (answering respond) target_language output_path
             lines [] [];
         translate_rest (answering respond) target_language output_path
           dialogue_blocks current_block) w).2 =
     requests w ++
     map (request_of target_language) (batches_of (parseStream lines))) /\
  parseStream (iter_lines two_entries) =
    [py "1\n00:00:00,000 --> 00:00:01,000\nHello\n";
     py "2\n00:00:01,000 --> 00:00:02,000\nWorld\n"] /\
  requests
    (translate_subtitles (Some (answering echo)) (py "a.srt") (py "French")
       (world_with two_entries)).2 =
    [(system_message (py "French"),
      py "1\n00:00:00,000 --> 00:00:01,000\nHello\n" ++ py "\n" ++
      py "2\n00:00:01,000 --> 00:00:02,000\nWorld\n")].
Proof.
  split; [|split; [|split; [|split; [|split; [|split]]]]].
  - intros line dbs cur. repeat split.
    + apply read_line_index.
    + apply read_line_arrow.
    + apply read_line_blank.
    + apply read_line_text.
  - intros line rest dbs cur. simpl.
    by destruct (read_line line dbs cur) as [[d c]|].
  - apply parseStream_alt.
  - intros c target_language output_path line rest dbs cur.
    cbn [for_lines]. by destruct (read_line line dbs cur) as [[d c']|].
  - intros respond target_language output_path lines w o Ho.
    by rewrite (loop_run _ _ _ _ _ _ Ho).
  - by vm_compute.
  - by vm_compute.
Qed.

Lemma C4_witness :
  isdigit (strip (py "2\n")) = true /\
  read_line (py "2\n") [] (py "1\n") = Some ([py "1\n"], py "2\n") /\
  contains (py "-->") (py "0 --> 1\n") = true /\
  read_line (py "0 --> 1\n") [] (py "1\n") =
    Some ([], py "1\n0 --> 1\n") /\
  strip (py " \n") = [] /\
  read_line (py " \n") [] (py "1\n") = None /\
  isdigit (strip (py "Hello\n")) = false /\ strip (py "Hello\n") <> [] /\
  read_line (py "Hello\n") [] (py "1\n") = Some ([], py "1\nHello\n") /\
  fs (World {[ py "b.srt" := [] ]} [] []) !! py "b.srt" = Some [] /\
  requests
    ((do (dialogue_blocks, current_block) <-
        for_lines (answering echo) (py "French") (py "b.srt")
          (iter_lines two_entries) [] [];
      translate_rest (answering echo) (py "French") (py "b.srt")
        dialogue_blocks current_block)
       (World {[ py "b.srt" := [] ]} [] [])).2 =
    [] ++
    map (request_of (py "French"))
      (batches_of (parseStream (iter_lines two_entries))).
Proof.
  assert (H1 : isdigit (strip (py "2\n")) = true) by (by vm_compute).
  assert (H2 : contains (py "-->") (py "0 --> 1\n") = true)
    by (by vm_compute).
  assert (H3 : strip (py " \n") = []) by (by vm_compute).
  assert (H4 : isdigit (strip (py "Hello\n")) = false) by (by vm_compute).
  assert (H5 : strip (py "Hello\n") <> []) by (by vm_compute).
  split; [exact H1|]. split.
  { exact (proj1 (proj1 C4_line_classification (py "2\n") [] (py "1\n"))
             H1). }
  split; [exact H2|]. split.
  { exact (proj1 (proj2 (proj1 C4_line_classification (py "0 --> 1\n") []
                           (py "1\n"))) H2). }
  split; [exact H3|]. split.
  { exact (proj1 (proj2 (proj2 (proj1 C4_line_classification (py " \n") []
                                  (py "1\n")))) H3). }
  assert (H6 : fs (World {[ py "b.srt" := [] ]} [] []) !! py "b.srt" =
               Some []) by (by vm_compute).
  split; [exact H4|]. split; [exact H5|]. split.
  { exact (proj2 (proj2 (proj2 (proj1 C4_line_classification (py "Hello\n")
                                  [] (py "1\n")))) H4 H5). }
  split; [exact H6|].
  exact (proj1 (proj2 (proj2 (proj2 (proj2 C4_line_classification))))
           echo (py "French") (py "b.srt") (iter_lines two_entries)
           (World {[ py "b.srt" := [] ]} [] []) [] H6).
Defined.

(** C10 — The chunks that the loop of [translate_subtitles] forms and
    hands over, concatenated in the order they are yielded, are the input
    lines that are not blank, concatenated in their order: only lines
    empty once stripped are dropped, nothing is duplicated. *)
Theorem C10_chunks_are_nonblank_lines respond target_language output_path
    (lines : list str) w o :
  fs w !! output_path = Some o ->
  let chunks := parseStream lines in
  requests
    ((do (dialogue_blocks, current_block) <-
        for_lines (answering respond) target_language output_path
          lines [] [];
      translate_rest (answering respond) target_language output_path
        dialogue_blocks current_block) w).2 =
    requests w ++ map (request_of target_language) (batches_of chunks) /\
  concat (batches_of chunks) = chunks /\
  concat chunks = concat (filter (fun l => strip l <> []) lines) /\
  (forall input_path w' content,
     fs w' !! input_path = Some content ->
     open_error (fs w') (output_path_of input_path target_language) = None ->
     requests
       (translate_subtitles (Some (answering respond)) input_path
          target_language w').2 =
     requests w' ++
     map (request_of target_language)
       (batches_of (parseStream (iter_lines (universal_newlines content))))).
Proof.
  intros Ho chunks. split; [by rewrite (loop_run _ _ _ _ _ _ Ho)|].
  split; [apply BatchFacts.batches_of_shape|]. split.
  - subst chunks.
    pose proof (parse_lines_concat lines [] []) as H. simpl in H.
    rewrite parseStream_alt, concat_app, <- H. f_equal.
    destruct (parse_lines lines [] []).2; simpl; [done|].
    by rewrite app_nil_r.
  - intros input_path w' content Hin Hopen.
    by rewrite (translate_subtitles_run _ _ _ _ _ Hin Hopen).
Qed.

Lemma C10_witness :
  let lines := iter_lines two_entries in
  let w := World {[ py "b.srt" := [] ]} [] [] in
  requests
    ((do (dialogue_blocks, current_block) <-
        for_lines (answering echo) (py "French") (py "b.srt")
          lines [] [];
      translate_rest (answering echo) (py "French") (py "b.srt")
        dialogue_blocks current_block) w).2 =
    [] ++ map (request_of (py "French")) (batches_of (parseStream lines)) /\
  concat (parseStream lines) =
    concat (filter (fun l => strip l <> []) lines).
Proof.
  intros lines w.
  assert (Ho : fs w !! py "b.srt" = Some []) by (by vm_compute).
  pose proof (C10_chunks_are_nonblank_lines echo (py "French") (py "b.srt")
                lines w [] Ho) as H.
  exact (conj (proj1 H) (proj1 (proj2 (proj2 H)))).
Defined.

End ParserClaims.

(* ===================================================================== *)
(** * The translation pipeline: claims C1, C2, C5, C6, C9                 *)
(* ===================================================================== *)

Module PipelineClaims.
Import SubtitleProcessor ParserFacts BatchFacts PathFacts RunFacts Samples.

Lemma concat_length_5 (E : list (list str)) :
  Forall (fun b => length b = 5%nat) E ->
  length (concat E) = (5 * length E)%nat.
Proof.
  induction 1 as [|b E Hb _ IH]; simpl; [done|].
  rewrite length_app, IH, Hb. lia.
Qed.

(** When the parse yields a chunk, the batch after the loop is not empty
    and the batches are those of the loop followed by it. *)
Lemma batches_of_loop lines :
  parseStream lines <> [] ->
  last_batch (loop_batches lines [] []).2 <> [] /\
  batches_of (parseStream lines) =
    (loop_batches lines [] []).1 ++ [last_batch (loop_batches lines [] []).2].
Proof.
  intros Hne. pose proof (loop_batches_spec lines) as Hs.
  pose proof (loop_batches_last_nil lines) as Hnil.
  destruct (last_batch (loop_batches lines [] []).2) as [|b r] eqn:E.
  - rewrite (Hnil eq_refl) in Hs. simpl in Hs.
    destruct (batches_of_shape (parseStream lines)) as (Hc & _).
    rewrite Hs in Hc. by destruct Hne.
  - done.
Qed.

(** C1, as amended — For a source file whose parse yields the chunks
    c1..cn, an output path that can be opened for writing and a translate
    function that answers every request, [translate_subtitles] returns
    the output path and leaves in the
    output file, for each successive batch of five chunks that is
    followed by a further chunk, the trimmed answer to the batch joined
    by line feeds followed by a blank line, and then, for the one to five
    chunks that remain, the trimmed answer followed by a single line
    feed; one request is sent per batch, in order. *)
Theorem C1_translation_output respond input_path target_language w content :
  fs w !! input_path = Some content ->
  open_error (fs w) (output_path_of input_path target_language) = None ->
  let output_path := output_path_of input_path target_language in
  let chunks := parseStream (iter_lines (universal_newlines content)) in
  let run :=
    translate_subtitles (Some (answering respond)) input_path
      target_language w in
  run.1 = Ok (Some output_path) /\
  fs run.2 !! output_path =
    Some (write_batches (translated respond target_language)
            (batches_of chunks)) /\
  requests run.2 =
    requests w ++ map (request_of target_language) (batches_of chunks) /\
  concat (batches_of chunks) = chunks /\
  Forall (fun b => (1 <= length b <= 5)%nat) (batches_of chunks) /\
  (forall i b, (S i < length (batches_of chunks))%nat ->
               batches_of chunks !! i = Some b -> length b = 5%nat).
Proof.
  intros Hin Hopen output_path chunks run. subst run.
  rewrite (translate_subtitles_run _ _ _ _ _ Hin Hopen).
  cbn [fst snd fs requests].
  fold output_path chunks. rewrite lookup_insert_eq.
  destruct (batches_of_shape chunks) as (? & ? & ?). done.
Qed.

Lemma C1_witness :
  fs (world_with (srt_of 7)) !! py "a.srt" = Some (srt_of 7) /\
  open_error (fs (world_with (srt_of 7)))
    (output_path_of (py "a.srt") (py "French")) = None /\
  (translate_subtitles (Some (answering echo)) (py "a.srt") (py "French")
     (world_with (srt_of 7))).1 = Ok (Some (py "a.french.srt")).
Proof.
  assert (H1 : fs (world_with (srt_of 7)) !! py "a.srt" = Some (srt_of 7))
    by (by vm_compute).
  assert (H2 : open_error (fs (world_with (srt_of 7)))
                 (output_path_of (py "a.srt") (py "French")) = None)
    by (by vm_compute).
  split; [exact H1|]. split; [exact H2|].
  pose proof (C1_translation_output echo (py "a.srt") (py "French")
                (world_with (srt_of 7)) (srt_of 7) H1 H2) as H.
  exact (proj1 H).
Defined.

(** C1 as stated fails on a file of five entries: the only batch is
    written with a single line feed after it, not with a blank line. *)
Lemma C1_counterexample :
  let chunks := parseStream (iter_lines (universal_newlines (srt_of 5))) in
  let tr := translated echo (py "French") in
  let run :=
    translate_subtitles (Some (answering echo)) (py "a.srt") (py "French")
      (world_with (srt_of 5)) in
  length chunks = 5%nat /\
  spec_output tr chunks = tr chunks ++ py "\n\n" /\
  fs run.2 !! py "a.french.srt" = Some (tr chunks ++ py "\n") /\
  fs run.2 !! py "a.french.srt" <> Some (spec_output tr chunks).
Proof.
  vm_compute. repeat split. intros H. discriminate H.
Qed.

(** C2, as amended — When the parse of the source file yields 5(k+1)
    chunks and the output path can be opened for writing, the loop
    completes k batches of five, each written with a
    blank line after it; the last five chunks are still in
    [dialogue_blocks] and [current_block] when the input ends, so the
    batch after the loop is not empty: it holds these five chunks and is
    written with a single line feed after it. *)
Theorem C2_multiple_of_five respond input_path target_language w content
    (k : nat) :
  fs w !! input_path = Some content ->
  open_error (fs w) (output_path_of input_path target_language) = None ->
  let lines := iter_lines (universal_newlines content) in
  let chunks := parseStream lines in
  length chunks = (5 * S k)%nat ->
  let E := (loop_batches lines [] []).1 in
  let F := last_batch (loop_batches lines [] []).2 in
  let tr := translated respond target_language in
  let run :=
    translate_subtitles (Some (answering respond)) input_path
      target_language w in
  length E = k /\ Forall (fun b => length b = 5%nat) E /\
  length F = 5%nat /\ concat E ++ F = chunks /\
  requests run.2 = requests w ++ map (request_of target_language) (E ++ [F]) /\
  fs run.2 !! output_path_of input_path target_language =
    Some (concat (map (fun b => tr b ++ py "\n\n") E) ++ tr F ++ py "\n").
Proof.
  intros Hin Hopen lines chunks Hlen E F tr run.
  destruct (batches_of_loop lines) as [HF Hb];
    [by destruct (parseStream lines)|].
  fold chunks E F in HF, Hb.
  destruct (batches_of_shape chunks) as (Hc & _ & _).
  rewrite Hb, concat_app in Hc. simpl in Hc. rewrite app_nil_r in Hc.
  pose proof (loop_batches_full lines) as HE. fold E in HE.
  pose proof (last_batch_length lines) as HFl. fold F in HFl.
  assert (HL : (5 * length E + length F = 5 * S k)%nat).
  { rewrite <- concat_length_5, <- length_app, Hc by done. done. }
  assert (length F <> 0%nat) by (by destruct F).
  repeat split; [lia | done | lia | done | |].
  - subst run. rewrite (translate_subtitles_run _ _ _ _ _ Hin Hopen).
    cbn [snd requests]. fold lines chunks. by rewrite Hb.
  - subst run. rewrite (translate_subtitles_run _ _ _ _ _ Hin Hopen).
    cbn [snd fs]. rewrite lookup_insert_eq. fold lines chunks.
    by rewrite Hb, write_batches_app.
Qed.

Lemma C2_witness :
  fs (world_with (srt_of 10)) !! py "a.srt" = Some (srt_of 10) /\
  open_error (fs (world_with (srt_of 10)))
    (output_path_of (py "a.srt") (py "French")) = None /\
  length (parseStream (iter_lines (universal_newlines (srt_of 10)))) =
    (5 * 2)%nat /\
  length (loop_batches (iter_lines (universal_newlines (srt_of 10)))
            [] []).1 = 1%nat /\
  length (last_batch
            (loop_batches (iter_lines (universal_newlines (srt_of 10)))
               [] []).2) = 5%nat.
Proof.
  assert (H1 : fs (world_with (srt_of 10)) !! py "a.srt" = Some (srt_of 10))
    by (by vm_compute).
  assert (H2 : length (parseStream
                         (iter_lines (universal_newlines (srt_of 10)))) =
               (5 * 2)%nat) by (by vm_compute).
  assert (H3 : open_error (fs (world_with (srt_of 10)))
                 (output_path_of (py "a.srt") (py "French")) = None)
    by (by vm_compute).
  split; [exact H1|]. split; [exact H3|]. split; [exact H2|].
  pose proof (C2_multiple_of_five echo (py "a.srt") (py "French")
                (world_with (srt_of 10)) (srt_of 10) 1 H1 H3 H2) as H.
  exact (conj (proj1 H) (proj1 (proj2 (proj2 H)))).
Defined.

(** C2 as stated fails on a file of five entries: no batch is completed
    inside the loop, the batch after the loop holds all five chunks, and
    the output ends with a single line feed. *)
Lemma C2_counterexample :
  let lines := iter_lines (universal_newlines (srt_of 5)) in
  let tr := translated echo (py "French") in
  let run :=
    translate_subtitles (Some (answering echo)) (py "a.srt") (py "French")
      (world_with (srt_of 5)) in
  length (parseStream lines) = 5%nat /\
  (loop_batches lines [] []).1 = [] /\
  last_batch (loop_batches lines [] []).2 = parseStream lines /\
  fs run.2 !! py "a.french.srt" = Some (tr (parseStream lines) ++ py "\n") /\
  fs run.2 !! py "a.french.srt" <>
    Some (tr (parseStream lines) ++ py "\n\n").
Proof.
  vm_compute. repeat split. intros H. discriminate H.
Qed.

(** C5 — When the parse yields twelve chunks, the loop completes two
    batches, of the first five chunks and of the next five, and the batch
    after the loop holds the last two: twelve chunks in all, each in one
    batch, in their order; the loop and the statements after it, and so
    [translate_subtitles] once its output is open, send one request for
    each of the three, in this order.  When
    the parse yields no chunk, no batch is completed, the batch after the
    loop is empty and no request is sent. *)
Theorem C5_twelve_chunks :
  (forall lines,
     length (parseStream lines) = 12%nat ->
     let chunks := parseStream lines in
     let E := (loop_batches lines [] []).1 in
     let F := last_batch (loop_batches lines [] []).2 in
     E = [take 5 chunks; take 5 (drop 5 chunks)] /\
     F = drop 10 chunks /\
     map length E = [5; 5]%nat /\ length F = 2%nat /\
     length (concat E ++ F) = 12%nat /\ concat E ++ F = chunks) /\
  (forall lines,
     parseStream lines = [] ->
     (loop_batches lines [] []).1 = [] /\
     last_batch (loop_batches lines [] []).2 = []) /\
  (forall respond input_path target_language w content,
     fs w !! input_path = Some content ->
     open_error (fs w) (output_path_of input_path target_language) = None ->
     let chunks := parseStream (iter_lines (universal_newlines content)) in
     let run :=
       translate_subtitles (Some (answering respond)) input_path
         target_language w in
     (length chunks = 12%nat ->
      requests run.2 =
        requests w ++
        map (request_of target_language)
          [take 5 chunks; take 5 (drop 5 chunks); drop 10 chunks]) /\
     (chunks = [] -> requests run.2 = requests w)) /\
  (forall respond target_language output_path lines w o,
     fs w !! output_path = Some o ->
     length (parseStream lines) = 12%nat ->
     let chunks := parseStream lines in
     requests
       ((do (dialogue_blocks, current_block) <-
           for_lines (answering respond) target_language output_path
             lines [] [];
         translate_rest (answering respond) target_language output_path
           dialogue_blocks current_block) w).2 =
     requests w ++
     map (request_of target_language)
       [take 5 chunks; take 5 (drop 5 chunks); drop 10 chunks]).
Proof.
  assert (H12 : forall chunks : list str,
            length chunks = 12%nat ->
            batches_of chunks =
              [take 5 chunks; take 5 (drop 5 chunks); drop 10 chunks]).
  { intros chunks Hlen.
    do 12 (destruct chunks as [|? chunks]; [done|]).
    by destruct chunks. }
  split; [|split; [|split]].
  - intros lines Hlen. cbv zeta.
    destruct (batches_of_loop lines) as [HF Hb];
      [by destruct (parseStream lines)|].
    rewrite (H12 _ Hlen) in Hb.
    remember (parseStream lines) as chunks eqn:Hc.
    remember (loop_batches lines [] []).1 as E eqn:HE.
    remember (last_batch (loop_batches lines [] []).2) as F eqn:HFd.
    clear Hc HE HFd HF lines.
    assert (HEF : E = [take 5 chunks; take 5 (drop 5 chunks)] /\
                  F = drop 10 chunks).
    { destruct E as [|b1 [|b2 [|b3 E]]]; simpl in Hb; try done.
      - by injection Hb as <- <- <-.
      - injection Hb as _ _ _ Hb. by destruct E. }
    destruct HEF as [-> ->].
    assert (Hcat : concat [take 5 chunks; take 5 (drop 5 chunks)] ++
                   drop 10 chunks = chunks).
    { simpl. rewrite app_nil_r, <- app_assoc.
      replace (drop 10 chunks) with (drop 5 (drop 5 chunks))
        by (by rewrite drop_drop).
      by rewrite !take_drop. }
    rewrite Hcat. simpl. rewrite !length_take, !length_drop, Hlen.
    done.
  - intros lines Hnil.
    pose proof (loop_batches_spec lines) as Hs. rewrite Hnil in Hs.
    simpl in Hs. symmetry in Hs. apply app_eq_nil in Hs as [HE HF].
    split; [done|]. by destruct (last_batch _).
  - intros respond input_path target_language w content Hin Hopen chunks
      run.
    subst run. rewrite (translate_subtitles_run _ _ _ _ _ Hin Hopen).
    cbn [snd requests]. fold chunks. split.
    + intros Hlen. by rewrite (H12 _ Hlen).
    + intros ->. simpl. by rewrite app_nil_r.
  - intros respond target_language output_path lines w o Ho Hlen chunks.
    rewrite (loop_run _ _ _ _ _ _ Ho). cbn [snd requests].
    by rewrite (H12 _ Hlen).
Qed.

Lemma C5_witness :
  length (parseStream (iter_lines (srt_of 12))) = 12%nat /\
  map length (loop_batches (iter_lines (srt_of 12)) [] []).1 = [5; 5]%nat /\
  length (last_batch (loop_batches (iter_lines (srt_of 12)) [] []).2) = 2%nat /\
  parseStream (iter_lines []) = [] /\
  last_batch (loop_batches (iter_lines []) [] []).2 = [] /\
  fs (world_with []) !! py "a.srt" = Some [] /\
  open_error (fs (world_with []))
    (output_path_of (py "a.srt") (py "French")) = None /\
  requests (translate_subtitles (Some (answering echo)) (py "a.srt")
              (py "French") (world_with [])).2 = [].
Proof.
  assert (H12 : length (parseStream (iter_lines (srt_of 12))) = 12%nat)
    by (by vm_compute).
  assert (Hin : fs (world_with []) !! py "a.srt" = Some [])
    by (by vm_compute).
  pose proof (proj1 C5_twelve_chunks (iter_lines (srt_of 12)) H12) as H.
  pose proof (proj1 (proj2 C5_twelve_chunks) (iter_lines []) eq_refl) as H0.
  assert (Hopen : open_error (fs (world_with []))
                    (output_path_of (py "a.srt") (py "French")) = None)
    by (by vm_compute).
  pose proof (proj2 (proj1 (proj2 (proj2 C5_twelve_chunks)) echo
                       (py "a.srt") (py "French") (world_with []) [] Hin
                       Hopen)
                eq_refl) as Hr.
  split; [exact H12|].
  split; [exact (proj1 (proj2 (proj2 H)))|].
  split; [exact (proj1 (proj2 (proj2 (proj2 H))))|].
  split; [done|]. split; [exact (proj2 H0)|].
  split; [exact Hin|]. split; [exact Hopen | exact Hr].
Defined.

(** C6 — Without a configured client, or when the source path does not
    exist, [translate_subtitles] prints one line that says so, returns
    [None], sends no request and leaves every file as it was. *)
Theorem C6_no_client_or_no_input openai_client input_path target_language w :
  openai_client = None \/ fs w !! input_path = None ->
  let message :=
    match openai_client with
    | None => py "OpenAI API key not set. Cannot translate."
    | Some _ => py "Input file not found: " ++ input_path
    end in
  translate_subtitles openai_client input_path target_language w =
  (Ok None, World (fs w) (console w ++ [message]) (requests w)).
Proof.
  intros H. unfold translate_subtitles.
  destruct openai_client as [c|]; [|done].
  destruct H as [H|H]; [done|].
  unfold bind at 1, path_exists. rewrite H.
  rewrite bool_decide_eq_false_2 by (by intros [? ?]). done.
Qed.

Lemma C6_witness :
  (@None client = None \/
   fs (world_with two_entries) !! py "a.srt" = None) /\
  (Some (answering echo) = None \/
   fs (world_with two_entries) !! py "b.srt" = None) /\
  translate_subtitles None (py "a.srt") (py "French")
    (world_with two_entries) =
  (Ok None,
   World (fs (world_with two_entries))
         [py "OpenAI API key not set. Cannot translate."] []) /\
  translate_subtitles (Some (answering echo)) (py "b.srt") (py "French")
    (world_with two_entries) =
  (Ok None,
   World (fs (world_with two_entries))
         [py "Input file not found: b.srt"] []).
Proof.
  assert (H1 : @None client = None \/
               fs (world_with two_entries) !! py "a.srt" = None)
    by (by left).
  assert (H2 : Some (answering echo) = None \/
               fs (world_with two_entries) !! py "b.srt" = None)
    by (right; by vm_compute).
  split; [exact H1|]. split; [exact H2|]. split.
  - exact (C6_no_client_or_no_input None (py "a.srt") (py "French")
             (world_with two_entries) H1).
  - exact (C6_no_client_or_no_input (Some (answering echo)) (py "b.srt")
             (py "French") (world_with two_entries) H2).
Defined.

Lemma for_lines_blank c target_language output_path lines w :
  Forall (fun l => strip l = []) lines ->
  for_lines c target_language output_path lines [] [] w = (Ok ([], []), w).
Proof.
  induction 1 as [|l ls Hl _ IH]; simpl; [done|].
  by rewrite (read_line_blank _ _ _ Hl).
Qed.

(** C9, as amended — For an existing source file that is empty or holds
    only blank lines and any configured client: when the output path can
    be opened for writing, [translate_subtitles] sends no request, leaves
    the output file empty, and returns the output path; when it cannot,
    [translate_subtitles] prints the error, returns [None], sends no
    request and leaves every file as it was. *)
Theorem C9_blank_source openai_client input_path target_language w content :
  fs w !! input_path = Some content ->
  Forall (fun l => strip l = []) (iter_lines (universal_newlines content)) ->
  let output_path := output_path_of input_path target_language in
  (open_error (fs w) output_path = None ->
   translate_subtitles (Some openai_client) input_path target_language w =
   (Ok (Some output_path),
    World (<[output_path := []]> (fs w))
          (console w ++ [py "Translated subtitle saved to: " ++ output_path])
          (requests w))) /\
  (forall e,
     open_error (fs w) output_path = Some e ->
     translate_subtitles (Some openai_client) input_path target_language w =
     (Ok None,
      World (fs w) (console w ++ [py "Translation error: " ++ e])
            (requests w))).
Proof.
  intros Hin Hblank output_path. split.
  2:{ intros e Hopen. apply translate_subtitles_refused; [|done].
      by rewrite Hin. }
  intros Hopen.
  pose proof (output_path_ne input_path target_language) as Hne.
  unfold translate_subtitles, bind at 1, path_exists.
  rewrite bool_decide_eq_true_2 by (by rewrite Hin). cbn [negb].
  fold output_path. unfold try_except.
  unfold bind at 1. rewrite (open_w_checked_run output_path w Hopen).
  unfold open_w. unfold bind at 1, read_lines. cbn [fs].
  rewrite lookup_insert_ne, Hin by done.
  unfold bind at 1. rewrite for_lines_blank by done.
  done.
Qed.

Lemma C9_witness :
  fs (world_with (py "\n  \n")) !! py "a.srt" = Some (py "\n  \n") /\
  open_error (fs (world_with (py "\n  \n")))
    (output_path_of (py "a.srt") (py "French")) = None /\
  Forall (fun l => strip l = [])
    (iter_lines (universal_newlines (py "\n  \n"))) /\
  translate_subtitles (Some (answering echo)) (py "a.srt") (py "French")
    (world_with (py "\n  \n")) =
  (Ok (Some (py "a.french.srt")),
   World (<[py "a.french.srt" := []]> (fs (world_with (py "\n  \n"))))
         [py "Translated subtitle saved to: a.french.srt"] []).
Proof.
  assert (H1 : fs (world_with (py "\n  \n")) !! py "a.srt" =
               Some (py "\n  \n")) by (by vm_compute).
  assert (H2 : Forall (fun l => strip l = [])
                 (iter_lines (universal_newlines (py "\n  \n"))))
    by (vm_compute; repeat constructor).
  assert (H3 : open_error (fs (world_with (py "\n  \n")))
                 (output_path_of (py "a.srt") (py "French")) = None)
    by (by vm_compute).
  split; [exact H1|]. split; [exact H3|]. split; [exact H2|].
  exact (proj1 (C9_blank_source (answering echo) (py "a.srt") (py "French")
                  (world_with (py "\n  \n")) (py "\n  \n") H1 H2) H3).
Defined.

(** C9 as stated fails when the output path cannot be opened: with the
    target language "en/us" the output path lies in a directory that does
    not exist, the opening raises inside the [try], and
    [translate_subtitles] prints the error, returns [None] and creates no
    file, also for a blank source. *)
Lemma C9_counterexample :
  let w := world_with (py "\n  \n") in
  let run :=
    translate_subtitles (Some (answering echo)) (py "a.srt") (py "en/us")
      w in
  fs w !! py "a.srt" = Some (py "\n  \n") /\
  Forall (fun l => strip l = [])
    (iter_lines (universal_newlines (py "\n  \n"))) /\
  output_path_of (py "a.srt") (py "en/us") = py "a.en/us.srt" /\
  run.1 = Ok None /\
  run.1 <> Ok (Some (py "a.en/us.srt")) /\
  fs run.2 = fs w /\ fs run.2 !! py "a.en/us.srt" = None /\
  console run.2 =
    [py "Translation error: [Errno 2] No such file or directory: 'a.en/us.srt'"] /\
  requests run.2 = [].
Proof.
  vm_compute. repeat split; try done. repeat constructor.
Qed.

End PipelineClaims.

(* ===================================================================== *)
(** * binary64: rounding, the fractional part, the millisecond field      *)
(* ===================================================================== *)

Module FloatFacts.
Import Float.

Lemma digits2_size m : digits2_pos m = Pos.size m.
Proof. induction m; simpl; congruence. Qed.

Lemma digits_bounds m :
  2 ^ (Zpos (digits2_pos m) - 1) <= Zpos m < 2 ^ Zpos (digits2_pos m).
Proof.
  rewrite digits2_size. split.
  - pose proof (Pos.size_le m) as H.
    assert (H' : 2 ^ Zpos (Pos.size m) <= 2 * Zpos m).
    { rewrite <- Pos2Z.inj_pow. change (2 * Zpos m) with (Zpos m~0). lia. }
    replace (Zpos (Pos.size m)) with (Z.succ (Zpos (Pos.size m) - 1)) in H'
      by lia.
    rewrite Z.pow_succ_r in H' by lia. lia.
  - pose proof (Pos.size_gt m) as H. rewrite <- Pos2Z.inj_pow. lia.
Qed.

Lemma Zdigits2_le z d : 0 <= z < 2 ^ d -> 0 <= d -> Zdigits2 z <= d.
Proof.
  intros [H0 H] Hd. destruct z as [|m|m]; simpl; [done| |lia].
  pose proof (digits_bounds m) as [Hl _].
  destruct (Z_lt_le_dec d (Zpos (digits2_pos m))) as [Hlt|]; [|lia].
  exfalso.
  assert (2 ^ d <= 2 ^ (Z.pos (digits2_pos m) - 1))
    by (apply Z.pow_le_mono_r; lia).
  lia.
Qed.

Lemma shr_1_m mrs : 0 <= shr_m mrs -> shr_m (shr_1 mrs) = shr_m mrs / 2.
Proof.
  destruct mrs as [m r s]. simpl. intros H.
  destruct m as [|[p|p|]|p]; simpl; try done; try lia.
  - rewrite Pos2Z.inj_xI. rewrite (Z.mul_comm 2), Z.div_add_l by lia. done.
  - rewrite Pos2Z.inj_xO. rewrite (Z.mul_comm 2), Z.div_mul by lia. done.
Qed.

Lemma iter_shr_m n mrs :
  0 <= shr_m mrs ->
  shr_m (SpecFloat.iter_pos shr_1 n mrs) = shr_m mrs / 2 ^ Zpos n.
Proof.
  revert mrs. induction n as [n IH|n IH|]; intros mrs H;
    simpl SpecFloat.iter_pos.
  - assert (H1 : 0 <= shr_m (shr_1 mrs))
      by (rewrite shr_1_m by done; apply Z.div_pos; lia).
    assert (H2 : 0 <= shr_m (SpecFloat.iter_pos shr_1 n (shr_1 mrs)))
      by (rewrite IH by done; apply Z.div_pos; lia).
    rewrite IH, IH, shr_1_m by done.
    rewrite !Z.div_div by lia. f_equal.
    rewrite Pos2Z.inj_xI.
    replace (2 * Zpos n + 1) with (1 + Zpos n + Zpos n) by lia.
    rewrite !Z.pow_add_r by lia. ring.
  - assert (H2 : 0 <= shr_m (SpecFloat.iter_pos shr_1 n mrs))
      by (rewrite IH by done; apply Z.div_pos; lia).
    rewrite IH, IH by done. rewrite !Z.div_div by lia. f_equal.
    rewrite Pos2Z.inj_xO. rewrite <- Z.pow_add_r by lia. f_equal. lia.
  - rewrite shr_1_m by done. done.
Qed.

Lemma shr_1_r mrs : 0 <= shr_m mrs -> shr_r (shr_1 mrs) = Z.odd (shr_m mrs).
Proof.
  destruct mrs as [m r s]. simpl. intros H.
  destruct m as [|[p|p|]|p]; simpl; done || lia.
Qed.

(** The round bit after [n] shifts is bit [n - 1] of the mantissa. *)
Lemma iter_shr_r n mrs :
  0 <= shr_m mrs ->
  shr_r (SpecFloat.iter_pos shr_1 n mrs) =
    Z.odd (shr_m mrs / 2 ^ (Zpos n - 1)).
Proof.
  revert mrs. induction n as [n IH|n IH|]; intros mrs H;
    simpl SpecFloat.iter_pos.
  - assert (H1 : 0 <= shr_m (shr_1 mrs))
      by (rewrite shr_1_m by done; apply Z.div_pos; lia).
    assert (H2 : 0 <= shr_m (SpecFloat.iter_pos shr_1 n (shr_1 mrs)))
      by (rewrite iter_shr_m by done; apply Z.div_pos; lia).
    rewrite IH, iter_shr_m, shr_1_m by done.
    rewrite !Z.div_div by lia. f_equal. f_equal.
    replace (Zpos n~1 - 1) with (1 + Zpos n + (Zpos n - 1)) by lia.
    rewrite !Z.pow_add_r by lia. ring.
  - assert (H2 : 0 <= shr_m (SpecFloat.iter_pos shr_1 n mrs))
      by (rewrite iter_shr_m by done; apply Z.div_pos; lia).
    rewrite IH, iter_shr_m by done. rewrite !Z.div_div by lia.
    f_equal. f_equal. rewrite <- Z.pow_add_r by lia. f_equal. lia.
  - rewrite shr_1_r by done. simpl. by rewrite Z.div_1_r.
Qed.

Lemma odd_div_mod M n :
  0 < n -> Z.odd (M / 2 ^ (n - 1)) = true -> 2 ^ (n - 1) <= M mod 2 ^ n.
Proof.
  intros Hn Hodd.
  assert (E : 2 ^ n = 2 ^ (n - 1) * 2).
  { replace n with ((n - 1) + 1) at 1 by lia.
    by rewrite Z.pow_add_r by lia. }
  rewrite E. clear E.
  assert (Hp : 0 < 2 ^ (n - 1)) by (apply Z.pow_pos_nonneg; lia).
  rewrite Z.rem_mul_r by lia.
  rewrite Zmod_odd, Hodd.
  pose proof (Z.mod_pos_bound M (2 ^ (n - 1)) Hp). lia.
Qed.

Lemma rne_cases m l :
  round_nearest_even m l = m \/ round_nearest_even m l = m + 1.
Proof.
  destruct l as [|[]]; simpl; auto. destruct (Z.even m); auto.
Qed.

Lemma rne_up mrs :
  round_nearest_even (shr_m mrs) (loc_of_shr_record mrs) = shr_m mrs + 1 ->
  shr_r mrs = true.
Proof. destruct mrs as [m [] []]; simpl; [done | done | lia | lia]. Qed.

Lemma fexp_eq z : fexp prec emax z = Z.max (z - 53) (-1074).
Proof. reflexivity. Qed.

Lemma shr_m_shr m n e :
  0 <= m ->
  shr_m (shr (Build_shr_record m false false) e n).1 = m / 2 ^ Z.max 0 n /\
  (shr (Build_shr_record m false false) e n).2 = e + Z.max 0 n /\
  (n <= 0 -> (shr (Build_shr_record m false false) e n).1 =
             Build_shr_record m false false) /\
  (0 < n -> shr_r (shr (Build_shr_record m false false) e n).1 =
            Z.odd (m / 2 ^ (n - 1))).
Proof.
  intros Hm. destruct n as [|p|p]; simpl.
  - rewrite Z.div_1_r. repeat split; lia.
  - rewrite iter_shr_m, iter_shr_r by done. simpl. repeat split; lia.
  - rewrite Z.div_1_r. repeat split; lia.
Qed.

Lemma round_aux_shape sx M E :
  let n1 := Z.max 0 (fexp prec emax (Zpos (digits2_pos M) + E) - E) in
  exists q',
    (q' = Zpos M / 2 ^ n1 \/
     q' = Zpos M / 2 ^ n1 + 1 /\ 0 < n1 /\
     2 ^ (n1 - 1) <= Zpos M mod 2 ^ n1) /\
    (n1 = 0 -> q' = Zpos M) /\
    let e' := E + n1 in
    let n2 := Z.max 0 (fexp prec emax (Zdigits2 q' + e') - e') in
    binary_round_aux prec emax sx (Zpos M) E loc_Exact =
      match q' / 2 ^ n2 with
      | 0 => S754_zero sx
      | Zpos m =>
          if e' + n2 <=? emax - prec then S754_finite sx m (e' + n2)
          else S754_infinity sx
      | Zneg _ => S754_nan
      end.
Proof.
  intros n1. unfold binary_round_aux, shr_fexp.
  change (Zdigits2 (Zpos M)) with (Zpos (digits2_pos M)).
  change (shr_record_of_loc (Zpos M) loc_Exact)
    with (Build_shr_record (Zpos M) false false).
  set (n := fexp prec emax (Zpos (digits2_pos M) + E) - E) in *.
  destruct (shr_m_shr (Zpos M) n E ltac:(lia)) as (Hm & He & Hid & Hrb).
  destruct (shr _ E n) as [mrs' e'] eqn:Hshr. simpl in Hm, He, Hid, Hrb.
  set (q' := round_nearest_even (shr_m mrs') (loc_of_shr_record mrs')).
  exists q'.
  assert (Hq : q' = Zpos M / 2 ^ n1 \/
               q' = Zpos M / 2 ^ n1 + 1 /\ 0 < n1 /\
               2 ^ (n1 - 1) <= Zpos M mod 2 ^ n1).
  { subst q' n1. rewrite <- Hm.
    destruct (rne_cases (shr_m mrs') (loc_of_shr_record mrs')) as [Hc|Hc];
      [by left|].
    right. split; [done|].
    destruct (Z_lt_le_dec 0 n) as [Hn|Hn].
    - replace (Z.max 0 n) with n by lia. split; [done|].
      apply odd_div_mod; [done|]. rewrite <- Hrb by done. by apply rne_up.
    - exfalso. rewrite Hid in Hc by done. simpl in Hc. lia. }
  assert (Hq0 : 0 <= q').
  { assert (0 <= Zpos M / 2 ^ n1) by (apply Z.div_pos; lia). lia. }
  split; [done|]. split.
  { intros H0. subst q'. rewrite Hid by lia. done. }
  cbv zeta. change (shr_record_of_loc q' loc_Exact)
    with (Build_shr_record q' false false).
  fold n1 in He. rewrite <- He.
  destruct (shr_m_shr q' (fexp prec emax (Zdigits2 q' + e') - e') e' Hq0)
    as (Hm2 & He2 & _).
  destruct (shr _ e' _) as [mrs'' e''] eqn:Hshr2. simpl in Hm2, He2.
  rewrite Hm2, He2. done.
Qed.

Lemma div_pow2_div a i j :
  0 <= i -> 0 <= j -> (a / 2 ^ i) / 2 ^ j = a / 2 ^ (i + j).
Proof.
  intros Hi Hj. rewrite Z.div_div, <- Z.pow_add_r by lia. done.
Qed.

Lemma div_succ_bounds q p :
  0 < p -> q / p <= (q + 1) / p <= q / p + 1.
Proof.
  intros Hp. split.
  - apply Z.div_le_mono; lia.
  - replace (q / p + 1) with ((q + 1 * p) / p) by (by rewrite Z.div_add by lia).
    apply Z.div_le_mono; lia.
Qed.

(** Rounding a positive value below 2^10 and truncating the result gives
    the integer part of the value, or one more; and it stays below an
    integer bound that the value misses by more than half a unit in the
    last place. *)
Lemma round_aux_to_int M E :
  E < 0 -> Zpos (digits2_pos M) + E <= 10 ->
  exists ms,
    to_int (binary_round_aux prec emax false (Zpos M) E loc_Exact) = Ok ms /\
    Zpos M / 2 ^ (- E) <= ms <= Zpos M / 2 ^ (- E) + 1 /\
    forall B,
      2 ^ Z.max 0 (fexp prec emax (Zpos (digits2_pos M) + E) - E) <
        2 * (B * 2 ^ (- E) - Zpos M) ->
      ms < B.
Proof.
  intros HE Hd.
  destruct (round_aux_shape false M E) as (q' & Hq & Hq1 & Hr).
  cbv zeta in Hr. rewrite Hr. clear Hr.
  pose proof (digits_bounds M) as [_ HM].
  rewrite !fexp_eq in *.
  assert (Hdq1 : Z.max 0 (Z.max (Zpos (digits2_pos M) + E - 53) (-1074) - E)
                 = 0 -> Zdigits2 q' = Zpos (digits2_pos M)).
  { intros H0. by rewrite (Hq1 H0). }
  clear Hq1.
  remember (Zpos (digits2_pos M)) as d eqn:Hdd. clear Hdd.
  remember (Z.max 0 (Z.max (d + E - 53) (-1074) - E)) as n1 eqn:Hn1d.
  remember (E + n1) as e' eqn:He'd.
  assert (Hlin : e' < 0 /\ 0 <= n1 /\ d <= 53 + n1 /\ -1074 <= e' /\
                 n1 + - e' = - E /\
                 (e' <= -43 \/
                  Zdigits2 q' = d /\ Z.max (d + e' - 53) (-1074) - e' <= 0)).
  { clear Hq HM. destruct (Z.eq_dec n1 0) as [H0|H0].
    - rewrite H0 in Hdq1. specialize (Hdq1 eq_refl). lia.
    - clear Hdq1. lia. }
  destruct Hlin as (He'0 & Hn1 & Hdn & He'm & Hsum & Hcase).
  clear Hn1d He'd Hdq1.
  assert (Hqq : 0 <= Zpos M / 2 ^ n1 < 2 ^ 53).
  { split; [apply Z.div_pos; lia|].
    apply Z.div_lt_upper_bound; [lia|].
    rewrite <- Z.pow_add_r by lia.
    eapply Z.lt_le_trans; [exact HM|]. apply Z.pow_le_mono_r; lia. }
  assert (Hq' : 0 <= q' < 2 ^ 54).
  { change (2 ^ 54) with (2 * 2 ^ 53). clear HM.
    destruct Hq as [-> | [-> _]]; lia. }
  pose proof (Zdigits2_le q' 54 Hq' ltac:(lia)) as Hdq.
  remember (Z.max 0 (Z.max (Zdigits2 q' + e' - 53) (-1074) - e')) as n2
    eqn:Hn2d.
  assert (Hn2 : 0 <= n2 <= 1 /\ e' + n2 < 0)
    by (clear - Hn2d Hdq He'm He'0 Hcase; lia).
  destruct Hn2 as [Hn2 He'']. clear Hn2d.
  set (k := Zpos M / 2 ^ (- E)).
  assert (Hk : (Zpos M / 2 ^ n1) / 2 ^ (- e') = k).
  { rewrite div_pow2_div by lia. subst k. f_equal. f_equal. lia. }
  assert (Hms : (q' / 2 ^ n2) / 2 ^ (- (e' + n2)) = q' / 2 ^ (- e')).
  { rewrite div_pow2_div by lia. f_equal. f_equal. lia. }
  assert (Hb : k <= q' / 2 ^ (- e') <= k + 1).
  { rewrite <- Hk. destruct Hq as [-> | [-> _]].
    - lia.
    - apply div_succ_bounds. lia. }
  exists (q' / 2 ^ (- e')). split; [|split; [done|]].
  - destruct (q' / 2 ^ n2) as [|m|m] eqn:Hdiv.
    + simpl. rewrite <- Hms. done.
    + replace (e' + n2 <=? emax - prec) with true
        by (symmetry; apply Z.leb_le; unfold emax, prec; lia).
      simpl.
      replace (0 <=? e' + n2) with false by (symmetry; apply Z.leb_gt; lia).
      by rewrite <- Hms.
    + assert (0 <= q' / 2 ^ n2) by (apply Z.div_pos; lia). lia.
  - intros B HB. clear Hb Hk Hms HM Hqq Hq' Hdq Hcase k.
    destruct (Z_lt_le_dec (q' / 2 ^ (- e')) B) as [|Hge]; [done|]. exfalso.
    assert (HP : 0 < 2 ^ (- e')) by (apply Z.pow_pos_nonneg; lia).
    assert (HN : 0 < 2 ^ n1) by (apply Z.pow_pos_nonneg; lia).
    assert (HD : 2 ^ (- E) = 2 ^ (- e') * 2 ^ n1)
      by (rewrite <- Z.pow_add_r by lia; f_equal; lia).
    pose proof (Z.mul_div_le q' (2 ^ (- e')) HP) as Hq'P.
    pose proof (Z.div_mod (Zpos M) (2 ^ n1) ltac:(lia)) as HMd.
    pose proof (Z.mod_pos_bound (Zpos M) (2 ^ n1) HN) as Hrm.
    rewrite HD in HB.
    remember (2 ^ (- e')) as P. remember (2 ^ n1) as N.
    remember (Zpos M / N) as q. remember (Zpos M mod N) as rm.
    assert (HBq : B * P <= q') by nia.
    destruct Hq as [-> | (-> & Hn0 & Hhalf)].
    + assert (B * P * N <= q * N) by (apply Z.mul_le_mono_nonneg_r; lia).
      nia.
    + assert (HN2 : N = 2 * 2 ^ (n1 - 1)).
      { subst N. replace n1 with (1 + (n1 - 1)) at 1 by lia.
        by rewrite Z.pow_add_r by lia. }
      assert (B * P * N <= (q + 1) * N)
        by (apply Z.mul_le_mono_nonneg_r; lia).
      nia.
Qed.

(** A mantissa that already sits at its canonical exponent is not rounded. *)
Lemma round_aux_canonical sx M E :
  fexp prec emax (Zpos (digits2_pos M) + E) <= E -> E <= emax - prec ->
  binary_round_aux prec emax sx (Zpos M) E loc_Exact = S754_finite sx M E.
Proof.
  intros Hc HE.
  destruct (round_aux_shape sx M E) as (q' & _ & Hq & Hr).
  cbv zeta in Hr. rewrite Hr. clear Hr.
  assert (H0 : Z.max 0 (fexp prec emax (Zpos (digits2_pos M) + E) - E) = 0)
    by lia.
  rewrite H0 in *. rewrite (Hq eq_refl). simpl Zdigits2.
  rewrite Z.add_0_r, H0. simpl (2 ^ 0). rewrite Z.div_1_r, Z.add_0_r.
  by rewrite (proj2 (Z.leb_le _ _) HE).
Qed.

Lemma iter_xO_spec p d :
  Zpos (Pos.iter xO p d) = Zpos p * 2 ^ Zpos d /\
  Zpos (digits2_pos (Pos.iter xO p d)) = Zpos (digits2_pos p) + Zpos d.
Proof.
  induction d as [|d IH] using Pos.peano_ind.
  - simpl. split; lia.
  - rewrite Pos.iter_succ. destruct IH as [IH1 IH2]. simpl digits2_pos.
    rewrite Pos2Z.inj_xO, IH1, !Pos2Z.inj_succ, IH2, Z.pow_succ_r by lia.
    split; lia.
Qed.

Lemma valid_finite s m e :
  valid (S754_finite s m e) = true ->
  Zpos (digits2_pos m) <= 53 /\ -1074 <= e <= 971 /\
  fexp prec emax (Zpos (digits2_pos m) + e) = e.
Proof.
  unfold valid. simpl. unfold bounded, canonical_mantissa.
  intros [H1 H2]%andb_prop. apply Z.eqb_eq in H1. apply Z.leb_le in H2.
  rewrite fexp_eq in *. unfold emax, prec in *. lia.
Qed.

(** [binary_normalize] of a positive integer of at most 53 bits at an
    exponent of the format is exact. *)
Lemma normalize_exact r e :
  Zpos (digits2_pos r) <= 53 -> -1074 <= e <= 971 ->
  exists mz ez,
    binary_normalize prec emax (Zpos r) e false = S754_finite false mz ez /\
    -1074 <= ez <= e /\ Zpos mz = Zpos r * 2 ^ (e - ez) /\
    Zpos (digits2_pos mz) + ez = Zpos (digits2_pos r) + e /\
    Zpos (digits2_pos mz) <= 53.
Proof.
  intros Hd He. unfold binary_normalize, binary_round, shl_align.
  rewrite fexp_eq.
  remember (Zpos (digits2_pos r)) as d eqn:Hdd.
  remember (Z.max (d + e - 53) (-1074)) as e0 eqn:He0.
  destruct (e0 - e) as [|dd|dd] eqn:Hsub; try lia.
  - exists r, e. rewrite round_aux_canonical.
    + rewrite Z.sub_diag. simpl. repeat split; lia.
    + rewrite fexp_eq. lia.
    + unfold emax, prec. lia.
  - destruct (iter_xO_spec r dd) as [Hm Hdig].
    exists (Pos.iter xO r dd), e0. rewrite round_aux_canonical.
    + repeat split; try lia. rewrite Hm. f_equal. f_equal. lia.
    + rewrite fexp_eq, Hdig. lia.
    + unfold emax, prec. lia.
Qed.

Lemma of_int_1000 : of_int 1000 = S754_finite false 8796093022208000 (-43).
Proof. by vm_compute. Qed.

Lemma digits_le_of_lt m d :
  Zpos m < 2 ^ d -> 0 <= d -> Zpos (digits2_pos m) <= d.
Proof. intros H Hd. apply (Zdigits2_le (Zpos m) d); lia. Qed.

(** [x % 1] for a finite [x >= 0]: zero, or the exact fractional part. *)
Lemma mod1_nonneg m e :
  valid (S754_finite false m e) = true ->
  let r := if 0 <=? e then 0 else Zpos m mod 2 ^ (- e) in
  (r = 0 /\ mod1 (S754_finite false m e) = S754_zero false) \/
  (e < 0 /\ 0 < r /\
   exists mz ez,
     mod1 (S754_finite false m e) = S754_finite false mz ez /\
     -1074 <= ez <= e /\ Zpos mz = r * 2 ^ (e - ez) /\
     Zpos (digits2_pos mz) + ez <= 0 /\ Zpos (digits2_pos mz) <= 53).
Proof.
  intros Hv. destruct (valid_finite _ _ _ Hv) as (Hd & He & _).
  unfold mod1, fmod1. destruct (Z.leb_spec 0 e) as [H0|H0]; simpl.
  { left. done. }
  assert (Hp : 0 < 2 ^ (- e)) by (apply Z.pow_pos_nonneg; lia).
  pose proof (Z.mod_pos_bound (Zpos m) (2 ^ (- e)) Hp) as Hr.
  destruct (Zpos m mod 2 ^ (- e)) as [|r|r] eqn:Er; [by left | | lia].
  right. split; [done|]. split; [lia|].
  assert (Hdr : Zpos (digits2_pos r) <= 53).
  { pose proof (digits_bounds m) as [_ Hm].
    apply digits_le_of_lt; [|lia].
    eapply Z.le_lt_trans; [|eapply Z.lt_le_trans; [exact Hm|]].
    - rewrite <- Er. apply Z.mod_le; lia.
    - apply Z.pow_le_mono_r; lia. }
  destruct (normalize_exact r e Hdr He)
    as (mz & ez & -> & Hez & Hmz & Hdig & Hd53).
  exists mz, ez. repeat split; try done; try lia.
  rewrite Hdig.
  pose proof (digits_le_of_lt r (- e) ltac:(lia) ltac:(lia)). lia.
Qed.

Lemma mul_div_pow2 a i j :
  0 <= i -> 0 <= j -> (a * 2 ^ j) / 2 ^ (i + j) = a / 2 ^ i.
Proof.
  intros Hi Hj. rewrite Z.pow_add_r by lia.
  apply Z.div_mul_cancel_r.
  - apply Z.pow_nonzero; lia.
  - apply Z.pow_nonzero; lia.
Qed.

(** The millisecond field of a finite [x >= 0]: the integer part of the
    exact fractional part times 1000, or one more, and at most 999. *)
Lemma millis_nonneg m e :
  valid (S754_finite false m e) = true ->
  let k := if 0 <=? e then 0
           else (Zpos m mod 2 ^ (- e) * 1000) / 2 ^ (- e) in
  exists ms,
    to_int (mul (mod1 (S754_finite false m e)) (of_int 1000)) = Ok ms /\
    k <= ms <= k + 1 /\ ms <= 999.
Proof.
  intros Hv k. subst k.
  destruct (mod1_nonneg m e Hv)
    as [[Hr ->] | (He & Hr & mz & ez & -> & Hez & Hmz & Hdig & Hd53)].
  - rewrite of_int_1000. simpl. exists 0. split; [done|].
    destruct (0 <=? e); [lia|]. rewrite Hr, Z.mul_0_l, Zdiv_0_l. lia.
  - rewrite of_int_1000. unfold mul, SFmul. simpl xorb.
    replace (0 <=? e) with false in * by (symmetry; apply Z.leb_gt; lia).
    set (r := Zpos m mod 2 ^ (- e)) in *.
    pose proof (digits_bounds mz) as [_ Hmz2].
    assert (HdM : Zpos (digits2_pos (mz * 8796093022208000)) <=
                  Zpos (digits2_pos mz) + 53).
    { apply digits_le_of_lt; [|lia].
      rewrite Pos2Z.inj_mul, Z.pow_add_r by lia.
      apply Z.mul_lt_mono_nonneg; lia. }
    destruct (round_aux_to_int (mz * 8796093022208000) (ez + -43))
      as (ms & Hms & Hb & Hlt); [lia | lia |].
    exists ms. split; [done|]. split.
    + assert (E : Zpos (mz * 8796093022208000) / 2 ^ (- (ez + -43)) =
                  r * 1000 / 2 ^ (- e)); [|by rewrite <- E].
      rewrite Pos2Z.inj_mul, Hmz.
      change (Zpos 8796093022208000) with (1000 * 2 ^ 43).
      replace (r * 2 ^ (e - ez) * (1000 * 2 ^ 43))
        with (r * 1000 * 2 ^ (e - ez + 43))
        by (rewrite (Z.pow_add_r 2 (e - ez) 43) by lia; ring).
      replace (- (ez + -43)) with (- e + (e - ez + 43)) by lia.
      apply mul_div_pow2; lia.
    + assert (ms < 1000); [|lia]. apply Hlt. clear Hlt Hb Hms.
      rewrite fexp_eq.
      remember (Zpos (digits2_pos (mz * 8796093022208000))) as dM.
      remember (Z.max 0 (Z.max (dM + (ez + -43) - 53) (-1074) - (ez + -43)))
        as n1 eqn:Hn1.
      assert (Hn1b : 0 <= n1 <= 53) by (clear Hmz Hmz2; lia).
      assert (Hlow : Zpos mz + 1 <= 2 ^ (- ez)).
      { assert (2 ^ Zpos (digits2_pos mz) <= 2 ^ (- ez))
          by (apply Z.pow_le_mono_r; lia).
        clear Hmz. lia. }
      assert (H2 : 2 ^ (- (ez + -43)) = 2 ^ 43 * 2 ^ (- ez))
        by (rewrite <- Z.pow_add_r by lia; f_equal; lia).
      assert (H53 : 2 ^ n1 <= 2 ^ 53) by (apply Z.pow_le_mono_r; lia).
      rewrite H2, Pos2Z.inj_mul.
      change (Zpos 8796093022208000) with (1000 * 2 ^ 43).
      change (2 ^ 53) with 9007199254740992 in H53.
      change (2 ^ 43) with 8796093022208.
      remember (2 ^ n1) as N. remember (2 ^ (- ez)) as P.
      clear - H53 Hlow. nia.
Qed.

End FloatFacts.

(* ===================================================================== *)
(** * Timecodes: exact values, decimal fields                             *)
(* ===================================================================== *)

Module FormatFacts.
Import Float SubtitleProcessor FloatFacts.

Lemma pow2_to_pos k : 0 <= k -> Zpos (Z.to_pos (2 ^ k)) = 2 ^ k.
Proof. intros H. apply Z2Pos.id. apply Z.pow_pos_nonneg; lia. Qed.

(** The whole seconds and milliseconds of a finite [x >= 0] in exact
    arithmetic, on the mantissa and the exponent. *)
Lemma exact_seconds_nonneg m e :
  exact_seconds (S754_finite false m e) =
    if 0 <=? e then Zpos m * 2 ^ e else Zpos m / 2 ^ (- e).
Proof.
  unfold exact_seconds, value. destruct (Z.leb_spec 0 e) as [H|H]; simpl.
  - apply Qfloor_Z.
  - rewrite pow2_to_pos by lia. done.
Qed.

Lemma exact_millis_nonneg m e :
  exact_millis (S754_finite false m e) =
    if 0 <=? e then 0 else (Zpos m mod 2 ^ (- e) * 1000) / 2 ^ (- e).
Proof.
  unfold exact_millis, value. destruct (Z.leb_spec 0 e) as [H|H].
  - rewrite Qfloor_Z. simpl cond_Zopp.
    unfold Qfloor, Qminus, Qplus, Qmult, Qopp, inject_Z. simpl Qnum. simpl Qden.
    replace ((Zpos m * 2 ^ e) * 1 + - (Zpos m * 2 ^ e) * 1) with 0 by lia.
    done.
  - simpl cond_Zopp.
    unfold Qfloor at 2. unfold Qfloor, Qminus, Qplus, Qmult, Qopp, inject_Z.
    simpl Qnum. simpl Qden.
    rewrite !Pos.mul_1_r, pow2_to_pos by lia. rewrite Z.mul_1_r.
    f_equal. f_equal. rewrite Z.mod_eq by (apply Z.pow_nonzero; lia). lia.
Qed.

Lemma exact_zero s :
  exact_seconds (S754_zero s) = 0 /\ exact_millis (S754_zero s) = 0.
Proof. done. Qed.

Lemma ascii_digit_facts c :
  ascii_digit c = true ->
  isdigit_char c = true /\ isspace c = false /\ c <> LF /\ c <> "-"%char.
Proof.
  destruct c as [[] [] [] [] [] [] [] []]; vm_compute; intros H;
    try discriminate H; repeat split; discriminate.
Qed.

Lemma string_of_uint_digits d :
  forallb ascii_digit (list_ascii_of_string (NilEmpty.string_of_uint d)) = true.
Proof. induction d; simpl; auto. Qed.

Lemma nilzero_string_of_uint d :
  d <> Nil ->
  NilZero.string_of_uint d = NilEmpty.string_of_uint d /\
  list_ascii_of_string (NilEmpty.string_of_uint d) <> [].
Proof. by destruct d. Qed.

Lemma str_of_int_nonneg n :
  0 <= n ->
  exists d,
    Z.of_uint d = n /\
    str_of_int n <> [] /\ forallb ascii_digit (str_of_int n) = true /\
    NilEmpty.uint_of_string (string_of_list_ascii (str_of_int n)) = Some d.
Proof.
  intros Hn. unfold str_of_int. destruct n as [|p|p]; [|  |lia].
  { exists (D0 Nil). by vm_compute. }
  exists (Pos.to_uint p). split; [exact (DecimalZ.of_to (Zpos p))|].
  simpl Z.to_int. simpl NilZero.string_of_int.
  destruct (nilzero_string_of_uint (Pos.to_uint p)
              (DecimalPos.Unsigned.to_uint_nonnil p)) as [-> Hne].
  split; [done|]. split; [apply string_of_uint_digits|].
  rewrite string_of_list_ascii_of_string. apply NilEmpty.usu.
Qed.

Lemma str_of_int_chars n :
  forallb (fun c => ascii_digit c || Ascii.eqb c "-") (str_of_int n) = true.
Proof.
  assert (Hw : forall l, forallb ascii_digit l = true ->
               forallb (fun c => ascii_digit c || Ascii.eqb c "-") l = true).
  { induction l as [|c l IH]; simpl; [done|].
    intros [-> H]%andb_prop. simpl. auto. }
  destruct (Z_lt_le_dec n 0) as [Hneg|Hpos].
  - destruct n as [|p|p]; try lia. unfold str_of_int. simpl Z.to_int.
    simpl NilZero.string_of_int. simpl. apply Hw.
    destruct (nilzero_string_of_uint (Pos.to_uint p)
                (DecimalPos.Unsigned.to_uint_nonnil p)) as [-> _].
    apply string_of_uint_digits.
  - destruct (str_of_int_nonneg n Hpos) as (d & _ & _ & H & _). by apply Hw.
Qed.

Lemma uint_of_string_zeros k s d :
  NilEmpty.uint_of_string (string_of_list_ascii s) = Some d ->
  exists d',
    NilEmpty.uint_of_string
      (string_of_list_ascii (replicate k "0"%char ++ s)) = Some d' /\
    Z.of_uint d' = Z.of_uint d.
Proof.
  intros H. induction k as [|k (d' & IH & Hd)].
  - eauto.
  - exists (D0 d'). cbn [replicate app string_of_list_ascii].
    cbn [NilEmpty.uint_of_string]. rewrite IH. split; [reflexivity|].
    rewrite <- Hd. reflexivity.
Qed.

(** A zero-padded field reads back as the number it was made from, and is
    at least as wide as asked. *)
Lemma format_0d_nonneg w n :
  0 <= n ->
  format_0d w n =
    replicate (w - length (str_of_int n)) "0"%char ++ str_of_int n /\
  int_of_str (format_0d w n) = Some n /\
  (w <= length (format_0d w n))%nat /\
  forallb ascii_digit (format_0d w n) = true.
Proof.
  intros Hn. unfold format_0d, zfill.
  replace (n <? 0) with false by (symmetry; apply Z.ltb_ge; lia).
  destruct (str_of_int_nonneg n Hn) as (d & Hd & Hne & Hdig & Hu).
  split; [done|]. split; [|split].
  - destruct (uint_of_string_zeros (w - length (str_of_int n)) _ _ Hu)
      as (d' & Hu' & Hd').
    assert (Hhd : exists a l, replicate (w - length (str_of_int n)) "0"%char
                              ++ str_of_int n = a :: l /\
                              Ascii.eqb a "-" = false).
    { destruct (w - length (str_of_int n))%nat as [|k]; simpl.
      - destruct (str_of_int n) as [|c l]; [done|]. exists c, l.
        split; [done|]. simpl in Hdig. apply andb_prop in Hdig as [Hc _].
        apply ascii_digit_facts in Hc as (_ & _ & _ & Hc).
        by apply Ascii.eqb_neq.
      - eauto. }
    destruct Hhd as (a & l & El & Ha). rewrite El in *.
    unfold int_of_str, NilZero.int_of_string, NilZero.uint_of_string.
    cbn [string_of_list_ascii] in *. rewrite Ha, Hu'. simpl. f_equal. lia.
  - rewrite length_app, length_replicate. lia.
  - rewrite forallb_app, Hdig, andb_true_r.
    induction (w - length (str_of_int n))%nat; simpl; auto.
Qed.

Lemma format_0d_width_2 n : 0 <= n < 100 -> length (format_0d 2 n) = 2%nat.
Proof.
  intros Hn.
  assert (H : forallb (fun k => (length (format_0d 2 (Z.of_nat k)) =? 2)%nat)
                (seq 0 100) = true) by (by vm_compute).
  rewrite forallb_forall in H. specialize (H (Z.to_nat n)).
  rewrite Z2Nat.id in H by lia. apply Nat.eqb_eq, H, in_seq. lia.
Qed.

Lemma format_0d_width_3 n : 0 <= n < 1000 -> length (format_0d 3 n) = 3%nat.
Proof.
  intros Hn.
  assert (H : forallb (fun k => (length (format_0d 3 (Z.of_nat k)) =? 3)%nat)
                (seq 0 1000) = true) by (by vm_compute).
  rewrite forallb_forall in H. specialize (H (Z.to_nat n)).
  rewrite Z2Nat.id in H by lia. apply Nat.eqb_eq, H, in_seq. lia.
Qed.

(** [_format_time] on a finite [x >= 0]: it returns; the first three
    fields come from the whole seconds of [x], the last is the integer
    part of the rounded product. *)
Lemma format_time_nonneg x :
  valid x = true -> nonneg x = true ->
  exists ms,
    exact_millis x <= ms <= exact_millis x + 1 /\ 0 <= ms <= 999 /\
    to_int (mul (mod1 x) (of_int 1000)) = Ok ms /\
    _format_time x =
      Ok (format_0d 2 (exact_seconds x / 3600) ++ py ":" ++
          format_0d 2 (exact_seconds x / 60 mod 60) ++ py ":" ++
          format_0d 2 (exact_seconds x mod 60) ++ py "," ++
          format_0d 3 ms).
Proof.
  intros Hv Hn. destruct x as [s| | |[] m e]; try done.
  - exists 0. split; [done|]. split; [lia|]. split; [by destruct s|].
    by destruct s.
  - destruct (millis_nonneg m e Hv) as (ms & Hms & Hb & H999).
    cbv zeta in Hb.
    assert (H0 : 0 <= exact_millis (S754_finite false m e)).
    { rewrite exact_millis_nonneg.
      destruct (Z.leb_spec 0 e) as [He|He]; [lia|].
      apply Z.div_pos; [|apply Z.pow_pos_nonneg; lia].
      apply Z.mul_nonneg_nonneg; [|lia].
      apply Z.mod_pos_bound, Z.pow_pos_nonneg; lia. }
    exists ms. rewrite exact_millis_nonneg in *.
    split; [done|]. split; [lia|]. split; [done|].
    unfold _format_time. rewrite Hms. cbn [rbind].
    assert (HT : to_int (S754_finite false m e) =
                 Ok (exact_seconds (S754_finite false m e))).
    { rewrite exact_seconds_nonneg. simpl. done. }
    rewrite HT. cbn [rbind]. unfold divmod.
    by rewrite Z.div_div by lia.
Qed.

End FormatFacts.

(* ===================================================================== *)
(** * The timecode formatter: claim C7                                    *)
(* ===================================================================== *)

Module TimeCodeClaims.
Import Float SubtitleProcessor FloatFacts FormatFacts.

(** C7, as amended — [_format_time] is a function of its argument with
    format(0) = "00:00:00,000", format(3661.5) = "01:01:01,500" and
    format(59.9994) = "00:00:59,999".  For every finite float x >= 0 it
    returns; the hour, minute and second fields are the whole seconds of
    x split by 3600 and 60, zero-padded to two digits, the hours as large
    as they come (format(360000) = "100:00:00,000"); the millisecond
    field is the integer part of the binary64 product (x % 1) * 1000,
    which is rounded to nearest: it is the whole milliseconds of the
    fractional part or one more, never more than 999, on three digits. *)
Theorem C7_format_time :
  _format_time (of_int 0) = Ok (py "00:00:00,000") /\
  _format_time (decimal 36615 1) = Ok (py "01:01:01,500") /\
  _format_time (decimal 599994 4) = Ok (py "00:00:59,999") /\
  _format_time (of_int 360000) = Ok (py "100:00:00,000") /\
  forall x,
    valid x = true -> nonneg x = true ->
    let hours := exact_seconds x / 3600 in
    let minutes := exact_seconds x / 60 mod 60 in
    let seconds := exact_seconds x mod 60 in
    exists milliseconds,
      to_int (mul (mod1 x) (of_int 1000)) = Ok milliseconds /\
      exact_millis x <= milliseconds <= exact_millis x + 1 /\
      0 <= milliseconds <= 999 /\
      _format_time x =
        Ok (format_0d 2 hours ++ py ":" ++ format_0d 2 minutes ++ py ":" ++
            format_0d 2 seconds ++ py "," ++ format_0d 3 milliseconds) /\
      int_of_str (format_0d 2 hours) = Some hours /\
      (2 <= length (format_0d 2 hours))%nat /\
      int_of_str (format_0d 2 minutes) = Some minutes /\
      length (format_0d 2 minutes) = 2%nat /\
      int_of_str (format_0d 2 seconds) = Some seconds /\
      length (format_0d 2 seconds) = 2%nat /\
      int_of_str (format_0d 3 milliseconds) = Some milliseconds /\
      length (format_0d 3 milliseconds) = 3%nat.
Proof.
  split; [by vm_compute|]. split; [by vm_compute|].
  split; [by vm_compute|]. split; [by vm_compute|].
  intros x Hv Hn hours minutes seconds.
  destruct (format_time_nonneg x Hv Hn) as (ms & Hb & H999 & Hms & Hf).
  assert (HT : 0 <= exact_seconds x).
  { destruct x as [s| | |[] m e]; try done. rewrite exact_seconds_nonneg.
    destruct (Z.leb_spec 0 e).
    - apply Z.mul_nonneg_nonneg; [lia | apply Z.pow_nonneg; lia].
    - apply Z.div_pos; [lia | apply Z.pow_pos_nonneg; lia]. }
  assert (Hh : 0 <= hours) by (apply Z.div_pos; lia).
  assert (Hm : 0 <= minutes < 60) by (apply Z.mod_pos_bound; lia).
  assert (Hs : 0 <= seconds < 60) by (apply Z.mod_pos_bound; lia).
  exists ms. repeat split; try done; try lia.
  - by apply format_0d_nonneg.
  - by apply format_0d_nonneg.
  - apply format_0d_nonneg; lia.
  - apply format_0d_width_2; lia.
  - apply format_0d_nonneg; lia.
  - apply format_0d_width_2; lia.
  - apply format_0d_nonneg; lia.
  - apply format_0d_width_3; lia.
Qed.

Lemma C7_witness :
  valid (decimal 12 1) = true /\ nonneg (decimal 12 1) = true /\
  exists milliseconds,
    to_int (mul (mod1 (decimal 12 1)) (of_int 1000)) = Ok milliseconds /\
    exact_millis (decimal 12 1) <= milliseconds
      <= exact_millis (decimal 12 1) + 1.
Proof.
  assert (Hv : valid (decimal 12 1) = true) by (by vm_compute).
  assert (Hn : nonneg (decimal 12 1) = true) by (by vm_compute).
  split; [exact Hv|]. split; [exact Hn|].
  destruct (proj2 (proj2 (proj2 (proj2 C7_format_time))) (decimal 12 1) Hv Hn)
    as (ms & Hms & Hb & _).
  exists ms. split; [exact Hms | exact Hb].
Defined.

(** C7 as stated fails on the float nearest to 0.009: it lies below 0.009,
    so its whole milliseconds are 8, but the product with 1000 rounds to
    9.0 and the field reads 009, one more than the truncation.  (Read as
    decimals the fields are no truncation either: the float nearest to
    1.2 lies below 1.2 and gives 199, where truncating 0.2 gives 200.) *)
Lemma C7_counterexample :
  let x := decimal 9 3 in
  valid x = true /\ nonneg x = true /\
  (value x < 9 # 1000)%Q /\ exact_seconds x = 0 /\ exact_millis x = 8 /\
  _format_time x = Ok (py "00:00:00,009") /\
  _format_time x <> Ok (py "00:00:00," ++ format_0d 3 (exact_millis x)) /\
  _format_time (decimal 12 1) = Ok (py "00:00:01,199").
Proof.
  vm_compute. repeat split. intros H. discriminate H.
Qed.

End TimeCodeClaims.

(* ===================================================================== *)
(** * Writing and reading back entries: claims C8 and C3                  *)
(* ===================================================================== *)

Module EntryFacts.
Import Float SubtitleProcessor ParserFacts RunFacts FloatFacts FormatFacts.

Lemma digits_no_LF (s : str) :
  forallb ascii_digit s = true -> ~ In LF s.
Proof.
  rewrite forallb_forall. intros H Hin.
  by destruct (ascii_digit_facts _ (H _ Hin)) as (_ & _ & Hne & _).
Qed.

Lemma timecode_ok x :
  valid x = true -> nonneg x = true ->
  _format_time x = Ok (timecode x) /\ ~ In LF (timecode x).
Proof.
  intros Hv Hn.
  destruct (format_time_nonneg x Hv Hn) as (ms & _ & Hms & _ & Hf).
  unfold timecode. rewrite Hf. split; [done|].
  assert (HT : 0 <= exact_seconds x).
  { destruct x as [s| | |[] m e]; try done. rewrite exact_seconds_nonneg.
    destruct (Z.leb_spec 0 e).
    - apply Z.mul_nonneg_nonneg; [lia | apply Z.pow_nonneg; lia].
    - apply Z.div_pos; [lia | apply Z.pow_pos_nonneg; lia]. }
  assert (Hd : forall w n, 0 <= n -> ~ In LF (format_0d w n)).
  { intros w n H0. apply digits_no_LF. by apply format_0d_nonneg. }
  rewrite !in_app_iff. intros [H|[H|[H|[H|[H|[H|H]]]]]].
  - revert H. apply Hd. apply Z.div_pos; lia.
  - by destruct H.
  - revert H. apply Hd. apply Z.mod_pos_bound. lia.
  - by destruct H.
  - revert H. apply Hd. apply Z.mod_pos_bound. lia.
  - by destruct H.
  - revert H. apply Hd. lia.
Qed.

Lemma segment_entry_ok i segment :
  timed segment -> segment_entry i segment = Ok (entry_of i segment).
Proof.
  intros (Hv1 & Hn1 & Hv2 & Hn2). unfold segment_entry, entry_of.
  destruct (timecode_ok _ Hv1 Hn1) as [-> _].
  destruct (timecode_ok _ Hv2 Hn2) as [-> _]. done.
Qed.

Lemma write_segments_run path segments i w o :
  Forall timed segments ->
  fs w !! path = Some o ->
  write_segments path i segments w =
  (Ok tt,
   World (<[path := o ++ concat (imap (fun k seg =>
                                         entry_of (i + Z.of_nat k) seg)
                                      segments)]> (fs w))
         (console w) (requests w)).
Proof.
  intros H. revert i w o.
  induction H as [|seg segs Hseg _ IH]; intros i w o Ho; simpl.
  - rewrite app_nil_r, insert_id by done. by destruct w.
  - unfold bind, lift. rewrite (segment_entry_ok _ _ Hseg).
    unfold write. cbn [fs console requests].
    rewrite (alter_Some _ _ _ _ Ho).
    rewrite (IH (i + 1) _ (o ++ entry_of i seg));
      [|cbn [fs]; apply lookup_insert_eq].
    cbn [fs console requests]. rewrite insert_insert_eq, Z.add_0_r.
    rewrite <- app_assoc.
    assert (E : imap (fun k seg => entry_of (i + 1 + Z.of_nat k) seg) segs =
                imap ((fun k seg => entry_of (i + Z.of_nat k) seg) ∘ S) segs).
    { apply imap_ext. intros k x _. simpl. f_equal. lia. }
    by rewrite E.
Qed.

(** Reading a text that starts with a line *)
Lemma iter_lines_from_line cur a rest :
  ~ In LF a ->
  iter_lines_from cur (a ++ LF :: rest) =
    (cur ++ a ++ [LF]) :: iter_lines_from [] rest.
Proof.
  revert cur. induction a as [|c a IH]; intros cur Hn; simpl.
  - done.
  - destruct (Ascii.eqb_spec c LF) as [->|Hc]; [by destruct Hn; left|].
    rewrite IH, <- app_assoc; [done|]. intros H. apply Hn. by right.
Qed.

Lemma iter_lines_line a rest :
  ~ In LF a -> iter_lines (a ++ LF :: rest) = (a ++ [LF]) :: iter_lines rest.
Proof. intros H. unfold iter_lines. by rewrite iter_lines_from_line. Qed.

Lemma strip_digits (s : str) : forallb ascii_digit s = true -> strip s = s.
Proof.
  intros H. rewrite forallb_forall in H. apply strip_fixed.
  - intros c r ->. apply ascii_digit_facts, H. by left.
  - intros c r E. apply ascii_digit_facts, H. apply in_rev. rewrite E.
    by left.
Qed.

Lemma digits_isdigit (s : str) :
  s <> [] -> forallb ascii_digit s = true -> isdigit s = true.
Proof.
  intros Hne H. destruct s as [|c s]; [done|]. unfold isdigit.
  rewrite forallb_forall in *. intros x Hx. by apply ascii_digit_facts, H.
Qed.

(** The index line of an entry is an index line for the parser. *)
Lemma index_line_isdigit i :
  0 <= i -> isdigit (strip (str_of_int i ++ py "\n")) = true /\
            ~ In LF (str_of_int i).
Proof.
  intros Hi. destruct (str_of_int_nonneg i Hi) as (d & _ & Hne & Hdig & _).
  split; [|by apply digits_no_LF].
  rewrite strip_line; [by apply digits_isdigit | by apply strip_digits
                      | done | done].
Qed.

Lemma universal_newlines_id (s : str) :
  ~ In CR s -> universal_newlines s = s.
Proof.
  induction s as [|c r IH]; intros Hn; [done|]. cbn [universal_newlines].
  destruct (Ascii.eqb_spec c CR) as [->|Hc]; [by destruct Hn; left|].
  rewrite IH; [done|]. intros H. apply Hn. by right.
Qed.

Lemma digits_no_CR (s : str) :
  forallb ascii_digit s = true -> ~ In CR s.
Proof.
  intros H Hin. rewrite forallb_forall in H. by specialize (H _ Hin).
Qed.

Lemma timecode_no_CR x :
  valid x = true -> nonneg x = true -> ~ In CR (timecode x).
Proof.
  intros Hv Hn.
  destruct (format_time_nonneg x Hv Hn) as (ms & _ & Hms & _ & Hf).
  unfold timecode. rewrite Hf.
  assert (HT : 0 <= exact_seconds x).
  { destruct x as [s| | |[] m e]; try done. rewrite exact_seconds_nonneg.
    destruct (Z.leb_spec 0 e).
    - apply Z.mul_nonneg_nonneg; [lia | apply Z.pow_nonneg; lia].
    - apply Z.div_pos; [lia | apply Z.pow_pos_nonneg; lia]. }
  assert (Hd : forall w n, 0 <= n -> ~ In CR (format_0d w n)).
  { intros w n H0. apply digits_no_CR. by apply format_0d_nonneg. }
  rewrite !in_app_iff. intros [H|[H|[H|[H|[H|[H|H]]]]]].
  - revert H. apply Hd. apply Z.div_pos; lia.
  - by destruct H.
  - revert H. apply Hd. apply Z.mod_pos_bound. lia.
  - by destruct H.
  - revert H. apply Hd. apply Z.mod_pos_bound. lia.
  - by destruct H.
  - revert H. apply Hd. lia.
Qed.

Lemma entry_no_CR i segment :
  0 <= i -> timed segment -> ~ In CR (strip (seg_text segment)) ->
  ~ In CR (entry_of i segment).
Proof.
  intros Hi (Hv1 & Hn1 & Hv2 & Hn2) Ht. unfold entry_of.
  destruct (str_of_int_nonneg i Hi) as (d & _ & _ & Hdig & _).
  pose proof (digits_no_CR _ Hdig).
  pose proof (timecode_no_CR _ Hv1 Hn1).
  pose proof (timecode_no_CR _ Hv2 Hn2).
  rewrite !in_app_iff. intros [?|[H'|[?|[H'|[?|[H'|[?|H']]]]]]]; try done;
    vm_compute in H'; by repeat destruct H' as [H'|H'].
Qed.

End EntryFacts.

Module EntryClaims.
Import Float SubtitleProcessor ParserFacts RunFacts FloatFacts FormatFacts.
Import EntryFacts Samples.

(** C8, as amended — For every sequence of segments with finite start and
    end times that are not negative, the file written holds one entry per
    segment, in order: the 1-based position of the segment, a line feed,
    its two timecodes around " --> ", a line feed, its trimmed text and a
    blank line.  For the two segments 0 to 1.2 " Hi " and 1.2 to 2
    "there" the file is
    "1\n00:00:00,000 --> 00:00:01,199\nHi\n\n2\n00:00:01,199 --> 00:00:02,000\nthere\n\n":
    the float 1.2 lies below 1.2 and its milliseconds are 199. *)
Theorem C8_written_entries :
  (forall output_srt_path segments w,
     Forall timed segments ->
     write_srt output_srt_path segments w =
       (Ok tt,
        World (<[output_srt_path :=
                  concat (imap (fun k segment =>
                                  entry_of (Z.of_nat k + 1) segment)
                               segments)]> (fs w))
              (console w) (requests w)) /\
     Forall (fun segment =>
               _format_time (seg_start segment) =
                 Ok (timecode (seg_start segment)) /\
               _format_time (seg_end segment) =
                 Ok (timecode (seg_end segment))) segments) /\
  fs (write_srt (py "out.srt") two_segments (World ∅ [] [])).2
    !! py "out.srt" =
  Some (py "1\n00:00:00,000 --> 00:00:01,199\nHi\n\n2\n00:00:01,199 --> 00:00:02,000\nthere\n\n").
Proof.
  split; [|by vm_compute].
  intros path segments w Ht. split.
  - unfold write_srt, bind at 1, open_w.
    rewrite (write_segments_run path segments 1 _ []);
      [|done | cbn [fs]; apply lookup_insert_eq].
    cbn [fs console requests]. rewrite insert_insert_eq. simpl.
    do 4 f_equal. apply imap_ext. intros k x _. simpl. f_equal. lia.
  - eapply Forall_impl; [exact Ht|].
    intros seg (Hv1 & Hn1 & Hv2 & Hn2). split; by apply timecode_ok.
Qed.

Lemma C8_witness :
  Forall timed two_segments /\
  write_srt (py "out.srt") two_segments (World ∅ [] []) =
    (Ok tt,
     World (<[py "out.srt" :=
               concat (imap (fun k segment =>
                               entry_of (Z.of_nat k + 1) segment)
                            two_segments)]> ∅) [] []).
Proof.
  assert (Ht : Forall timed two_segments)
    by (repeat constructor; by vm_compute).
  split; [exact Ht|].
  exact (proj1 (proj1 C8_written_entries (py "out.srt") two_segments
                  (World ∅ [] []) Ht)).
Defined.

(** C8 as stated fails on its own example: the file written for the two
    segments does not begin with the text the claim gives, whose
    timecodes for 1.2 seconds end in 200. *)
Lemma C8_counterexample :
  let written :=
    fs (write_srt (py "out.srt") two_segments (World ∅ [] [])).2
      !! py "out.srt" in
  let claimed :=
    py "1\n00:00:00,000 --> 00:00:01,200\nHi\n\n2\n00:00:01,200 --> 00:00:02,000\nthere\n\n" in
  _format_time (decimal 12 1) = Ok (py "00:00:01,199") /\
  (value (decimal 12 1) < 12 # 10)%Q /\
  (exists content, written = Some content /\
                   startswith claimed content = false) /\
  written <> Some claimed.
Proof.
  cbv zeta. split; [by vm_compute|]. split; [by vm_compute|]. split.
  - eexists. split; [by vm_compute | by vm_compute].
  - vm_compute. intros H. discriminate H.
Qed.

(** C3, as amended — For every segment with finite start and end times
    that are not negative, whose trimmed text is not empty, holds no line
    feed and no carriage return and is not a number, the entry written
    for it, read back by [translate_subtitles] from the file that holds
    it, forms exactly one chunk: the index line, the time line and the
    text line of the entry, which is what is sent for translation. *)
Theorem C3_round_trip i segment respond input_path target_language w :
  1 <= i -> timed segment ->
  let text := strip (seg_text segment) in
  text <> [] -> ~ In LF text -> ~ In CR text -> isdigit text = false ->
  fs w !! input_path = Some (entry_of i segment) ->
  open_error (fs w) (output_path_of input_path target_language) = None ->
  let chunk :=
    str_of_int i ++ py "\n" ++
    timecode (seg_start segment) ++ py " --> " ++
    timecode (seg_end segment) ++ py "\n" ++
    text ++ py "\n" in
  segment_entry i segment = Ok (entry_of i segment) /\
  parseStream (iter_lines (universal_newlines (entry_of i segment))) =
    [chunk] /\
  requests
    (translate_subtitles (Some (answering respond)) input_path
       target_language w).2 =
    requests w ++ [(system_message target_language, chunk)].
Proof.
  intros Hi Ht text Hne Hnl Hcr Hnd Hin Hopen chunk.
  split; [by apply segment_entry_ok|].
  assert (Hparse :
    parseStream (iter_lines (universal_newlines (entry_of i segment))) =
      [chunk]).
  { rewrite universal_newlines_id by (apply entry_no_CR; [lia|done|done]).
    destruct Ht as (Hv1 & Hn1 & Hv2 & Hn2).
    destruct (timecode_ok _ Hv1 Hn1) as [_ Hs].
    destruct (timecode_ok _ Hv2 Hn2) as [_ He].
    destruct (index_line_isdigit i ltac:(lia)) as [Hidx Hil].
    set (idx := str_of_int i ++ py "\n") in *.
    set (time := timecode (seg_start segment) ++ py " --> " ++
                 timecode (seg_end segment) ++ py "\n").
    set (txt := text ++ py "\n").
    assert (Hlines : iter_lines (entry_of i segment) =
                     [idx; time; txt; [LF]]).
    { unfold entry_of. fold text.
      change (py "\n") with [LF]. change (py "\n\n") with [LF; LF].
      change (str_of_int i ++ [LF] ++ ?r) with (str_of_int i ++ LF :: r).
      rewrite iter_lines_line by done.
      replace (timecode (seg_start segment) ++ py " --> " ++
               timecode (seg_end segment) ++ [LF] ++ text ++ [LF; LF])
        with ((timecode (seg_start segment) ++ py " --> " ++
               timecode (seg_end segment)) ++ LF :: text ++ [LF; LF])
        by (by rewrite <- !app_assoc).
      rewrite iter_lines_line.
      2:{ rewrite !in_app_iff. intros [H|[H|H]]; [done| |done].
          vm_compute in H. by repeat destruct H as [H|H]. }
      change (text ++ [LF; LF]) with (text ++ LF :: [LF]).
      rewrite iter_lines_line by done.
      subst idx time txt. change (py "\n") with [LF].
      by rewrite <- !app_assoc. }
    rewrite Hlines. unfold parseStream. cbn [parse_lines].
    rewrite (read_line_index idx) by done. cbn [truthy].
    rewrite (read_line_arrow time).
    2:{ apply contains_app.
        exists (timecode (seg_start segment) ++ [" "%char]),
          (" "%char :: timecode (seg_end segment) ++ py "\n").
        subst time. by rewrite <- !app_assoc. }
    assert (Hst : strip txt = text).
    { subst txt. apply strip_line; [apply strip_idemp | done | done]. }
    rewrite (read_line_text txt) by (by rewrite Hst).
    rewrite (read_line_blank [LF]) by done.
    assert (Hopen' : truthy ((idx ++ time) ++ txt) = true).
    { subst idx. by destruct (str_of_int i). }
    rewrite Hopen', app_nil_l. subst idx time txt chunk.
    by rewrite <- !app_assoc. }
  split; [exact Hparse|].
  rewrite (translate_subtitles_run _ _ _ _ _ Hin Hopen).
  cbn [snd requests]. rewrite Hparse.
  assert (Hc : chunk <> []) by (subst chunk; by destruct (str_of_int i)).
  destruct chunk as [|c0 chunk']; [done|]. reflexivity.
Qed.

Lemma C3_witness :
  let segment := Segment (of_int 0) (of_int 1) (py " Hello ") in
  let w := world_with (entry_of 1 segment) in
  1 <= 1 /\ timed segment /\
  requests
    (translate_subtitles (Some (answering echo)) (py "a.srt") (py "French")
       w).2 =
  requests w ++
  [(system_message (py "French"),
    str_of_int 1 ++ py "\n" ++
    timecode (seg_start segment) ++ py " --> " ++
    timecode (seg_end segment) ++ py "\n" ++
    strip (seg_text segment) ++ py "\n")].
Proof.
  intros segment w.
  assert (Hi : 1 <= 1) by lia.
  assert (Ht : timed segment) by (repeat split; by vm_compute).
  assert (H1 : strip (seg_text segment) <> []) by (by vm_compute).
  assert (H2 : ~ In LF (strip (seg_text segment)))
    by (vm_compute; intros H; by repeat destruct H as [H|H]).
  assert (H3 : ~ In CR (strip (seg_text segment)))
    by (vm_compute; intros H; by repeat destruct H as [H|H]).
  assert (H4 : isdigit (strip (seg_text segment)) = false)
    by (by vm_compute).
  assert (H5 : fs w !! py "a.srt" = Some (entry_of 1 segment))
    by (by vm_compute).
  assert (H6 : open_error (fs w)
                 (output_path_of (py "a.srt") (py "French")) = None)
    by (by vm_compute).
  split; [exact Hi|]. split; [exact Ht|].
  exact (proj2 (proj2 (C3_round_trip 1 segment echo (py "a.srt")
                         (py "French") w Hi Ht H1 H2 H3 H4 H5 H6))).
Defined.

(** C3 as stated fails for the text "42": the text line is an index line
    for the parser, which closes the chunk before it and yields two
    chunks; [translate_subtitles] sends the two, joined by a line feed. *)
Lemma C3_counterexample :
  let segment := Segment (of_int 0) (of_int 1) (py "42") in
  let entry := py "1\n00:00:00,000 --> 00:00:01,000\n42\n\n" in
  strip (seg_text segment) = py "42" /\
  segment_entry 1 segment = Ok entry /\
  parseStream (iter_lines (universal_newlines entry)) =
    [py "1\n00:00:00,000 --> 00:00:01,000\n"; py "42\n"] /\
  length (parseStream (iter_lines (universal_newlines entry))) <> 1%nat /\
  requests
    (translate_subtitles (Some (answering echo)) (py "a.srt") (py "French")
       (world_with entry)).2 =
    [(system_message (py "French"),
      py "1\n00:00:00,000 --> 00:00:01,000\n" ++ py "\n" ++ py "42\n")].
Proof.
  vm_compute. repeat split. intros H. discriminate H.
Qed.

End EntryClaims.

(* ===================================================================== *)
(** * The shape of the chunks                                         *)
(* ===================================================================== *)

Module ParserShape.
Import SubtitleProcessor ParserFacts RunFacts.

Lemma parse_lines_filter lines dbs cur :
  parse_lines (filter (fun l => strip l <> []) lines) dbs cur =
  parse_lines lines dbs cur.
Proof.
  revert dbs cur. induction lines as [|line rest IH]; intros dbs cur; [done|].
  destruct (decide (strip line = [])) as [Hb|Hb].
  - rewrite filter_cons_False by (intros H; done). simpl.
    rewrite (read_line_blank _ _ _ Hb). apply IH.
  - rewrite filter_cons_True by done. simpl.
    destruct (read_line line dbs cur) as [[d c]|]; apply IH.
Qed.

Lemma parse_lines_count_open lines dbs cur :
  cur <> [] ->
  length (parse_lines lines dbs cur).1 =
  (length dbs + length (filter (fun l => isdigit (strip l) = true) lines))%nat.
Proof.
  revert dbs cur. induction lines as [|line rest IH]; intros dbs cur Hc.
  - simpl. lia.
  - simpl parse_lines. destruct (isdigit (strip line)) eqn:Hd.
    + rewrite (read_line_index _ _ _ Hd), filter_cons_True by done.
      destruct cur as [|c0 cur0]; [done|]. simpl truthy. cbv iota.
      rewrite IH.
      * rewrite length_app. simpl. lia.
      * intros ->. by simpl in Hd.
    + rewrite filter_cons_False by (rewrite Hd; done).
      destruct (decide (strip line = [])) as [Hb|Hb].
      * rewrite (read_line_blank _ _ _ Hb). by apply IH.
      * rewrite (read_line_text _ _ _ Hd Hb). apply IH.
        destruct cur; [done|]. done.
Qed.

Lemma parse_lines_count lines dbs :
  (length (parse_lines lines dbs []).1 +
   (if truthy (parse_lines lines dbs []).2 then 1 else 0) =
   length dbs + length (filter (fun l => isdigit (strip l) = true) lines) +
   match filter (fun l => strip l <> []) lines with
   | l :: _ => if isdigit (strip l) then 0 else 1
   | [] => 0
   end)%nat.
Proof.
  revert dbs. induction lines as [|line rest IH]; intros dbs.
  - simpl. lia.
  - simpl parse_lines. destruct (isdigit (strip line)) eqn:Hd.
    + pose proof (index_not_blank _ Hd) as Hb.
      rewrite (read_line_index _ _ _ Hd), !filter_cons_True by done.
      simpl truthy. cbv iota. rewrite Hd.
      assert (Hl : line <> []) by (intros ->; by simpl in Hd).
      rewrite (parse_lines_count_open rest dbs line Hl).
      pose proof (parse_lines_open rest dbs line Hl) as Ho.
      destruct (parse_lines rest dbs line).2; [done|]. simpl. lia.
    + rewrite (filter_cons_False (fun l => isdigit (strip l) = true))
        by (rewrite Hd; done).
      destruct (decide (strip line = [])) as [Hb|Hb].
      * rewrite (read_line_blank _ _ _ Hb), filter_cons_False
          by (intros H; done). apply IH.
      * rewrite (read_line_text _ _ _ Hd Hb), filter_cons_True by done.
        rewrite Hd. simpl app.
        assert (Hl : line <> []) by (intros ->; by apply Hb).
        rewrite (parse_lines_count_open rest dbs line Hl).
        pose proof (parse_lines_open rest dbs line Hl) as Ho.
        destruct (parse_lines rest dbs line).2; [done|]. simpl. lia.
Qed.

(** X1 — The loop of [translate_subtitles] forms and hands over one
    chunk for every index line of the input, and one more when the first
    line that is not blank is no index line: what precedes the first
    index line is a chunk of its own. *)
Theorem X1_one_chunk_per_index_line respond target_language output_path
    lines w o :
  fs w !! output_path = Some o ->
  exists chunks,
    requests
      ((do (dialogue_blocks, current_block) <-
          for_lines (answering respond) target_language output_path
            lines [] [];
        translate_rest (answering respond) target_language output_path
          dialogue_blocks current_block) w).2 =
      requests w ++ map (request_of target_language) (batches_of chunks) /\
    concat (batches_of chunks) = chunks /\
    chunks = parseStream lines /\
    length chunks =
    (length (filter (fun l => isdigit (strip l) = true) lines) +
     match filter (fun l => strip l <> []) lines with
     | l :: _ => if isdigit (strip l) then 0 else 1
     | [] => 0
     end)%nat.
Proof.
  intros Ho. exists (parseStream lines).
  split; [by rewrite (loop_run _ _ _ _ _ _ Ho)|].
  split; [apply BatchFacts.batches_of_shape|]. split; [done|].
  rewrite parseStream_alt, length_app.
  pose proof (parse_lines_count lines []) as H.
  replace (length (if truthy (parse_lines lines [] []).2
                   then [(parse_lines lines [] []).2] else []))
    with (if truthy (parse_lines lines [] []).2 then 1 else 0)%nat
    by (by destruct (parse_lines lines [] []).2).
  rewrite H. reflexivity.
Qed.

Lemma X1_witness :
  let lines := iter_lines Samples.two_entries in
  let w := World {[ py "b.srt" := [] ]} [] [] in
  exists chunks,
    requests
      ((do (dialogue_blocks, current_block) <-
          for_lines (answering Samples.echo) (py "French") (py "b.srt")
            lines [] [];
        translate_rest (answering Samples.echo) (py "French") (py "b.srt")
          dialogue_blocks current_block) w).2 =
      requests w ++ map (request_of (py "French")) (batches_of chunks) /\
    length chunks = 2%nat.
Proof.
  intros lines w.
  assert (Ho : fs w !! py "b.srt" = Some []) by (by vm_compute).
  destruct (X1_one_chunk_per_index_line Samples.echo (py "French")
              (py "b.srt") lines w [] Ho) as (chunks & H1 & _ & _ & H2).
  exists chunks. split; [exact H1|]. rewrite H2. by vm_compute.
Defined.

(** X2 — Blank lines have no effect on the chunks: the input without
    its blank lines gives the same chunks, so a blank line never ends a
    chunk. *)
Theorem X2_blank_lines_are_skipped lines :
  parseStream (filter (fun l => strip l <> []) lines) = parseStream lines.
Proof. unfold parseStream. by rewrite parse_lines_filter. Qed.

Lemma parse_lines_heads (L lines : list str) : forall dbs cur,
  incl lines L ->
  Forall (fun c => c <> []) dbs -> (dbs <> [] -> cur <> []) ->
  Forall (fun c => exists line rest,
            In line L /\ isdigit (strip line) = true /\ c = line ++ rest)
         (tail (dbs ++ [cur])) ->
  Forall (fun c => c <> []) (parse_lines lines dbs cur).1 /\
  ((parse_lines lines dbs cur).1 <> [] ->
   (parse_lines lines dbs cur).2 <> []) /\
  Forall (fun c => exists line rest,
            In line L /\ isdigit (strip line) = true /\ c = line ++ rest)
         (tail ((parse_lines lines dbs cur).1 ++
                [(parse_lines lines dbs cur).2])).
Proof.
  induction lines as [|line rest IH]; intros dbs cur Hin Hne Hcur Hhd;
    [done|].
  assert (Hrest : incl rest L) by (intros l Hl; apply Hin; by right).
  assert (HinL : In line L) by (apply Hin; by left).
  simpl parse_lines. destruct (isdigit (strip line)) eqn:Hd.
  - rewrite (read_line_index _ _ _ Hd).
    assert (Hl : line <> []) by (intros ->; by simpl in Hd).
    destruct cur as [|c0 cur0]; simpl truthy; cbv iota.
    + destruct dbs as [|d ds]; [|by destruct Hcur].
      by apply IH.
    + apply IH; try done.
      * apply Forall_app. split; [done|]. by constructor.
      * replace (tail ((dbs ++ [c0 :: cur0]) ++ [line]))
          with (tail (dbs ++ [c0 :: cur0]) ++ [line])
          by (by destruct dbs).
        apply Forall_app. split; [done|]. constructor; [|done].
        exists line, []. by rewrite app_nil_r.
  - destruct (decide (strip line = [])) as [Hb|Hb].
    + rewrite (read_line_blank _ _ _ Hb). by apply IH.
    + rewrite (read_line_text _ _ _ Hd Hb).
      assert (Hl : line <> []) by (intros ->; by apply Hb).
      apply IH; try done.
      * intros _. by destruct cur.
      * destruct dbs as [|d ds]; [simpl; constructor|]. simpl in *.
        apply Forall_app in Hhd as [Hds Hc]. apply Forall_app.
        split; [done|]. constructor; [|done].
        apply Forall_inv in Hc as (l0 & r0 & ? & ? & ->).
        exists l0, (r0 ++ line). by rewrite app_assoc.
Qed.

(** X3 — No chunk is empty, and every chunk but the first starts with
    an index line of the input. *)
Theorem X3_chunks_start_at_index_lines lines :
  Forall (fun c => c <> []) (parseStream lines) /\
  Forall (fun c => exists line rest,
            In line lines /\ isdigit (strip line) = true /\
            c = line ++ rest)
         (tail (parseStream lines)).
Proof.
  destruct (parse_lines_heads lines lines [] [] (incl_refl _))
    as (Hne & Hcl & Hhd); [constructor | done | constructor |].
  rewrite parseStream_alt.
  destruct (parse_lines lines [] []) as [D c]. simpl in *.
  destruct c as [|c0 c']; simpl.
  - destruct D; [by split|]. by destruct Hcl.
  - split; [|done]. apply Forall_app. split; [done|]. by constructor.
Qed.

End ParserShape.

(* ===================================================================== *)
(** * Runs of the translation: requests, failures, files              *)
(* ===================================================================== *)

Module TranslationRuns.
Import SubtitleProcessor ParserFacts BatchFacts PathFacts RunFacts.

Lemma batches_of_length (cs : list str) :
  length (batches_of cs) = ((length cs + 4) / 5)%nat.
Proof.
  remember (length cs) as n eqn:Hn. revert cs Hn.
  induction n as [n IH] using lt_wf_ind. intros cs Hn.
  destruct cs as [|c1 [|c2 [|c3 [|c4 [|c5 [|c6 rest]]]]]];
    try (subst n; reflexivity).
  change (c1 :: c2 :: c3 :: c4 :: c5 :: c6 :: rest)
    with ([c1; c2; c3; c4; c5] ++ c6 :: rest).
  rewrite batches_of_cons by done. cbn [length].
  assert (Hlt : (length (c6 :: rest) < n)%nat) by (subst n; simpl; lia).
  rewrite (IH (length (c6 :: rest)) Hlt _ eq_refl).
  subst n. cbn [length].
  replace (S (S (S (S (S (S (length rest)))))) + 4)%nat
    with (S (length rest) + 4 + 1 * 5)%nat by lia.
  rewrite Nat.div_add by done. lia.
Qed.

(** X4 — With a service that answers and an output path that can be
    opened for writing, [translate_subtitles] sends one request for every
    five chunks of the input, rounded up: (n + 4) / 5 requests for n
    chunks. *)
Theorem X4_one_request_per_five_chunks respond input_path target_language
    w content :
  fs w !! input_path = Some content ->
  open_error (fs w) (output_path_of input_path target_language) = None ->
  length (requests
    (translate_subtitles (Some (answering respond)) input_path
       target_language w).2) =
  (length (requests w) +
   (length (parseStream (iter_lines (universal_newlines content))) + 4) / 5)
  %nat.
Proof.
  intros Hin Hopen.
  rewrite (translate_subtitles_run respond _ target_language w content Hin
             Hopen).
  cbn [snd requests]. by rewrite length_app, length_map, batches_of_length.
Qed.

Lemma X4_witness :
  length (requests
    (translate_subtitles (Some (answering Samples.echo)) (py "a.srt")
       (py "French") (Samples.world_with (Samples.srt_of 12))).2) =
  (0 + (length (parseStream (iter_lines (universal_newlines
                  (Samples.srt_of 12)))) + 4) / 5)%nat.
Proof.
  assert (H : fs (Samples.world_with (Samples.srt_of 12)) !! py "a.srt" =
              Some (Samples.srt_of 12)) by (by vm_compute).
  assert (H' : open_error (fs (Samples.world_with (Samples.srt_of 12)))
                 (output_path_of (py "a.srt") (py "French")) = None)
    by (by vm_compute).
  exact (X4_one_request_per_five_chunks Samples.echo (py "a.srt")
           (py "French") _ _ H H').
Defined.

Section AnyClient.
Variable openai_client : client.
Variable respond : str -> str -> str.
Variables target_language output_path : str.

Lemma translate_block_client batch w :
  _translate_block openai_client (join (py "\n") batch) target_language w =
  (match openai_client (system_message target_language)
           (join (py "\n") batch) with
   | Ok content => Ok (strip content)
   | Raise e => Raise e
   end,
   World (fs w) (console w)
         (requests w ++ [request_of target_language batch])).
Proof.
  unfold _translate_block, bind, chat_completions_create, request_of.
  by destruct (openai_client _ _).
Qed.

(** The loop stops at the first batch the service refuses: the batches
    before it are written, the request of the refused batch is the last
    one sent. *)
Lemma for_lines_fails lines : forall dbs cur w o pre b post e,
  fs w !! output_path = Some o ->
  (loop_batches lines dbs cur).1 = pre ++ b :: post ->
  Forall (fun b' => openai_client (system_message target_language)
                      (join (py "\n") b') =
                    Ok (respond (system_message target_language)
                          (join (py "\n") b'))) pre ->
  openai_client (system_message target_language) (join (py "\n") b) =
    Raise e ->
  for_lines openai_client target_language output_path lines dbs cur w =
  (Raise e,
   World (<[output_path :=
             o ++ concat (map (fun b' =>
                                 translated respond target_language b' ++
                                 py "\n\n") pre)]> (fs w))
         (console w)
         (requests w ++ map (request_of target_language) (pre ++ [b]))).
Proof.
  induction lines as [|line rest IH]; intros dbs cur w o pre b post e
    Ho HE Hpre Hb; cbn [for_lines loop_batches] in *.
  - by destruct pre.
  - destruct (read_line line dbs cur) as [[d c]|]; [|by eapply IH].
    unfold translate_full.
    destruct (Nat.eqb_spec (length d) 5) as [H5|H5].
    + destruct (loop_batches rest [] c) as [bs ex] eqn:Hbs. cbn [fst] in HE.
      unfold bind. rewrite translate_block_client.
      destruct pre as [|p pre']; cbn [app] in HE; injection HE as -> Hbs'.
      * rewrite Hb. cbn [map concat app].
        rewrite app_nil_r, insert_id by done. done.
      * apply Forall_cons in Hpre as [Hp Hpre']. rewrite Hp.
        unfold write, ret. cbn beta iota. cbn [fs console requests].
        rewrite (alter_Some _ _ _ _ Ho).
        erewrite IH; [| cbn [fs]; apply lookup_insert_eq
                      | rewrite Hbs; exact Hbs' | done | done].
        cbn [fs console requests map concat app].
        rewrite insert_insert_eq. unfold translated.
        by rewrite <- !app_assoc.
    + unfold bind, ret. by eapply IH.
Qed.

Lemma for_lines_answers lines : forall dbs cur w o,
  fs w !! output_path = Some o ->
  Forall (fun b' => openai_client (system_message target_language)
                      (join (py "\n") b') =
                    Ok (respond (system_message target_language)
                          (join (py "\n") b')))
         (loop_batches lines dbs cur).1 ->
  for_lines openai_client target_language output_path lines dbs cur w =
  for_lines (answering respond) target_language output_path lines dbs cur w.
Proof.
  induction lines as [|line rest IH]; intros dbs cur w o Ho HE;
    cbn [for_lines loop_batches] in *; [done|].
  destruct (read_line line dbs cur) as [[d c]|]; [|by eapply IH].
  unfold translate_full.
  destruct (Nat.eqb_spec (length d) 5) as [H5|H5].
  - destruct (loop_batches rest [] c) as [bs ex] eqn:Hbs. cbn [fst] in HE.
    apply Forall_cons in HE as [Hd HE].
    unfold bind. rewrite translate_block_client, translate_block_run, Hd.
    unfold write, ret. cbn beta iota. cbn [fs console requests].
    rewrite (alter_Some _ _ _ _ Ho).
    eapply IH; [cbn [fs]; apply lookup_insert_eq | by rewrite Hbs].
  - unfold bind, ret. by eapply IH.
Qed.



Lemma translate_rest_fails dbs cur w e :
  last_batch (dbs, cur) <> [] ->
  openai_client (system_message target_language)
    (join (py "\n") (last_batch (dbs, cur))) = Raise e ->
  translate_rest openai_client target_language output_path dbs cur w =
  (Raise e,
   World (fs w) (console w)
         (requests w ++
          [request_of target_language (last_batch (dbs, cur))])).
Proof.
  unfold translate_rest, last_batch. intros Hne Hb.
  destruct (if truthy cur then dbs ++ [cur] else dbs) as [|b r]; [done|].
  unfold bind. by rewrite translate_block_client, Hb.
Qed.

End AnyClient.

(** X5 — When the output path can be opened for writing and the
    service refuses a batch, [translate_subtitles] returns [None] and prints "Translation error: " with the text of the
    exception; the output file holds the translations of the batches
    before the refused one, each followed by a blank line, and the
    refused request is the last one sent. *)
Theorem X5_refused_batch openai_client respond input_path target_language
    w content pre b post e :
  fs w !! input_path = Some content ->
  open_error (fs w) (output_path_of input_path target_language) = None ->
  batches_of (parseStream (iter_lines (universal_newlines content))) =
    pre ++ b :: post ->
  Forall (fun b' => openai_client (system_message target_language)
                      (join (py "\n") b') =
                    Ok (respond (system_message target_language)
                          (join (py "\n") b'))) pre ->
  openai_client (system_message target_language) (join (py "\n") b) =
    Raise e ->
  translate_subtitles (Some openai_client) input_path target_language w =
  (Ok None,
   World (<[output_path_of input_path target_language :=
             concat (map (fun b' =>
                            translated respond target_language b' ++
                            py "\n\n") pre)]> (fs w))
         (console w ++ [py "Translation error: " ++ e])
         (requests w ++ map (request_of target_language) (pre ++ [b]))).
Proof.
  intros Hin Hopen Hbs Hpre Hb.
  pose proof (output_path_ne input_path target_language) as Hne.
  set (output_path := output_path_of input_path target_language) in *.
  unfold translate_subtitles, bind at 1, path_exists.
  rewrite bool_decide_eq_true_2 by (by rewrite Hin). cbn [negb].
  fold output_path. unfold try_except.
  unfold bind at 1. rewrite (open_w_checked_run output_path w Hopen).
  unfold open_w. unfold bind at 1, read_lines. cbn [fs].
  rewrite lookup_insert_ne, Hin by done.
  set (lines := iter_lines (universal_newlines content)) in *.
  rewrite loop_batches_spec in Hbs.
  pose proof (loop_batches_last_nil lines) as Hnil.
  assert (Hcases :
    (loop_batches lines [] []).1 = pre /\
    last_batch (loop_batches lines [] []).2 = b /\ b <> [] \/
    exists post', (loop_batches lines [] []).1 = pre ++ b :: post').
  { destruct (last_batch (loop_batches lines [] []).2) as [|f F] eqn:HF.
    - rewrite (Hnil eq_refl) in Hbs. by destruct pre.
    - revert Hbs. induction post as [|x post' _] using rev_ind; intros Hbs.
      + apply app_inj_tail in Hbs as [-> <-]. by left.
      + right. exists post'.
        change (pre ++ b :: post' ++ [x])
          with (pre ++ (b :: post') ++ [x]) in Hbs.
        rewrite app_assoc in Hbs. by apply app_inj_tail in Hbs as [-> _]. }
  unfold bind at 1.
  destruct Hcases as [(HE & HF & Hbne) | (post' & HE)].
  - erewrite for_lines_answers;
      [| cbn [fs]; apply lookup_insert_eq | rewrite HE; exact Hpre].
    erewrite for_lines_run; [|cbn [fs]; apply lookup_insert_eq].
    rewrite HE. cbn [fs console requests app].
    destruct (loop_batches lines [] []) as [E [d c]]. cbn [fst snd] in *.
    unfold bind at 1.
    rewrite (translate_rest_fails _ _ _ _ _ _ e)
      by (rewrite HF; done).
    unfold bind, print, ret. cbn [fs console requests].
    rewrite insert_insert_eq, HF, map_app, <- app_assoc. done.
  - erewrite for_lines_fails;
      [| cbn [fs]; apply lookup_insert_eq | exact HE | exact Hpre
       | exact Hb].
    unfold bind, print, ret. cbn [fs console requests app].
    by rewrite insert_insert_eq.
Qed.

Lemma X5_witness :
  let content := Samples.srt_of 12 in
  let bs :=
    batches_of (parseStream (iter_lines (universal_newlines content))) in
  let w := Samples.world_with content in
  translate_subtitles (Some (MoreSamples.refusing (py "6\n00:")))
    (py "a.srt") (py "French") w =
  (Ok None,
   World (<[output_path_of (py "a.srt") (py "French") :=
             concat (map (fun b' =>
                            translated Samples.echo (py "French") b' ++
                            py "\n\n") (take 1 bs))]> (fs w))
         (console w ++ [py "Translation error: " ++ py "rate limit"])
         (requests w ++
          map (request_of (py "French")) (take 1 bs ++ [nth 1 bs []]))).
Proof.
  intros content bs w.
  assert (H1 : fs w !! py "a.srt" = Some content) by (by vm_compute).
  assert (H0 : open_error (fs w)
                 (output_path_of (py "a.srt") (py "French")) = None)
    by (by vm_compute).
  assert (H2 : bs = take 1 bs ++ nth 1 bs [] :: drop 2 bs)
    by (by vm_compute).
  assert (H3 : Forall (fun b' =>
                 MoreSamples.refusing (py "6\n00:")
                   (system_message (py "French")) (join (py "\n") b') =
                 Ok (Samples.echo (system_message (py "French"))
                       (join (py "\n") b'))) (take 1 bs))
    by (vm_compute; by repeat constructor).
  assert (H4 : MoreSamples.refusing (py "6\n00:")
                 (system_message (py "French"))
                 (join (py "\n") (nth 1 bs [])) = Raise (py "rate limit"))
    by (by vm_compute).
  exact (X5_refused_batch _ Samples.echo (py "a.srt") (py "French") w
           content (take 1 bs) (nth 1 bs []) (drop 2 bs) (py "rate limit")
           H1 H0 H2 H3 H4).
Defined.


(** X7 — Translating a file a second time, with a service that gives
    the same answers, returns the same path and leaves the files as the
    first translation left them. *)
Theorem X7_translating_again_changes_no_file respond input_path
    target_language w content :
  fs w !! input_path = Some content ->
  let run := translate_subtitles (Some (answering respond)) input_path
               target_language in
  (run (run w).2).1 = (run w).1 /\ fs (run (run w).2).2 = fs (run w).2.
Proof.
  intros Hin run. subst run.
  pose proof (output_path_ne input_path target_language) as Hne.
  destruct (open_error (fs w) (output_path_of input_path target_language))
    as [e|] eqn:Hopen.
  - assert (Hs : is_Some (fs w !! input_path)) by (by rewrite Hin).
    rewrite (translate_subtitles_refused _ _ _ w e Hs Hopen).
    cbn [fst snd].
    by rewrite (translate_subtitles_refused _ _ _
                  (World (fs w) _ (requests w)) e Hs Hopen).
  - rewrite (translate_subtitles_run respond _ target_language w content Hin
               Hopen).
    cbn [fst snd].
    erewrite translate_subtitles_run;
      [| cbn [fs]; rewrite lookup_insert_ne by done; exact Hin
       | cbn [fs]; by apply open_error_insert ].
    cbn [fst snd fs]. by rewrite insert_insert_eq.
Qed.

Lemma X7_witness :
  let run := translate_subtitles (Some (answering Samples.echo))
               (py "a.srt") (py "French") in
  let w := Samples.world_with Samples.two_entries in
  (run (run w).2).1 = (run w).1 /\ fs (run (run w).2).2 = fs (run w).2.
Proof.
  intros run w.
  assert (H : fs w !! py "a.srt" = Some Samples.two_entries)
    by (by vm_compute).
  exact (X7_translating_again_changes_no_file Samples.echo (py "a.srt")
           (py "French") w Samples.two_entries H).
Defined.

(** X8 — [_translate_block] sends one request, the system message that
    names the language and the block as user message, prints nothing and
    changes no file.  The text it returns is the trimmed answer of the
    service, which trimming again leaves as it is (the [.strip()] of the
    caller changes nothing); an exception of the service passes
    through. *)
Theorem X8_translate_block openai_client dialogue_block target_language w :
  let run := _translate_block openai_client dialogue_block target_language
               w in
  fs run.2 = fs w /\ console run.2 = console w /\
  requests run.2 =
    requests w ++ [(system_message target_language, dialogue_block)] /\
  match run.1 with
  | Ok text =>
      strip text = text /\
      exists content,
        openai_client (system_message target_language) dialogue_block =
          Ok content /\
        text = strip content
  | Raise e =>
      openai_client (system_message target_language) dialogue_block =
        Raise e
  end.
Proof.
  unfold _translate_block, bind, chat_completions_create. cbn zeta.
  destruct (openai_client _ _) as [content|e]; cbn [fst snd fs console
    requests ret]; [|done].
  repeat split; try done; [apply strip_idemp | by exists content].
Qed.

End TranslationRuns.

(* ===================================================================== *)
(** * The shape of a timecode                                         *)
(* ===================================================================== *)

Module TimeCodeShape.
Import Float SubtitleProcessor FloatFacts FormatFacts.

Lemma exact_seconds_pos x :
  valid x = true -> nonneg x = true -> 0 <= exact_seconds x.
Proof.
  intros Hv Hn. destruct x as [s| | |[] m e]; try done.
  rewrite exact_seconds_nonneg. destruct (Z.leb_spec 0 e).
  - apply Z.mul_nonneg_nonneg; [lia | apply Z.pow_nonneg; lia].
  - apply Z.div_pos; [lia | apply Z.pow_pos_nonneg; lia].
Qed.

(** X9 — For a finite float that is not negative and lies below one
    hundred hours, [_format_time] returns twelve characters: two digits,
    a colon, two digits, a colon, two digits, a comma, three digits. *)
Theorem X9_timecode_has_twelve_characters x :
  valid x = true -> nonneg x = true -> exact_seconds x < 360000 ->
  exists h1 h2 m1 m2 s1 s2 k1 k2 k3 : ascii,
    _format_time x =
      Ok [h1; h2; ":"; m1; m2; ":"; s1; s2; ","; k1; k2; k3]%char /\
    forallb ascii_digit [h1; h2; m1; m2; s1; s2; k1; k2; k3] = true.
Proof.
  intros Hv Hn Hlt.
  destruct (format_time_nonneg x Hv Hn) as (ms & _ & Hms & _ & Hf).
  pose proof (exact_seconds_pos x Hv Hn) as HT.
  assert (Hh : 0 <= exact_seconds x / 3600 < 100).
  { split; [apply Z.div_pos; lia|]. apply Z.div_lt_upper_bound; lia. }
  assert (Hm : 0 <= exact_seconds x / 60 mod 60 < 60)
    by (apply Z.mod_pos_bound; lia).
  assert (Hs : 0 <= exact_seconds x mod 60 < 60)
    by (apply Z.mod_pos_bound; lia).
  pose proof (format_0d_width_2 _ Hh) as Lh.
  pose proof (format_0d_width_2 (exact_seconds x / 60 mod 60)
                ltac:(lia)) as Lm.
  pose proof (format_0d_width_2 (exact_seconds x mod 60) ltac:(lia)) as Ls.
  pose proof (format_0d_width_3 ms ltac:(lia)) as Lk.
  destruct (format_0d_nonneg 2 _ (proj1 Hh)) as (_ & _ & _ & Dh).
  destruct (format_0d_nonneg 2 _ (proj1 Hm)) as (_ & _ & _ & Dm).
  destruct (format_0d_nonneg 2 _ (proj1 Hs)) as (_ & _ & _ & Ds).
  destruct (format_0d_nonneg 3 _ (proj1 Hms)) as (_ & _ & _ & Dk).
  rewrite Hf.
  destruct (format_0d 2 (exact_seconds x / 3600))
    as [|h1 [|h2 [|]]]; try done.
  destruct (format_0d 2 (exact_seconds x / 60 mod 60))
    as [|m1 [|m2 [|]]]; try done.
  destruct (format_0d 2 (exact_seconds x mod 60))
    as [|s1 [|s2 [|]]]; try done.
  destruct (format_0d 3 ms) as [|k1 [|k2 [|k3 [|]]]]; try done.
  exists h1, h2, m1, m2, s1, s2, k1, k2, k3. split; [done|].
  cbn [forallb] in *.
  repeat match goal with
         | H : _ && _ = true |- _ => apply andb_prop in H as [? ?]
         end.
  repeat match goal with
         | H : ascii_digit _ = true |- _ => rewrite H; clear H
         end.
  done.
Qed.

Lemma X9_witness :
  exists h1 h2 m1 m2 s1 s2 k1 k2 k3 : ascii,
    _format_time (decimal 12 1) =
      Ok [h1; h2; ":"; m1; m2; ":"; s1; s2; ","; k1; k2; k3]%char /\
    forallb ascii_digit [h1; h2; m1; m2; s1; s2; k1; k2; k3] = true.
Proof.
  assert (Hv : valid (decimal 12 1) = true) by (by vm_compute).
  assert (Hn : nonneg (decimal 12 1) = true) by (by vm_compute).
  assert (Hlt : exact_seconds (decimal 12 1) < 360000) by (by vm_compute).
  exact (X9_timecode_has_twelve_characters (decimal 12 1) Hv Hn Hlt).
Defined.

(** X10 — [_format_time] returns no timecode for NaN and for the
    infinities: it raises, and for the infinities too the exception is
    the one of the conversion of NaN, since the milliseconds are computed
    first. *)
Theorem X10_no_timecode_for_nan_or_infinity x :
  x = S754_nan \/ (exists s, x = S754_infinity s) ->
  _format_time x = Raise (py "cannot convert float NaN to integer").
Proof. by intros [-> | [[] ->]]. Qed.

Lemma X10_witness :
  _format_time (S754_infinity false) =
    Raise (py "cannot convert float NaN to integer").
Proof.
  assert (H : S754_infinity false = S754_nan \/
              exists s, S754_infinity false = S754_infinity s)
    by (right; by exists false).
  exact (X10_no_timecode_for_nan_or_infinity (S754_infinity false) H).
Defined.

Lemma normalize_int r :
  Zpos r < 2 ^ 53 ->
  exists mz ez,
    of_int (Zpos r) = S754_finite false mz ez /\
    valid (S754_finite false mz ez) = true /\
    ez <= 0 /\ Zpos mz = Zpos r * 2 ^ (- ez).
Proof.
  intros Hr. pose proof (digits_le_of_lt r 53 Hr ltac:(lia)) as Hd.
  pose proof (digits_bounds r) as Hb.
  assert (Hd1 : 1 <= Zpos (digits2_pos r)) by lia.
  clear Hb.
  unfold of_int, binary_normalize, binary_round, shl_align.
  rewrite fexp_eq.
  remember (Zpos (digits2_pos r)) as d eqn:Hdd.
  destruct (Z.max (d + 0 - 53) (-1074) - 0) as [|dd|dd] eqn:Hsub; try lia.
  - exists r, 0. rewrite round_aux_canonical.
    + split; [done|]. split; [|split; [lia|simpl; lia]].
      unfold valid. simpl. unfold bounded, canonical_mantissa.
      rewrite fexp_eq, <- Hdd. apply andb_true_intro. split.
      * apply Z.eqb_eq. lia.
      * apply Z.leb_le. unfold emax, prec. lia.
    + rewrite fexp_eq. lia.
    + unfold emax, prec. lia.
  - destruct (iter_xO_spec r dd) as [Hm Hdig].
    exists (Pos.iter xO r dd), (Z.max (d + 0 - 53) (-1074)).
    rewrite round_aux_canonical.
    + split; [done|]. split; [|split; [lia|]].
      * unfold valid. simpl. unfold bounded, canonical_mantissa.
        rewrite fexp_eq, Hdig, <- Hdd. apply andb_true_intro. split.
        -- apply Z.eqb_eq. lia.
        -- apply Z.leb_le. unfold emax, prec. lia.
      * rewrite Hm. f_equal. f_equal. lia.
    + rewrite fexp_eq, Hdig. lia.
    + unfold emax, prec. lia.
Qed.

(** X11 — Whole seconds are formatted exactly: for every integer n
    from 0 up to 2^53 (excluded), the timecode of the float n has the
    fields of n split by 3600 and 60 and the milliseconds 000. *)
Theorem X11_whole_seconds n :
  0 <= n < 2 ^ 53 ->
  _format_time (of_int n) =
    Ok (format_0d 2 (n / 3600) ++ py ":" ++ format_0d 2 (n / 60 mod 60) ++
        py ":" ++ format_0d 2 (n mod 60) ++ py ",000").
Proof.
  intros [H0 Hn]. destruct n as [|r|r]; [done| |lia].
  destruct (normalize_int r Hn) as (mz & ez & -> & Hv & Hez & Hmz).
  assert (HT : exact_seconds (S754_finite false mz ez) = Zpos r).
  { rewrite exact_seconds_nonneg. destruct (Z.leb_spec 0 ez).
    - replace ez with 0 in * by lia. simpl in *. lia.
    - rewrite Hmz. apply Z.div_mul. apply Z.pow_nonzero; lia. }
  assert (Hr : (if 0 <=? ez then 0 else Zpos mz mod 2 ^ (- ez)) = 0).
  { destruct (0 <=? ez); [done|]. rewrite Hmz. apply Z.mod_mul.
    apply Z.pow_nonzero; lia. }
  destruct (format_time_nonneg _ Hv eq_refl) as (ms & _ & _ & Hms & Hf).
  destruct (mod1_nonneg mz ez Hv) as [[_ Hz] | (_ & Hpos & _)];
    [|cbv zeta in Hpos; lia].
  rewrite Hz in Hms. rewrite of_int_1000 in Hms. simpl in Hms.
  injection Hms as <-. rewrite Hf, HT. done.
Qed.

Lemma X11_witness :
  _format_time (of_int 3661) = Ok (py "01:01:01,000").
Proof.
  assert (H : 0 <= 3661 < 2 ^ 53) by lia.
  exact (X11_whole_seconds 3661 H).
Defined.

End TimeCodeShape.

(* ===================================================================== *)
(** * The listing of the tracks                                       *)
(* ===================================================================== *)

Module TrackFacts.
Import PyPath Mkv PathFacts.

Lemma span_digits_spec (s : str) :
  s = (span_digits s).1 ++ (span_digits s).2 /\
  forallb ascii_digit (span_digits s).1 = true.
Proof.
  induction s as [|c r [IH1 IH2]]; [done|]. simpl.
  destruct (ascii_digit c) eqn:Hc; [|done].
  destruct (span_digits r) as [d rest]. simpl in *.
  rewrite Hc, IH2. split; [by f_equal | done].
Qed.

Lemma span_digits_app (d rest : str) :
  forallb ascii_digit d = true ->
  (forall c r, rest = c :: r -> ascii_digit c = false) ->
  span_digits (d ++ rest) = (d, rest).
Proof.
  intros Hd Hrest.
  induction d as [|c d IH]; cbn [app span_digits forallb] in *.
  - destruct rest as [|c r]; [done|]. cbn [span_digits].
    by rewrite (Hrest c r eq_refl).
  - apply andb_prop in Hd as [Hc Hd]. by rewrite Hc, (IH Hd).
Qed.

Lemma match_track_sound (s d : str) :
  match_track s = Some d ->
  d <> [] /\ forallb ascii_digit d = true /\
  exists b, s = py "Track ID " ++ d ++ py ": subtitles" ++ b.
Proof.
  unfold match_track.
  destruct (startswith (py "Track ID ") s) eqn:Hs; [|done].
  apply startswith_app in Hs as [r ->].
  replace (drop 9 (py "Track ID " ++ r)) with r by reflexivity.
  destruct (span_digits_spec r) as [Hr Hd].
  destruct (span_digits r) as [d' rest]. simpl in Hr, Hd.
  destruct (truthy d') eqn:Ht; [|done]. cbn [andb].
  destruct (startswith (py ": subtitles") rest) eqn:Hsub; [|done].
  intros [= <-]. apply startswith_app in Hsub as [b ->].
  split; [by destruct d'|]. split; [done|]. exists b. by rewrite Hr.
Qed.

Lemma match_track_complete (d b : str) :
  d <> [] -> forallb ascii_digit d = true ->
  match_track (py "Track ID " ++ d ++ py ": subtitles" ++ b) = Some d.
Proof.
  intros Hne Hd. unfold match_track.
  replace (startswith (py "Track ID ")
             (py "Track ID " ++ d ++ py ": subtitles" ++ b)) with true
    by (symmetry; apply startswith_app; eauto).
  replace (drop 9 (py "Track ID " ++ d ++ py ": subtitles" ++ b))
    with (d ++ py ": subtitles" ++ b) by reflexivity.
  rewrite span_digits_app; [|done|by intros c r [= <- _]].
  destruct d; [done|]. simpl truthy. cbn [andb].
  replace (startswith (py ": subtitles") (py ": subtitles" ++ b))
    with true by (symmetry; apply startswith_app; eauto).
  done.
Qed.

Lemma search_track_sound (s d : str) :
  search_track s = Some d ->
  d <> [] /\ forallb ascii_digit d = true /\
  exists a b, s = a ++ py "Track ID " ++ d ++ py ": subtitles" ++ b.
Proof.
  induction s as [|c r IH]; cbn [search_track].
  - destruct (match_track []) eqn:Hm; [|done]. intros [= ->].
    destruct (match_track_sound _ _ Hm) as (H1 & H2 & b & Hb).
    split; [done|]. split; [done|]. by exists [], b.
  - destruct (match_track (c :: r)) eqn:Hm.
    + intros [= ->].
      destruct (match_track_sound _ _ Hm) as (H1 & H2 & b & Hb).
      split; [done|]. split; [done|]. by exists [], b.
    + intros H. destruct (IH H) as (H1 & H2 & a & b & ->).
      split; [done|]. split; [done|]. by exists (c :: a), b.
Qed.

Lemma search_track_contains (s d : str) :
  search_track s = Some d -> contains (py "subtitles") s = true.
Proof.
  intros H. destruct (search_track_sound _ _ H) as (_ & _ & a & b & ->).
  apply contains_app. exists (a ++ py "Track ID " ++ d ++ py ": "), b.
  by rewrite <- !app_assoc.
Qed.

Lemma track_lines_omap lines ids :
  track_lines lines ids = ids ++ omap search_track lines.
Proof.
  revert ids.
  induction lines as [|line rest IH]; intros ids; cbn [track_lines].
  - apply eq_sym, app_nil_r.
  - change (omap search_track (line :: rest))
      with (match search_track line with
            | Some y => y :: omap search_track rest
            | None => omap search_track rest
            end).
    destruct (search_track line) as [d|] eqn:Hs.
    + rewrite (search_track_contains _ _ Hs), IH, <- app_assoc. done.
    + destruct (contains (py "subtitles") line); apply IH.
Qed.

(** X12 — For an output of [mkvmerge] over the characters of the model,
    U+0000..U+00FF, where the class [\d] of the pattern is the digits
    0-9: every track id collected is a string of such digits, not empty,
    that stands in one of the lines of the output between "Track ID " and
    ": subtitles". *)
Theorem X12_track_ids_are_digit_strings stdout :
  Forall (fun track_id =>
            track_id <> [] /\ forallb ascii_digit track_id = true /\
            exists line a b,
              In line (split LF stdout) /\
              line = a ++ py "Track ID " ++ track_id ++
                     py ": subtitles" ++ b)
         (track_lines (split LF stdout) []).
Proof.
  rewrite track_lines_omap, app_nil_l. apply Forall_forall.
  intros d Hd. apply list_elem_of_omap in Hd as (line & Hin & Hs).
  destruct (search_track_sound _ _ Hs) as (H1 & H2 & a & b & Hl).
  split; [done|]. split; [done|]. exists line, a, b.
  split; [|done]. by apply list_elem_of_In.
Qed.

(** X13 — A line of the listing that starts with "Track ID ", a
    number and ": subtitles" adds exactly that number to the track ids
    collected so far. *)
Theorem X13_listing_line_gives_its_id (d rest : str) lines ids :
  d <> [] -> forallb ascii_digit d = true ->
  track_lines ((py "Track ID " ++ d ++ py ": subtitles" ++ rest) :: lines)
    ids =
  track_lines lines (ids ++ [d]).
Proof.
  intros Hne Hd.
  assert (Hs : search_track
                 (py "Track ID " ++ d ++ py ": subtitles" ++ rest) = Some d).
  { change (py "Track ID " ++ d ++ py ": subtitles" ++ rest)
      with ("T"%char :: py "rack ID " ++ d ++ py ": subtitles" ++ rest).
    cbn [search_track].
    change ("T"%char :: py "rack ID " ++ d ++ py ": subtitles" ++ rest)
      with (py "Track ID " ++ d ++ py ": subtitles" ++ rest).
    by rewrite match_track_complete. }
  cbn [track_lines]. by rewrite (search_track_contains _ _ Hs), Hs.
Qed.

Lemma X13_witness :
  track_lines
    ((py "Track ID " ++ py "2" ++ py ": subtitles" ++ py " (SubRip/SRT)")
     :: []) [] =
  track_lines [] ([] ++ [py "2"]).
Proof.
  assert (H1 : py "2" <> []) by done.
  assert (H2 : forallb ascii_digit (py "2") = true) by done.
  exact (X13_listing_line_gives_its_id (py "2") (py " (SubRip/SRT)") [] []
           H1 H2).
Defined.

Lemma extract_tracks_run t mkv_file w :
  extract_subtitle_tracks t mkv_file w =
  match subprocess_run t [py "mkvmerge"; py "-i"; mkv_file] false w with
  | (Ok stdout, w') => (Ok (omap search_track (split LF stdout)), w')
  | (Raise e, w') =>
      (Ok [],
       World (fs w')
             (console w' ++ [py "Error extracting subtitle tracks: " ++ e])
             (requests w'))
  end.
Proof.
  unfold extract_subtitle_tracks, try_except, bind.
  destruct (subprocess_run t _ false w) as [[stdout|e] w']; [|done].
  unfold ret. by rewrite track_lines_omap.
Qed.

(** X14 — [extract_subtitle_tracks] raises nothing.  When [mkvmerge]
    returns, the ids are those of the lines of its output that match the
    pattern, in order, at most one for a line (the test for "subtitles"
    in the line changes nothing); when it cannot be run, the result is
    the empty list and one line is printed. *)
Theorem X14_extract_subtitle_tracks_never_raises t mkv_file w :
  exists ids w',
    extract_subtitle_tracks t mkv_file w = (Ok ids, w') /\
    Forall (fun track_id =>
              track_id <> [] /\ forallb ascii_digit track_id = true) ids /\
    (forall stdout w1,
       subprocess_run t [py "mkvmerge"; py "-i"; mkv_file] false w =
         (Ok stdout, w1) ->
       ids = omap search_track (split LF stdout) /\ w' = w1) /\
    (forall e w1,
       subprocess_run t [py "mkvmerge"; py "-i"; mkv_file] false w =
         (Raise e, w1) ->
       ids = [] /\
       w' = World (fs w1)
              (console w1 ++ [py "Error extracting subtitle tracks: " ++ e])
              (requests w1)).
Proof.
  rewrite extract_tracks_run.
  destruct (subprocess_run t _ false w) as [[stdout|e] w1].
  - eexists _, _. split; [reflexivity|]. split; [|split].
    + apply Forall_forall. intros d Hd.
      apply list_elem_of_omap in Hd as (line & _ & Hs).
      destruct (search_track_sound _ _ Hs) as (H1 & H2 & _). done.
    + by intros ? ? [= <- <-].
    + done.
  - eexists _, _. split; [reflexivity|]. split; [|split].
    + constructor.
    + done.
    + by intros ? ? [= <- <-].
Qed.

End TrackFacts.

(* ===================================================================== *)
(** * Extraction from a container                                     *)
(* ===================================================================== *)

Module MkvFacts.
Import PyPath Mkv PathFacts.

Lemma basename_no_sep (p : str) : ~ In "/"%char (basename p).
Proof.
  unfold basename, rfind.
  destruct (rfind_from_spec "/" p 0 (-1))
    as [[E Hn] | (k & rest & E & Hd & Hn)]; rewrite E.
  - done.
  - replace (Z.to_nat (0 + Z.of_nat k + 1)) with (k + 1)%nat by lia.
    by rewrite <- drop_drop, Hd.
Qed.

Lemma rsplit1_head_incl sep (s : str) c :
  In c (rsplit1_head sep s) -> In c s.
Proof.
  unfold rsplit1_head. destruct (rfind sep s <? 0); [done|].
  intros H. rewrite <- (take_drop (Z.to_nat (rfind sep s)) s).
  apply in_app_iff. by left.
Qed.

(** [basename] cuts the path after its last "/". *)
Lemma basename_spec (p : str) :
  exists directory,
    p = directory ++ basename p /\
    (directory = [] \/ last directory = Some "/"%char) /\
    ~ In "/"%char (basename p).
Proof.
  pose proof (basename_no_sep p) as Hb. revert Hb.
  unfold basename, rfind.
  destruct (rfind_from_spec "/" p 0 (-1))
    as [[E Hn] | (k & rest & E & Hd & Hn)]; rewrite E; intros Hb.
  - exists []. split; [done|]. split; [by left | done].
  - replace (Z.to_nat (0 + Z.of_nat k + 1)) with (S k) in * by lia.
    exists (take (S k) p). split; [by rewrite take_drop|].
    split; [|done]. right.
    assert (Hk : p !! k = Some "/"%char).
    { rewrite <- (Nat.add_0_r k), <- lookup_drop, Hd. done. }
    rewrite (take_S_r _ _ _ Hk). apply last_snoc.
Qed.

(** [rsplit('.', 1)[0]] cuts the string before its last ".". *)
Lemma rsplit1_head_spec sep (s : str) :
  exists extension,
    s = rsplit1_head sep s ++ extension /\
    (extension = [] /\ ~ In sep (rsplit1_head sep s) \/
     exists rest, extension = sep :: rest /\ ~ In sep rest).
Proof.
  unfold rsplit1_head, rfind.
  destruct (rfind_from_spec sep s 0 (-1))
    as [[E Hn] | (k & rest & E & Hd & Hn)]; rewrite E.
  - exists []. simpl. rewrite app_nil_r. split; [done|]. by left.
  - replace (0 + Z.of_nat k <? 0) with false by lia.
    replace (Z.to_nat (0 + Z.of_nat k)) with k by lia.
    exists (drop k s). split; [by rewrite take_drop|]. right.
    by exists rest.
Qed.

(** X15 — The file extracted for a track lies in the output directory
    and is named after the container: the file name of the container
    (what follows its last "/") without its last extension (the last "."
    and what follows it), with "_track", the track id and ".srt"
    appended; two different track ids never give the same file. *)
Theorem X15_one_file_per_track mkv_file output_dir :
  exists directory name extension,
    mkv_file = directory ++ name ++ extension /\
    (directory = [] \/ last directory = Some "/"%char) /\
    ~ In "/"%char (name ++ extension) /\
    (extension = [] /\ ~ In "."%char name \/
     exists rest, extension = "."%char :: rest /\ ~ In "."%char rest) /\
    (forall track_id,
       dst_srt_path mkv_file output_dir track_id =
         (if negb (truthy output_dir) ||
             bool_decide (last output_dir = Some "/"%char)
          then output_dir else output_dir ++ py "/") ++
         name ++ py "_track" ++ track_id ++ py ".srt") /\
    forall id1 id2,
      dst_srt_path mkv_file output_dir id1 =
      dst_srt_path mkv_file output_dir id2 -> id1 = id2.
Proof.
  destruct (basename_spec mkv_file) as (directory & Hp & Hdir & Hb).
  destruct (rsplit1_head_spec "." (basename mkv_file))
    as (extension & Hn & Hext).
  set (name := rsplit1_head "." (basename mkv_file)) in *.
  assert (Hshape : forall track_id,
    dst_srt_path mkv_file output_dir track_id =
      (if negb (truthy output_dir) ||
          bool_decide (last output_dir = Some "/"%char)
       then output_dir else output_dir ++ py "/") ++
      name ++ py "_track" ++ track_id ++ py ".srt").
  { intros track_id. unfold dst_srt_path, path_join. fold name.
    assert (Hstart :
      startswith (py "/") (name ++ py "_track" ++ track_id ++ py ".srt") =
        false).
    { destruct name as [|c name'] eqn:En; [done|].
      cbn [app py startswith].
      destruct (Ascii.eqb_spec "/" c) as [<-|]; [|done].
      destruct Hb. rewrite Hn. by left. }
    rewrite Hstart.
    destruct (negb (truthy output_dir) ||
              bool_decide (last output_dir = Some "/"%char)); [done|].
    by rewrite <- app_assoc. }
  exists directory, name, extension.
  split; [by rewrite <- Hn|]. split; [done|].
  split; [by rewrite <- Hn|]. split; [done|]. split; [done|].
  intros id1 id2. rewrite !Hshape. intros H.
  apply app_inv_head, app_inv_head, app_inv_head in H.
  by apply app_inv_tail in H.
Qed.

Lemma for_tracks_returns t mkv_file output_dir :
  (forall track_id w0, exists out w1,
     subprocess_run t
       [py "mkvextract"; mkv_file; py "tracks";
        track_id ++ py ":" ++ dst_srt_path mkv_file output_dir track_id]
       false w0 = (Ok out, w1)) ->
  forall ids extracted w, exists w',
    for_tracks t mkv_file output_dir ids extracted w =
      (Ok (extracted ++ map (dst_srt_path mkv_file output_dir) ids), w').
Proof.
  intros Hrun ids.
  induction ids as [|track_id rest IH]; intros extracted w;
    cbn [for_tracks map].
  - exists w. by rewrite app_nil_r.
  - unfold bind.
    destruct (Hrun track_id w) as (out & w1 & ->).
    destruct (IH (extracted ++ [dst_srt_path mkv_file output_dir track_id])
                 w1) as (w' & ->).
    exists w'. by rewrite <- app_assoc.
Qed.

(** X16 — When the directory can be made, [mkvmerge] returns and every
    run of [mkvextract] returns, [extract_subtitles_from_mkv] returns one
    path for every subtitle track listed, in the order of the listing. *)
Theorem X16_a_path_for_every_listed_track t mkv_file output_dir w w1 w2
    stdout :
  (forall track_id w0, exists out w',
     subprocess_run t
       [py "mkvextract"; mkv_file; py "tracks";
        track_id ++ py ":" ++ dst_srt_path mkv_file output_dir track_id]
       false w0 = (Ok out, w')) ->
  makedirs t output_dir w = (Ok tt, w1) ->
  subprocess_run t [py "mkvmerge"; py "-i"; mkv_file] false w1 =
    (Ok stdout, w2) ->
  exists w',
    extract_subtitles_from_mkv t mkv_file output_dir w =
      (Ok (map (dst_srt_path mkv_file output_dir)
               (omap search_track (split LF stdout))), w').
Proof.
  intros Hrun Hmk Hls. unfold extract_subtitles_from_mkv, bind at 1.
  rewrite Hmk. unfold bind.
  rewrite TrackFacts.extract_tracks_run, Hls.
  destruct (for_tracks_returns t mkv_file output_dir Hrun
              (omap search_track (split LF stdout)) [] w2) as (w' & ->).
  by exists w'.
Qed.

Lemma X16_witness :
  exists w',
    extract_subtitles_from_mkv MoreSamples.working (py "/films/movie.mkv")
      (py "/films") (World ∅ [] []) =
      (Ok (map (dst_srt_path (py "/films/movie.mkv") (py "/films"))
               (omap search_track (split LF MoreSamples.listing))), w').
Proof.
  assert (H : forall track_id w0, exists out w',
            subprocess_run MoreSamples.working
              [py "mkvextract"; py "/films/movie.mkv"; py "tracks";
               track_id ++ py ":" ++
               dst_srt_path (py "/films/movie.mkv") (py "/films") track_id]
              false w0 = (Ok out, w'))
    by (intros track_id w0; by exists [], w0).
  exact (X16_a_path_for_every_listed_track MoreSamples.working
           (py "/films/movie.mkv") (py "/films") (World ∅ [] []) _ _
           MoreSamples.listing H eq_refl eq_refl).
Defined.

(** X17 — When [mkvmerge] cannot be run, [extract_subtitles_from_mkv]
    returns the empty list and prints the error: [mkvextract] is not
    run. *)
Theorem X17_nothing_extracted_without_a_listing t mkv_file output_dir w w1
    e w2 :
  makedirs t output_dir w = (Ok tt, w1) ->
  subprocess_run t [py "mkvmerge"; py "-i"; mkv_file] false w1 =
    (Raise e, w2) ->
  extract_subtitles_from_mkv t mkv_file output_dir w =
    (Ok [],
     World (fs w2)
           (console w2 ++ [py "Error extracting subtitle tracks: " ++ e])
           (requests w2)).
Proof.
  intros Hmk Hls. unfold extract_subtitles_from_mkv, bind at 1.
  rewrite Hmk. unfold bind.
  by rewrite TrackFacts.extract_tracks_run, Hls.
Qed.

Lemma X17_witness :
  extract_subtitles_from_mkv MoreSamples.missing (py "movie.mkv") (py "out")
    (World ∅ [] []) =
    (Ok [],
     World ∅
       ([] ++ [py "Error extracting subtitle tracks: " ++
               py "[Errno 2] No such file or directory"]) []).
Proof.
  exact (X17_nothing_extracted_without_a_listing MoreSamples.missing
           (py "movie.mkv") (py "out") (World ∅ [] []) _ _ _
           eq_refl eq_refl).
Defined.

End MkvFacts.

(* ===================================================================== *)
(** * Transcription: outcomes and files                               *)
(* ===================================================================== *)

Module WhisperFacts.
Import Float SubtitleProcessor Whisper.
Import ParserFacts PathFacts RunFacts FloatFacts FormatFacts EntryFacts.

Lemma audio_path_ne_srt video_path :
  audio_path_of video_path <> output_srt_path_of video_path.
Proof.
  unfold audio_path_of, output_srt_path_of. intros H.
  by apply app_inv_head in H.
Qed.

Lemma audio_path_ne_video video_path :
  audio_path_of video_path <> video_path.
Proof.
  unfold audio_path_of. destruct (splitext_spec video_path) as [Hp Hext].
  intros E.
  assert (E' : (splitext video_path).1 ++ py "_temp.wav" =
               (splitext video_path).1 ++ (splitext video_path).2)
    by (by rewrite <- Hp).
  apply app_inv_head in E'.
  destruct Hext as [Hnil | (rest & Hr & _)].
  - by rewrite Hnil in E'.
  - by rewrite Hr in E'.
Qed.

(** The [except] branch of [generate_subtitles_with_whisper]: it prints
    the error and leaves no file at [audio_path]. *)
Lemma cleanup_run t audio_path (e : str) w :
  (print (py "Error generating subtitles: " ++ e) ;;
   do found <- path_exists audio_path;
   (if found then remove t audio_path else ret tt) ;;
   ret (@None str)) w =
  (Ok None,
   World (delete audio_path (fs w))
         (console w ++ [py "Error generating subtitles: " ++ e])
         (requests w)).
Proof.
  unfold bind, print, path_exists, remove, ret. cbn [fs console requests].
  destruct (bool_decide (is_Some (fs w !! audio_path))) eqn:H;
    cbn [fs console requests]; [by rewrite H|].
  apply bool_decide_eq_false in H.
  rewrite delete_id; [done|]. by apply eq_None_not_Some.
Qed.

(** The statements of the [try] block after the transcription *)
Lemma write_and_remove_run t output_srt_path audio_path segments w :
  audio_path <> output_srt_path ->
  exists r w',
    (write_srt output_srt_path segments ;;
     remove t audio_path ;;
     print (py "Subtitle file saved to: " ++ output_srt_path) ;;
     ret (Some output_srt_path)) w = (r, w') /\
    match r with
    | Ok r => r = Some output_srt_path /\ fs w' !! audio_path = None
    | Raise _ => True
    end.
Proof.
  intros Hne. unfold bind at 1.
  destruct (write_srt output_srt_path segments w) as [[[]|e] w1];
    [|by eexists _, _].
  unfold bind at 1, remove.
  destruct (bool_decide (is_Some (fs w1 !! audio_path)));
    [|by eexists _, _].
  eexists _, _. split; [reflexivity|]. cbn [fs]. split; [done|].
  apply lookup_delete_eq.
Qed.

(** X18 — For a video file that does not exist,
    [generate_subtitles_with_whisper] raises "Video file not found: "
    with the path, before it prints or changes anything. *)
Theorem X18_missing_video_raises t video_path language w :
  fs w !! video_path = None ->
  generate_subtitles_with_whisper t video_path language w =
    (Raise (py "Video file not found: " ++ video_path), w).
Proof.
  intros H. unfold generate_subtitles_with_whisper, bind, path_exists.
  rewrite bool_decide_eq_false_2; [done|]. rewrite H. by intros [].
Qed.

Lemma X18_witness :
  generate_subtitles_with_whisper MoreSamples.working (py "movie.mkv")
    (Some (py "en")) (World ∅ [] []) =
    (Raise (py "Video file not found: " ++ py "movie.mkv"), World ∅ [] []).
Proof.
  assert (H : fs (World ∅ [] []) !! py "movie.mkv" = None) by done.
  exact (X18_missing_video_raises MoreSamples.working (py "movie.mkv")
           (Some (py "en")) (World ∅ [] []) H).
Defined.

(** In the model, where the removal of a file of the store does not
    fail, [generate_subtitles_with_whisper] returns for every video that
    exists. *)
Lemma generate_returns t video_path language w :
  is_Some (fs w !! video_path) ->
  audio_path_of video_path <> video_path /\
  exists r w',
    generate_subtitles_with_whisper t video_path language w = (Ok r, w') /\
    (r = None \/ r = Some (output_srt_path_of video_path)) /\
    fs w' !! audio_path_of video_path = None.
Proof.
  intros Hv. split; [apply audio_path_ne_video|].
  unfold generate_subtitles_with_whisper. unfold bind at 1.
  unfold path_exists at 1.
  rewrite bool_decide_eq_true_2 by done. cbn [negb].
  set (audio_path := audio_path_of video_path).
  set (output_srt_path := output_srt_path_of video_path).
  match goal with
  | |- context [try_except ?b ?h] => set (handler := h)
  end.
  assert (Hcl : forall e w0, exists r w',
    handler e w0 = (Ok r, w') /\
    (r = None \/ r = Some output_srt_path) /\ fs w' !! audio_path = None).
  { intros e w0. subst handler. cbn beta. rewrite cleanup_run.
    eexists _, _. split; [reflexivity|]. split; [by left|].
    apply lookup_delete_eq. }
  clearbody handler. unfold try_except.
  unfold bind at 1. unfold print at 1. unfold bind at 1.
  unfold extract_audio. unfold bind at 1. unfold path_exists at 1.
  cbn [fs]. rewrite bool_decide_eq_true_2 by done. cbn [negb].
  unfold bind at 1.
  destruct (subprocess_run t (ffmpeg_command video_path audio_path) true _)
    as [[out|e] w2]; [|apply Hcl].
  unfold ret at 1. unfold bind at 1. unfold print at 1. unfold bind at 1.
  destruct (transcribe t audio_path (language_option language) _)
    as [[segments|e] w3]; [|apply Hcl].
  destruct (write_and_remove_run t output_srt_path audio_path segments w3
              (audio_path_ne_srt video_path)) as (r & w' & -> & Hr).
  destruct r as [r|e]; [|apply Hcl].
  destruct Hr as [-> Hnone]. eexists _, _. split; [reflexivity|].
  split; [by right | done].
Qed.

(** X19 — For a video file that exists, whenever
    [generate_subtitles_with_whisper] returns (the removal of the
    temporary audio in its handler is outside any [try] and can still
    raise), it returns [None] or the path of the subtitle file, and no
    file is left at the path of the temporary audio, which is never the
    path of the video. *)
Theorem X19_no_temporary_audio_is_left t video_path language w r w' :
  is_Some (fs w !! video_path) ->
  generate_subtitles_with_whisper t video_path language w = (Ok r, w') ->
  audio_path_of video_path <> video_path /\
  (r = None \/ r = Some (output_srt_path_of video_path)) /\
  fs w' !! audio_path_of video_path = None.
Proof.
  intros Hv Hrun.
  destruct (generate_returns t video_path language w Hv)
    as (Hne & r0 & w0 & Hrun0 & Hr & Hnone).
  rewrite Hrun in Hrun0. injection Hrun0 as <- <-. done.
Qed.

Lemma X19_witness :
  audio_path_of (py "movie.mkv") <> py "movie.mkv" /\
  fs (generate_subtitles_with_whisper MoreSamples.working (py "movie.mkv")
        (Some (py "en")) MoreSamples.world_with_video).2
    !! audio_path_of (py "movie.mkv") = None.
Proof.
  assert (Hv : is_Some (fs MoreSamples.world_with_video !! py "movie.mkv"))
    by (vm_compute; by eexists).
  assert (Hrun :
    generate_subtitles_with_whisper MoreSamples.working (py "movie.mkv")
      (Some (py "en")) MoreSamples.world_with_video =
    (Ok (Some (output_srt_path_of (py "movie.mkv"))),
     (generate_subtitles_with_whisper MoreSamples.working (py "movie.mkv")
        (Some (py "en")) MoreSamples.world_with_video).2))
    by (by vm_compute).
  pose proof (X19_no_temporary_audio_is_left MoreSamples.working
                (py "movie.mkv") (Some (py "en"))
                MoreSamples.world_with_video _ _ Hv Hrun) as H.
  exact (conj (proj1 H) (proj2 (proj2 H))).
Defined.

(** The run of [generate_subtitles_with_whisper] on a video that exists,
    by the outcome of each step *)
Lemma generate_run t video_path language w :
  is_Some (fs w !! video_path) ->
  let output_srt_path := output_srt_path_of video_path in
  let audio_path := audio_path_of video_path in
  let cleanup (e : str) (w0 : world) : result (option str) * world :=
    (Ok None,
     World (delete audio_path (fs w0))
           (console w0 ++ [py "Error generating subtitles: " ++ e])
           (requests w0)) in
  generate_subtitles_with_whisper t video_path language w =
  match subprocess_run t (ffmpeg_command video_path audio_path) true
          (World (fs w) (console w ++ [py "Extracting audio..."])
                 (requests w)) with
  | (Raise e, w2) => cleanup e w2
  | (Ok _, w2) =>
      match transcribe t audio_path (language_option language)
              (World (fs w2)
                     (console w2 ++
                      [py "Generating subtitles with Whisper..."])
                     (requests w2)) with
      | (Raise e, w3) => cleanup e w3
      | (Ok segments, w3) =>
          match write_srt output_srt_path segments w3 with
          | (Raise e, w4) => cleanup e w4
          | (Ok _, w4) =>
              if bool_decide (is_Some (fs w4 !! audio_path))
              then (Ok (Some output_srt_path),
                    World (delete audio_path (fs w4))
                          (console w4 ++
                           [py "Subtitle file saved to: " ++
                            output_srt_path])
                          (requests w4))
              else cleanup (no_such_file t audio_path) w4
          end
      end
  end.
Proof.
  intros Hv output_srt_path audio_path cleanup.
  unfold generate_subtitles_with_whisper. unfold bind at 1.
  unfold path_exists at 1.
  rewrite bool_decide_eq_true_2 by done. cbn [negb].
  fold output_srt_path audio_path.
  match goal with
  | |- context [try_except ?b ?h] => set (handler := h)
  end.
  assert (Hcl : forall e w0, handler e w0 = cleanup e w0).
  { intros e w0. subst handler. cbn beta. by rewrite cleanup_run. }
  clearbody handler. unfold try_except.
  unfold bind at 1. unfold print at 1. unfold bind at 1.
  unfold extract_audio. unfold bind at 1. unfold path_exists at 1.
  cbn [fs]. rewrite bool_decide_eq_true_2 by done. cbn [negb].
  unfold bind at 1.
  destruct (subprocess_run t (ffmpeg_command video_path audio_path) true _)
    as [[out|e] w2]; [|apply Hcl].
  unfold ret at 1. unfold bind at 1. unfold print at 1. unfold bind at 1.
  destruct (transcribe t audio_path (language_option language) _)
    as [[segments|e] w3]; [|apply Hcl].
  unfold bind at 1.
  destruct (write_srt output_srt_path segments w3) as [[[]|e] w4];
    [|apply Hcl].
  unfold bind at 1. unfold remove at 1.
  destruct (bool_decide (is_Some (fs w4 !! audio_path))); [done|].
  apply Hcl.
Qed.

Lemma write_srt_run output_srt_path segments w :
  Forall timed segments ->
  write_srt output_srt_path segments w =
  (Ok tt,
   World (<[output_srt_path :=
             concat (imap (fun k segment =>
                             entry_of (Z.of_nat k + 1) segment)
                          segments)]> (fs w))
         (console w) (requests w)).
Proof.
  intros Ht. unfold write_srt, bind at 1, open_w.
  rewrite (write_segments_run output_srt_path segments 1 _ []);
    [|done | cbn [fs]; apply lookup_insert_eq].
  cbn [fs console requests]. rewrite insert_insert_eq. simpl.
  do 4 f_equal. apply imap_ext. intros k x _. simpl. f_equal. lia.
Qed.

(** The writing loop stops at the first segment that has no timecode:
    the entries before it are in the file. *)
Lemma write_segments_fails path good bad rest e : forall i w o,
  Forall timed good ->
  segment_entry (i + Z.of_nat (length good)) bad = Raise e ->
  fs w !! path = Some o ->
  write_segments path i (good ++ bad :: rest) w =
  (Raise e,
   World (<[path := o ++ concat (imap (fun k seg =>
                                         entry_of (i + Z.of_nat k) seg)
                                      good)]> (fs w))
         (console w) (requests w)).
Proof.
  induction good as [|seg good IH]; intros i w o Hg Hbad Ho;
    cbn [app write_segments].
  - cbn [length] in Hbad. rewrite Z.add_0_r in Hbad.
    unfold bind, lift. rewrite Hbad. cbn [imap concat].
    rewrite app_nil_r, insert_id by done. by destruct w.
  - apply Forall_cons in Hg as [Hseg Hg].
    unfold bind at 1, lift. rewrite (segment_entry_ok _ _ Hseg).
    unfold bind at 1, write. cbn [fs console requests].
    rewrite (alter_Some _ _ _ _ Ho).
    rewrite (IH (i + 1) _ (o ++ entry_of i seg)); [|done| |].
    + cbn [fs console requests]. rewrite insert_insert_eq.
      rewrite imap_cons. cbn [concat]. rewrite Z.add_0_r, <- app_assoc.
      assert (E : imap (fun k seg => entry_of (i + 1 + Z.of_nat k) seg)
                       good =
                  imap ((fun k seg => entry_of (i + Z.of_nat k) seg) ∘ S)
                       good).
      { apply imap_ext. intros k x _. simpl. f_equal. lia. }
      by rewrite E.
    + rewrite <- Hbad. f_equal. cbn [length]. lia.
    + cbn [fs]. apply lookup_insert_eq.
Qed.

(** X20 — When the audio is extracted and the transcription returns
    segments with finite times that are not negative,
    [generate_subtitles_with_whisper] returns the path of the subtitle
    file, which holds one entry for each segment, removes the temporary
    audio and prints where the file was saved. *)
Theorem X20_subtitles_saved t video_path language w out w2 segments w3 :
  is_Some (fs w !! video_path) ->
  subprocess_run t
    (ffmpeg_command video_path (audio_path_of video_path)) true
    (World (fs w) (console w ++ [py "Extracting audio..."]) (requests w)) =
    (Ok out, w2) ->
  transcribe t (audio_path_of video_path) (language_option language)
    (World (fs w2)
           (console w2 ++ [py "Generating subtitles with Whisper..."])
           (requests w2)) = (Ok segments, w3) ->
  Forall timed segments ->
  is_Some (fs w3 !! audio_path_of video_path) ->
  generate_subtitles_with_whisper t video_path language w =
  (Ok (Some (output_srt_path_of video_path)),
   World (delete (audio_path_of video_path)
            (<[output_srt_path_of video_path :=
                concat (imap (fun k segment =>
                                entry_of (Z.of_nat k + 1) segment)
                             segments)]> (fs w3)))
         (console w3 ++
          [py "Subtitle file saved to: " ++ output_srt_path_of video_path])
         (requests w3)).
Proof.
  intros Hv Hff Htr Ht Ha.
  rewrite (generate_run t video_path language w Hv). cbv zeta.
  rewrite Hff, Htr, (write_srt_run _ _ _ Ht). cbn [fs console requests].
  rewrite bool_decide_eq_true_2; [done|].
  rewrite lookup_insert_ne; [done|].
  apply not_eq_sym, audio_path_ne_srt.
Qed.

Lemma X20_witness :
  fs (generate_subtitles_with_whisper MoreSamples.working (py "movie.mkv")
        (Some (py "en")) MoreSamples.world_with_video).2 =
  delete (audio_path_of (py "movie.mkv"))
    (<[output_srt_path_of (py "movie.mkv") :=
        concat (imap (fun k segment => entry_of (Z.of_nat k + 1) segment)
                     Samples.two_segments)]>
       (<[py "movie_temp.wav" := py "RIFF"]>
          (fs MoreSamples.world_with_video))).
Proof.
  assert (Hv : is_Some (fs MoreSamples.world_with_video !! py "movie.mkv"))
    by (vm_compute; by eexists).
  assert (Ht : Forall timed Samples.two_segments)
    by (repeat constructor; by vm_compute).
  assert (Ha : is_Some
                 (<[py "movie_temp.wav" := py "RIFF"]>
                    (fs MoreSamples.world_with_video)
                  !! audio_path_of (py "movie.mkv")))
    by (vm_compute; by eexists).
  exact (f_equal (fun r => fs r.2)
           (X20_subtitles_saved MoreSamples.working (py "movie.mkv")
              (Some (py "en")) MoreSamples.world_with_video [] _
              Samples.two_segments _ Hv eq_refl eq_refl Ht Ha)).
Defined.

(** X21 — When [ffmpeg] fails and nothing stands at the path of the
    temporary audio afterwards, neither a file nor a directory,
    [generate_subtitles_with_whisper] returns [None] and prints the
    error; the transcription is not run, no subtitle file is written and
    nothing is removed: the files are those [ffmpeg] left. *)
Theorem X21_failed_audio_extraction t video_path language w e w2 :
  is_Some (fs w !! video_path) ->
  subprocess_run t
    (ffmpeg_command video_path (audio_path_of video_path)) true
    (World (fs w) (console w ++ [py "Extracting audio..."]) (requests w)) =
    (Raise e, w2) ->
  fs w2 !! audio_path_of video_path = None ->
  isdir (fs w2) (audio_path_of video_path) = false ->
  generate_subtitles_with_whisper t video_path language w =
  (Ok None,
   World (fs w2)
         (console w2 ++ [py "Error generating subtitles: " ++ e])
         (requests w2)).
Proof.
  intros Hv Hff Hnone _.
  rewrite (generate_run t video_path language w Hv). cbv zeta.
  by rewrite Hff, delete_id.
Qed.

Lemma X21_witness :
  generate_subtitles_with_whisper MoreSamples.missing (py "movie.mkv")
    None MoreSamples.world_with_video =
  (Ok None,
   World (fs MoreSamples.world_with_video)
         ((console MoreSamples.world_with_video ++
           [py "Extracting audio..."]) ++
          [py "Error generating subtitles: " ++
           py "[Errno 2] No such file or directory"])
         (requests MoreSamples.world_with_video)).
Proof.
  assert (Hv : is_Some (fs MoreSamples.world_with_video !! py "movie.mkv"))
    by (vm_compute; by eexists).
  assert (Hn : fs MoreSamples.world_with_video
                 !! audio_path_of (py "movie.mkv") = None)
    by (by vm_compute).
  assert (Hd : isdir (fs MoreSamples.world_with_video)
                 (audio_path_of (py "movie.mkv")) = false)
    by (by vm_compute).
  exact (X21_failed_audio_extraction MoreSamples.missing (py "movie.mkv")
           None MoreSamples.world_with_video _ _ Hv eq_refl Hn Hd).
Defined.

(** X22 — When a segment has no timecode (a time that is NaN or
    infinite), [generate_subtitles_with_whisper] returns [None] and
    prints the error, the temporary audio is removed, and the subtitle
    file is left with the entries of the segments before that one. *)
Theorem X22_partial_file_after_a_bad_segment t video_path language w out w2
    good bad rest e w3 :
  is_Some (fs w !! video_path) ->
  subprocess_run t
    (ffmpeg_command video_path (audio_path_of video_path)) true
    (World (fs w) (console w ++ [py "Extracting audio..."]) (requests w)) =
    (Ok out, w2) ->
  transcribe t (audio_path_of video_path) (language_option language)
    (World (fs w2)
           (console w2 ++ [py "Generating subtitles with Whisper..."])
           (requests w2)) = (Ok (good ++ bad :: rest), w3) ->
  Forall timed good ->
  segment_entry (Z.of_nat (length good) + 1) bad = Raise e ->
  generate_subtitles_with_whisper t video_path language w =
  (Ok None,
   World (delete (audio_path_of video_path)
            (<[output_srt_path_of video_path :=
                concat (imap (fun k segment =>
                                entry_of (Z.of_nat k + 1) segment)
                             good)]> (fs w3)))
         (console w3 ++ [py "Error generating subtitles: " ++ e])
         (requests w3)).
Proof.
  intros Hv Hff Htr Ht Hbad.
  rewrite (generate_run t video_path language w Hv). cbv zeta.
  rewrite Hff, Htr. unfold write_srt, bind at 1, open_w.
  rewrite (write_segments_fails _ good bad rest e 1 _ []);
    [|done | by rewrite Z.add_comm | cbn [fs]; apply lookup_insert_eq].
  cbn [fs console requests]. rewrite insert_insert_eq, app_nil_l.
  assert (E : imap (fun k seg => entry_of (1 + Z.of_nat k) seg) good =
              imap (fun k seg => entry_of (Z.of_nat k + 1) seg) good).
  { apply imap_ext. intros k x _. simpl. f_equal. lia. }
  by rewrite E.
Qed.

Lemma X22_witness :
  generate_subtitles_with_whisper
    (MoreSamples.working_with MoreSamples.nan_segments) (py "movie.mkv")
    (Some (py "en")) MoreSamples.world_with_video =
  (Ok None,
   World (delete (audio_path_of (py "movie.mkv"))
            (<[output_srt_path_of (py "movie.mkv") :=
                concat (imap (fun k segment =>
                                entry_of (Z.of_nat k + 1) segment)
                             (take 1 MoreSamples.nan_segments))]>
               (<[py "movie_temp.wav" := py "RIFF"]>
                  (fs MoreSamples.world_with_video))))
         ([py "Extracting audio...";
           py "Generating subtitles with Whisper..."] ++
          [py "Error generating subtitles: " ++
           py "cannot convert float NaN to integer"])
         []).
Proof.
  assert (Hv : is_Some (fs MoreSamples.world_with_video !! py "movie.mkv"))
    by (vm_compute; by eexists).
  assert (Ht : Forall timed (take 1 MoreSamples.nan_segments))
    by (repeat constructor; by vm_compute).
  assert (Hbad : segment_entry
                   (Z.of_nat (length (take 1 MoreSamples.nan_segments)) + 1)
                   (Segment S754_nan (of_int 2) (py "there")) =
                 Raise (py "cannot convert float NaN to integer"))
    by (by vm_compute).
  exact (X22_partial_file_after_a_bad_segment
           (MoreSamples.working_with MoreSamples.nan_segments)
           (py "movie.mkv") (Some (py "en")) MoreSamples.world_with_video
           [] _ (take 1 MoreSamples.nan_segments)
           (Segment S754_nan (of_int 2) (py "there")) []
           (py "cannot convert float NaN to integer") _
           Hv eq_refl eq_refl Ht Hbad).
Defined.

End WhisperFacts.

(* ===================================================================== *)
(** * From the file written to the chunks read                        *)
(* ===================================================================== *)

Module RoundTrip.
Import Float SubtitleProcessor Whisper.
Import ParserFacts PathFacts RunFacts FloatFacts FormatFacts EntryFacts.

(** The lines of an entry that is followed by [more] *)
Lemma entry_lines i segment more :
  0 <= i -> timed segment -> ~ In LF (strip (seg_text segment)) ->
  iter_lines (entry_of i segment ++ more) =
    [str_of_int i ++ py "\n";
     timecode (seg_start segment) ++ py " --> " ++
       timecode (seg_end segment) ++ py "\n";
     strip (seg_text segment) ++ py "\n";
     [LF]] ++ iter_lines more.
Proof.
  intros Hi (Hv1 & Hn1 & Hv2 & Hn2) Hnl.
  destruct (timecode_ok _ Hv1 Hn1) as [_ Hs].
  destruct (timecode_ok _ Hv2 Hn2) as [_ He].
  destruct (index_line_isdigit i Hi) as [_ Hil].
  set (text := strip (seg_text segment)) in *.
  unfold entry_of. fold text.
  change (py "\n") with [LF]. change (py "\n\n") with [LF; LF].
  replace ((str_of_int i ++ [LF] ++
            timecode (seg_start segment) ++ py " --> " ++
            timecode (seg_end segment) ++ [LF] ++ text ++ [LF; LF]) ++ more)
    with (str_of_int i ++ LF ::
          (timecode (seg_start segment) ++ py " --> " ++
           timecode (seg_end segment)) ++ LF ::
          text ++ LF :: [] ++ LF :: more)
    by (rewrite <- !app_assoc; reflexivity).
  rewrite iter_lines_line by done.
  rewrite iter_lines_line.
  2:{ rewrite !in_app_iff. intros [H|[H|H]]; [done| |done].
      vm_compute in H. by repeat destruct H as [H|H]. }
  rewrite iter_lines_line by done.
  rewrite iter_lines_line by (by intros []).
  by rewrite <- !app_assoc.
Qed.

(** The parser on the four lines of an entry: the chunk that was open is
    closed, the entry without its blank line is the chunk now open. *)
Lemma parse_entry i segment rest dbs cur :
  0 <= i -> timed segment ->
  strip (seg_text segment) <> [] -> ~ In LF (strip (seg_text segment)) ->
  isdigit (strip (seg_text segment)) = false ->
  parse_lines
    ([str_of_int i ++ py "\n";
      timecode (seg_start segment) ++ py " --> " ++
        timecode (seg_end segment) ++ py "\n";
      strip (seg_text segment) ++ py "\n";
      [LF]] ++ rest) dbs cur =
  parse_lines rest (if truthy cur then dbs ++ [cur] else dbs)
    (chunk_of i segment).
Proof.
  intros Hi Ht Hne Hnl Hnd.
  destruct (index_line_isdigit i Hi) as [Hidx _].
  set (text := strip (seg_text segment)) in *.
  set (idx := str_of_int i ++ py "\n") in *.
  set (time := timecode (seg_start segment) ++ py " --> " ++
               timecode (seg_end segment) ++ py "\n").
  set (txt := text ++ py "\n").
  cbn [app parse_lines].
  rewrite (read_line_index idx) by done.
  rewrite (read_line_arrow time).
  2:{ apply contains_app. exists (timecode (seg_start segment) ++ [" "%char]),
        (" "%char :: timecode (seg_end segment) ++ py "\n").
      subst time. by rewrite <- !app_assoc. }
  assert (Hst : strip txt = text).
  { subst txt. apply strip_line; [apply strip_idemp | done | done]. }
  rewrite (read_line_text txt) by (by rewrite Hst).
  rewrite (read_line_blank [LF]) by done.
  unfold chunk_of. fold text. subst idx time txt.
  by rewrite <- !app_assoc.
Qed.

Lemma parse_entries segments : forall i dbs cur,
  0 <= i -> Forall timed segments ->
  Forall (fun segment =>
            strip (seg_text segment) <> [] /\
            ~ In LF (strip (seg_text segment)) /\
            isdigit (strip (seg_text segment)) = false) segments ->
  last_batch
    (parse_lines
       (iter_lines (concat (imap (fun k segment =>
                                    entry_of (i + Z.of_nat k) segment)
                                 segments))) dbs cur) =
  last_batch (dbs, cur) ++
  imap (fun k segment => chunk_of (i + Z.of_nat k) segment) segments.
Proof.
  induction segments as [|seg rest IH]; intros i dbs cur Hi Ht Hx.
  - cbn [imap concat]. by rewrite app_nil_r.
  - apply Forall_cons in Ht as [Hseg Ht].
    apply Forall_cons in Hx as [(Hne & Hnl & Hnd) Hx].
    rewrite !imap_cons. cbn [concat]. rewrite Z.add_0_r.
    rewrite entry_lines, parse_entry by done.
    assert (E1 : imap ((fun k segment => entry_of (i + Z.of_nat k) segment)
                       ∘ S) rest =
                 imap (fun k segment => entry_of (i + 1 + Z.of_nat k) segment)
                      rest).
    { apply imap_ext. intros k x _. simpl. f_equal. lia. }
    assert (E2 : imap ((fun k segment => chunk_of (i + Z.of_nat k) segment)
                       ∘ S) rest =
                 imap (fun k segment => chunk_of (i + 1 + Z.of_nat k) segment)
                      rest).
    { apply imap_ext. intros k x _. simpl. f_equal. lia. }
    rewrite E1, E2, IH by (done || lia).
    destruct (str_of_int_nonneg i Hi) as (d & _ & Hn0 & _).
    unfold last_batch at 1.
    assert (Hc : truthy (chunk_of i seg) = true).
    { unfold chunk_of. by destruct (str_of_int i). }
    rewrite Hc. unfold last_batch. by rewrite <- app_assoc.
Qed.

(** The parse of the file written for a list of segments *)
Lemma parse_written segments :
  Forall timed segments ->
  Forall (fun segment =>
            strip (seg_text segment) <> [] /\
            ~ In LF (strip (seg_text segment)) /\
            ~ In CR (strip (seg_text segment)) /\
            isdigit (strip (seg_text segment)) = false) segments ->
  parseStream
    (iter_lines
       (universal_newlines
          (concat (imap (fun k segment => entry_of (Z.of_nat k + 1) segment)
                        segments)))) =
  imap (fun k segment => chunk_of (Z.of_nat k + 1) segment) segments.
Proof.
  intros Ht Hx.
  assert (E : imap (fun k segment => entry_of (Z.of_nat k + 1) segment)
                   segments =
              imap (fun k segment => entry_of (1 + Z.of_nat k) segment)
                   segments).
  { apply imap_ext. intros k x _. simpl. f_equal. lia. }
  rewrite E, universal_newlines_id.
  - unfold parseStream.
    pose proof (parse_entries segments 1 [] [] ltac:(lia) Ht) as H.
    unfold last_batch in H.
    destruct (parse_lines _ [] []) as [D c].
    rewrite H.
    + cbn [truthy app]. apply imap_ext. intros k x _. simpl.
      f_equal. lia.
    + eapply Forall_impl; [exact Hx|]. simpl. tauto.
  - clear E. intros Hin. apply in_concat in Hin as (entry & He & Hin).
    apply list_elem_of_In, list_elem_of_lookup in He as [k Hk].
    rewrite list_lookup_imap in Hk.
    destruct (segments !! k) as [seg|] eqn:Hseg; [|done].
    injection Hk as <-. revert Hin. apply entry_no_CR; [lia| |].
    + exact (Forall_lookup_1 _ _ _ _ Ht Hseg).
    + apply (Forall_lookup_1 _ _ _ _ Hx Hseg).
Qed.

(** X23 — What the transcription writes, the translation reads back:
    for segments with finite times that are not negative, whose trimmed
    text is not empty, holds no line feed and no carriage return and is
    no number, [translate_subtitles] run on the file written (with a
    service that answers and an output path that can be opened) forms
    one chunk for each segment, in order, the entry without its blank
    line, and sends these chunks in batches. *)
Theorem X23_written_entries_are_read_back respond srt_path target_language
    segments w :
  Forall timed segments ->
  Forall (fun segment =>
            strip (seg_text segment) <> [] /\
            ~ In LF (strip (seg_text segment)) /\
            ~ In CR (strip (seg_text segment)) /\
            isdigit (strip (seg_text segment)) = false) segments ->
  let w1 := (write_srt srt_path segments w).2 in
  open_error (fs w1) (output_path_of srt_path target_language) = None ->
  requests
    (translate_subtitles (Some (answering respond)) srt_path
       target_language w1).2 =
  requests w ++
  map (request_of target_language)
    (batches_of
       (imap (fun k segment => chunk_of (Z.of_nat k + 1) segment)
             segments)).
Proof.
  intros Ht Hx w1 Hopen. subst w1.
  rewrite (WhisperFacts.write_srt_run _ _ _ Ht) in *. cbn [snd] in *.
  erewrite translate_subtitles_run;
    [| cbn [fs]; apply lookup_insert_eq | exact Hopen].
  cbn [snd requests]. by rewrite (parse_written _ Ht Hx).
Qed.

Lemma X23_witness :
  let w1 := (write_srt (py "out.srt") Samples.two_segments
               (World ∅ [] [])).2 in
  requests
    (translate_subtitles (Some (answering Samples.echo)) (py "out.srt")
       (py "French") w1).2 =
  [] ++
  map (request_of (py "French"))
    (batches_of
       (imap (fun k segment => chunk_of (Z.of_nat k + 1) segment)
             Samples.two_segments)).
Proof.
  intros w1.
  assert (Ht : Forall timed Samples.two_segments)
    by (repeat constructor; by vm_compute).
  assert (Hx : Forall (fun segment =>
                         strip (seg_text segment) <> [] /\
                         ~ In LF (strip (seg_text segment)) /\
                         ~ In CR (strip (seg_text segment)) /\
                         isdigit (strip (seg_text segment)) = false)
                      Samples.two_segments).
  { repeat constructor; try (by vm_compute);
      vm_compute; intros H; by repeat destruct H as [H|H]. }
  assert (Hopen : open_error (fs w1)
                    (output_path_of (py "out.srt") (py "French")) = None)
    by (by vm_compute).
  exact (X23_written_entries_are_read_back Samples.echo (py "out.srt")
           (py "French") Samples.two_segments (World ∅ [] []) Ht Hx Hopen).
Defined.

End RoundTrip.
